(** * btc-launchpad: slippage, price-impact and virtual-reserve glue

    A shallow embedding of the numeric helpers of the launchpad front end
    (the formatting utilities and the [LaunchpadClient] wrapper around the
    Flashnet SDK) together with the properties its specification states
    about them.

    JavaScript has two numeric types and the sources mix them:
    - [bigint], arbitrary-precision integers, modelled by [Z]; the BigInt
      division [/] truncates toward zero and is [Z.quot];
    - [number], IEEE-754 binary64, modelled by [spec_float] with precision
      53 and maximal exponent 1024, using the reference operations of the
      standard library ([SFmul], [SFdiv], [SFsub], round to nearest even). *)

From Stdlib Require Import ZArith Lia Bool List Ascii String SpecFloat.
From Stdlib Require Import DecimalString.
From Stdlib Require PrimFloat FloatOps.
Import ListNotations.
Local Open Scope Z_scope.

(** ** The fragment of JavaScript the sources use *)

Module JS.

Definition prec : Z := 53.
Definition emax : Z := 1024.

(** A JavaScript [number]. *)
Definition number : Type := spec_float.

Definition NaN : number := S754_nan.
Definition PosInfinity : number := S754_infinity false.
Definition NegInfinity : number := S754_infinity true.

(** Exceptions a call can end with. *)
Inductive error : Type :=
| RangeError (message : string)
| TypeError (message : string)
| Error (message : string).

Definition message_of (e : error) : string :=
  match e with
  | RangeError m => m
  | TypeError m => m
  | Error m => m
  end.

(** How a call ends: it returns a value or it throws. *)
Inductive completion (A : Type) : Type :=
| Normal (value : A)
| Throw (e : error).

Arguments Normal {A} value.
Arguments Throw {A} e.

Definition bind {A B : Type} (c : completion A) (k : A -> completion B)
  : completion B :=
  match c with
  | Normal v => k v
  | Throw e => Throw e
  end.

(** [try { c } catch (error) { h error }] *)
Definition try_catch {A : Type} (c : completion A) (h : error -> completion A)
  : completion A :=
  match c with
  | Normal v => Normal v
  | Throw e => h e
  end.

(** [Number(n)] for a bigint [n]: the nearest double, ties to even,
    [Infinity] from 2^1024 - 2^970 on. *)
Definition Number_of_bigint (n : Z) : number :=
  binary_normalize prec emax n 0 false.

(** A numeric literal with an integral value, such as [10000]. *)
Definition lit (n : Z) : number := Number_of_bigint n.

Definition mul : number -> number -> number := SFmul prec emax.
Definition div : number -> number -> number := SFdiv prec emax.
Definition sub : number -> number -> number := SFsub prec emax.

Definition Math_abs : number -> number := SFabs.

(** The exact integer part, rounded toward minus infinity, of a finite
    double [(-1)^s * m * 2^e]. *)
Definition floor_finite (s : bool) (m : positive) (e : Z) : Z :=
  if 0 <=? e then cond_Zopp s (Zpos m) * 2 ^ e
  else Z.shiftr (cond_Zopp s (Zpos m)) (- e).

(** [Math.floor(x)]: NaN, the infinities and the zeros are returned as
    they are. *)
Definition Math_floor (x : number) : number :=
  match x with
  | S754_finite s m e =>
      if 0 <=? e then x
      else binary_normalize prec emax (floor_finite s m e) 0 s
  | _ => x
  end.

(** [n.toString()] for a bigint. *)
Definition bigint_toString (n : Z) : string :=
  NilZero.string_of_int (Z.to_int n).

(** A string of [n] zeros. *)
Definition zeros (n : Z) : string :=
  Z.iter n (String "0"%char) EmptyString.

(** The decimal digits of a positive integer without its trailing zeros. *)
Fixpoint strip_zeros (digits : string) : string :=
  match digits with
  | EmptyString => EmptyString
  | String c rest =>
      match strip_zeros rest with
      | EmptyString => if Ascii.eqb c "0"%char then EmptyString else String c EmptyString
      | rest' => String c rest'
      end
  end.

(** [s * 10^p] against [num / den]: [Lt], [Eq] or [Gt]. *)
Definition compare_scaled (s p num den : Z) : comparison :=
  if 0 <=? p then (s * 10 ^ p * den ?= num)
  else (s * den ?= num * 10 ^ (- p)).

(** The rounding interval of the double [m * 2^e]: the numerators of the
    double, of the halfway points to its two neighbours, and their common
    denominator. The lower neighbour is half as far below a power of two. *)
Definition rounding_interval (m : positive) (e : Z) : Z * Z * Z * Z :=
  let v := 4 * Z.pos m in
  let lo := if (Z.pos m =? 2 ^ 52) && (-1074 <? e) then v - 1 else v - 2 in
  let hi := v + 2 in
  if 2 <=? e then (v * 2 ^ (e - 2), lo * 2 ^ (e - 2), hi * 2 ^ (e - 2), 1)
  else (v, lo, hi, 2 ^ (2 - e)).

(** The least [n] with [num / den < 10^n]. *)
Definition decimal_exponent (num den : Z) : Z :=
  let a := Z.of_nat (String.length (bigint_toString num)) in
  let b := Z.of_nat (String.length (bigint_toString den)) in
  match compare_scaled 1 (a - b) num den with
  | Gt => a - b
  | _ => a - b + 1
  end.

(** The shortest decimal that rounds to the double: the integer [s] and
    the exponent [p] of the value [s * 10^p], trying [k], [k + 1], ...
    significant digits; of two candidates the nearer one, of two equally
    near ones the even one. *)
Fixpoint shortest (fuel : nat) (k n : Z) (even : bool) (v lo hi den : Z)
  : Z * Z :=
  let p := n - k in
  let sL := if 0 <=? p then v / (den * 10 ^ p) else (v * 10 ^ (- p)) / den in
  let sH := sL + 1 in
  let inside (s : Z) :=
    match compare_scaled s p lo den, compare_scaled s p hi den with
    | Gt, Lt => true
    | Eq, Lt | Gt, Eq => even
    | _, _ => false
    end in
  match fuel with
  | O => (sL, p)
  | S fuel' =>
      match inside sL, inside sH with
      | true, false => (sL, p)
      | false, true => (sH, p)
      | true, true =>
          match compare_scaled (2 * sL + 1) p (2 * v) den with
          | Gt => (sL, p)
          | Lt => (sH, p)
          | Eq => if Z.even sL then (sL, p) else (sH, p)
          end
      | false, false => shortest fuel' (k + 1) n even v lo hi den
      end
  end.

(** [Number::toString] for a positive finite double [m * 2^e]. *)
Definition positive_toString (m : positive) (e : Z) : string :=
  let '(v, lo, hi, den) := rounding_interval m e in
  let n0 := decimal_exponent v den in
  let '(s, p) := shortest 17 1 n0 (Z.even (Z.pos m)) v lo hi den in
  let all := bigint_toString s in
  let digits := strip_zeros all in
  let k := Z.of_nat (String.length digits) in
  let n := p + Z.of_nat (String.length all) in
  if (k <=? n) && (n <=? 21) then (digits ++ zeros (n - k))%string
  else if (0 <? n) && (n <=? 21) then
    (substring 0 (Z.to_nat n) digits ++ "."
     ++ substring (Z.to_nat n) (Z.to_nat (k - n)) digits)%string
  else if (-6 <? n) && (n <=? 0) then ("0." ++ zeros (- n) ++ digits)%string
  else
    let mantissa :=
      if k =? 1 then digits
      else (substring 0 1 digits ++ "."
            ++ substring 1 (Z.to_nat (k - 1)) digits)%string in
    let sign := if n - 1 <? 0 then "-"%string else "+"%string in
    (mantissa ++ "e" ++ sign ++ bigint_toString (Z.abs (n - 1)))%string.

(** [String(x)], the shortest digits that read back as [x]. An integer
    below 2^53 is its own shortest decimal. *)
Definition Number_toString (x : number) : string :=
  match x with
  | S754_nan => "NaN"%string
  | S754_infinity false => "Infinity"%string
  | S754_infinity true => "-Infinity"%string
  | S754_zero _ => "0"%string
  | S754_finite s m e =>
      let sign := if s then "-"%string else EmptyString in
      let magnitude :=
        if 0 <=? e then
          if Z.pos m * 2 ^ e <? 2 ^ 53 then bigint_toString (Z.pos m * 2 ^ e)
          else positive_toString m e
        else if (Z.pos m mod 2 ^ (- e) =? 0)
                && (Z.pos m / 2 ^ (- e) <? 2 ^ 53)
             then bigint_toString (Z.pos m / 2 ^ (- e))
             else positive_toString m e in
      (sign ++ magnitude)%string
  end.

(** The message of the RangeError that [BigInt(x)] throws, in the words
    of V8, the engine of Node and Chrome: it names the number. *)
Definition not_an_integer (x : number) : string :=
  ("The number " ++ Number_toString x
   ++ " cannot be converted to a BigInt because it is not an integer")%string.

(** [BigInt(x)] for a number [x]: a RangeError unless [x] is integral. *)
Definition BigInt_of_number (x : number) : completion Z :=
  match x with
  | S754_zero _ => Normal 0
  | S754_finite s m e =>
      if 0 <=? e then Normal (cond_Zopp s (Zpos m) * 2 ^ e)
      else if Zpos m mod 2 ^ (- e) =? 0
           then Normal (cond_Zopp s (Zpos m / 2 ^ (- e)))
           else Throw (RangeError (not_an_integer x))
  | _ => Throw (RangeError (not_an_integer x))
  end.

(** What foreign code hands over where an object is expected: an object,
    [undefined] or [null]. *)
Inductive foreign (A : Type) : Type :=
| object (a : A)
| undefined
| null.

Arguments object {A} a.
Arguments undefined {A}.
Arguments null {A}.

(** [answer.property] where the object's own content does not matter:
    reading a property of [undefined] or [null] is a TypeError, worded as
    V8 words it. *)
Definition read_property {A : Type} (answer : foreign A) (property : string)
  : completion A :=
  match answer with
  | object a => Normal a
  | undefined =>
      Throw (TypeError ("Cannot read properties of undefined (reading '"
                        ++ property ++ "')"))
  | null =>
      Throw (TypeError ("Cannot read properties of null (reading '"
                        ++ property ++ "')"))
  end.

(** Truthiness, as [||] and [&&] and [if] test it. *)
Definition truthy_number (x : number) : bool :=
  match x with
  | S754_zero _ | S754_nan => false
  | _ => true
  end.

Definition truthy_bigint (n : Z) : bool := negb (n =? 0).

Definition truthy_opt {A : Type} (truthy : A -> bool) (v : option A) : bool :=
  match v with
  | Some a => truthy a
  | None => false
  end.

(** [v || d] where [v] is a number or [undefined]. *)
Definition or_number (v : option number) (d : number) : number :=
  match v with
  | Some x => if truthy_number x then x else d
  | None => d
  end.

(** [s.includes(t)] *)
Fixpoint includes (s t : string) : bool :=
  if String.prefix t s then true
  else match s with
       | EmptyString => false
       | String _ s' => includes s' t
       end.

End JS.

Import JS.

Notation "x <- c ;; k" := (JS.bind c (fun x => k))
  (at level 61, c at next level, right associativity).

(** ** Formatting utilities: price impact and slippage *)

Module Format.

(** [calculatePriceImpact(amountIn, amountOut, reserveIn, reserveOut)] *)
Definition calculatePriceImpact (amountIn amountOut reserveIn reserveOut : Z)
  : completion number :=
  let expectedOut :=
    div (mul (Number_of_bigint amountIn) (Number_of_bigint reserveOut))
        (Number_of_bigint reserveIn) in
  let actualOut := Number_of_bigint amountOut in
  let impact := mul (div (sub expectedOut actualOut) expectedOut) (lit 100) in
  Normal (Math_abs impact).

(** [calculateSlippage(amount, slippageBps)] *)
Definition calculateSlippage (amount : Z) (slippageBps : number)
  : completion Z :=
  let slippagePercent := div slippageBps (lit 10000) in
  let slippageAmount := mul (Number_of_bigint amount) slippagePercent in
  floored <- BigInt_of_number (Math_floor slippageAmount) ;;
  Normal (amount - floored).

End Format.

Import Format.

(** ** The Flashnet SDK wrapper *)

Module Flashnet.

(** [interface VirtualReserves] *)
Module VirtualReserves.
Record t : Type := {
  virtualReserveA : Z;
  virtualReserveB : Z;
  threshold : Z
}.
End VirtualReserves.

(** The argument object of [calculateVirtualReserves]. *)
Module VirtualReserveParams.
Record t : Type := {
  initialTokenSupply : string;
  graduationThresholdPct : number;
  targetRaise : string
}.
End VirtualReserveParams.

(** [interface SwapParams]; [maxSlippageBps] may be [undefined] at run
    time, which is [None]. *)
Module SwapParams.
Record t : Type := {
  poolId : string;
  assetIn : string;
  assetOut : string;
  amountIn : Z;
  minAmountOut : Z;
  maxSlippageBps : option number
}.
End SwapParams.

(** The argument object of the SDK's [simulateSwap]. *)
Module SimulateSwapRequest.
Record t : Type := {
  poolId : string;
  assetInAddress : string;
  assetOutAddress : string;
  amountIn : string
}.
End SimulateSwapRequest.

(** What [simulateSwap] answers. The SDK sends [amountOut] as a decimal
    string; the record holds the integer it denotes, so that
    [BigInt(simulation.amountOut)] is the field itself. *)
Module SwapSimulation.
Record t : Type := {
  amountOut : Z;
  executionPrice : number;
  priceImpactPct : number
}.
End SwapSimulation.

(** The argument object of the SDK's [executeSwap]. *)
Module ExecuteSwapRequest.
Record t : Type := {
  poolId : string;
  assetInAddress : string;
  assetOutAddress : string;
  amountIn : string;
  minAmountOut : string;
  maxSlippageBps : number
}.
End ExecuteSwapRequest.

Section Client.

(** The SDK's answer to an executed swap and the wallet object are
    opaque to this code, but for the two properties of the answer that a
    log line reads. What the SDK's promises resolve to is foreign: an
    object, [undefined] or [null]. *)
Variables SwapResponse Wallet : Type.

(** The instance methods of the SDK's [FlashnetClient] used here. *)
Record FlashnetClient : Type := {
  simulateSwap :
    SimulateSwapRequest.t -> completion (foreign SwapSimulation.t);
  client_executeSwap :
    ExecuteSwapRequest.t -> completion (foreign SwapResponse)
}.

(** The static [FlashnetClient.calculateVirtualReserves] of the SDK. *)
Variable FlashnetClient_calculateVirtualReserves :
  VirtualReserveParams.t -> completion VirtualReserves.t.

(** The private fields of [class LaunchpadClient]; [null] is [None]. *)
Record LaunchpadClient : Type := {
  client : option FlashnetClient;
  wallet : option Wallet
}.

(** [getClient()] *)
Definition getClient (this : LaunchpadClient) : completion FlashnetClient :=
  match client this with
  | Some c => Normal c
  | None => Throw (Error "Client not initialized - call initialize() first")
  end.

(** [static calculateVirtualReserves(params)]: a static method, it has
    no [this]. *)
Definition calculateVirtualReserves (params : VirtualReserveParams.t)
  : completion VirtualReserves.t :=
  FlashnetClient_calculateVirtualReserves params.

(** [const slippageTolerance = params.maxSlippageBps || 100] *)
Definition slippageTolerance (params : SwapParams.t) : number :=
  or_number (SwapParams.maxSlippageBps params) (lit 100).

(** [const slippageMultiplier = BigInt(10000 - slippageTolerance)] *)
Definition slippageMultiplier (params : SwapParams.t) : completion Z :=
  BigInt_of_number (sub (lit 10000) (slippageTolerance params)).

(** [(BigInt(simulation.amountOut) * slippageMultiplier) / BigInt(10000)] *)
Definition minAmountOut (simulation : SwapSimulation.t) (multiplier : Z) : Z :=
  Z.quot (SwapSimulation.amountOut simulation * multiplier) 10000.

(** Step 2 of [executeSwap]: the value of [const minAmountOut] for a
    given answer of the simulation. *)
Definition slippageProtection
    (params : SwapParams.t) (simulation : SwapSimulation.t) : completion Z :=
  multiplier <- slippageMultiplier params ;;
  Normal (minAmountOut simulation multiplier).

(** The request that step 3 passes to the SDK's [executeSwap]. *)
Definition swapRequest (params : SwapParams.t) (simulation : SwapSimulation.t)
  : completion ExecuteSwapRequest.t :=
  protected <- slippageProtection params simulation ;;
  Normal {|
    ExecuteSwapRequest.poolId := SwapParams.poolId params;
    ExecuteSwapRequest.assetInAddress := SwapParams.assetIn params;
    ExecuteSwapRequest.assetOutAddress := SwapParams.assetOut params;
    ExecuteSwapRequest.amountIn := bigint_toString (SwapParams.amountIn params);
    ExecuteSwapRequest.minAmountOut := bigint_toString protected;
    ExecuteSwapRequest.maxSlippageBps :=
      or_number (SwapParams.maxSlippageBps params) (lit 100)
  |}.

(** The object [executeSwap] resolves to. *)
Record SwapOutcome : Type := {
  success : bool;
  result : option SwapResponse;
  error : option string
}.

Definition failed (message : string) : SwapOutcome :=
  {| success := false; result := None; error := Some message |}.

(** The [catch] block of [executeSwap]. *)
Definition swapCatch (e : JS.error) : SwapOutcome :=
  let m := message_of e in
  if includes m "Insufficient balance" then
    failed "Not enough funds to execute swap"
  else if includes m "Slippage exceeded" then
    failed "Price moved too much during execution"
  else if includes m "Pool inactive" then
    failed "Pool is currently inactive"
  else failed m.

(** The end of step 3, once the SDK has answered: the log line reads
    [result.amountOut] and [result.outboundTransferId], then the answer
    is returned. *)
Definition swapExecuted (answer : foreign SwapResponse)
  : completion SwapOutcome :=
  r <- read_property answer "amountOut" ;;
  Normal {| success := true; result := Some r; error := None |}.

(** [async executeSwap(params)]. Of the console output the reads that
    can throw are kept: the first log line reads [simulation.amountOut],
    the last [result.amountOut]. *)
Definition executeSwap (this : LaunchpadClient) (params : SwapParams.t)
  : completion SwapOutcome :=
  c <- getClient this ;;
  try_catch
    (quoted <- simulateSwap c {|
         SimulateSwapRequest.poolId := SwapParams.poolId params;
         SimulateSwapRequest.assetInAddress := SwapParams.assetIn params;
         SimulateSwapRequest.assetOutAddress := SwapParams.assetOut params;
         SimulateSwapRequest.amountIn :=
           bigint_toString (SwapParams.amountIn params) |} ;;
     simulation <- read_property quoted "amountOut" ;;
     request <- swapRequest params simulation ;;
     answer <- client_executeSwap c request ;;
     swapExecuted answer)
    (fun e => Normal (swapCatch e)).

End Client.

Arguments simulateSwap {SwapResponse} _ _.
Arguments client_executeSwap {SwapResponse} _ _.
Arguments client {SwapResponse Wallet} _.
Arguments wallet {SwapResponse Wallet} _.
Arguments getClient {SwapResponse Wallet} _.
Arguments success {SwapResponse} _.
Arguments result {SwapResponse} _.
Arguments error {SwapResponse} _.
Arguments failed {SwapResponse} _.
Arguments swapCatch {SwapResponse} _.
Arguments swapExecuted {SwapResponse} _.
Arguments executeSwap {SwapResponse Wallet} _ _.

End Flashnet.

(** ** The launch form's preview *)

Module TokenLaunchForm.

Import Flashnet.

(** The fields of [formData : Partial<TokenLaunchParams>] the preview
    reads; an absent field is [None]. *)
Module FormData.
Record t : Type := {
  initialSupply : option Z;
  graduationThresholdPct : option number;
  targetRaise : option Z
}.
End FormData.

(** The component state the preview writes, and the console. *)
Module PreviewState.
Record t : Type := {
  previewData : option VirtualReserves.t;
  console : list string
}.
End PreviewState.

Section Preview.

Variable FlashnetClient_calculateVirtualReserves :
  VirtualReserveParams.t -> completion VirtualReserves.t.

(** The condition of the [if] in [updatePreview]. *)
Definition previewable (formData : FormData.t) : bool :=
  truthy_opt truthy_bigint (FormData.initialSupply formData)
  && truthy_opt truthy_number (FormData.graduationThresholdPct formData)
  && truthy_opt truthy_bigint (FormData.targetRaise formData).

(** [updatePreview()] *)
Definition updatePreview (formData : FormData.t) (st : PreviewState.t)
  : PreviewState.t :=
  match FormData.initialSupply formData,
        FormData.graduationThresholdPct formData,
        FormData.targetRaise formData with
  | Some supply, Some pct, Some raise =>
      if previewable formData then
        match FlashnetClient_calculateVirtualReserves {|
                VirtualReserveParams.initialTokenSupply := bigint_toString supply;
                VirtualReserveParams.graduationThresholdPct := pct;
                VirtualReserveParams.targetRaise := bigint_toString raise |} with
        | Normal preview =>
            {| PreviewState.previewData := Some preview;
               PreviewState.console := PreviewState.console st |}
        | Throw e =>
            {| PreviewState.previewData := PreviewState.previewData st;
               PreviewState.console :=
                 PreviewState.console st
                 ++ [("Preview calculation failed: " ++ message_of e)%string] |}
        end
      else st
  | _, _, _ => st
  end.

End Preview.

End TokenLaunchForm.

(** ** The other formatting utilities *)

Module Display.

(** An index of [s.slice], clamped as the language prescribes: negative
    indices count from the end. *)
Definition slice_index (len i : Z) : Z :=
  if i <? 0 then Z.max (len + i) 0 else Z.min i len.

(** [s.slice(start, end)] for integral arguments; a string is the sequence
    of its code units. *)
Definition String_slice (s : string) (start end_ : Z) : string :=
  let len := Z.of_nat (String.length s) in
  let from := slice_index len start in
  let to := slice_index len end_ in
  String.substring (Z.to_nat from) (Z.to_nat (Z.max (to - from) 0)) s.

(** [s.slice(start)] *)
Definition String_slice_from (s : string) (start : Z) : string :=
  String_slice s start (Z.of_nat (String.length s)).

(** [formatAddress(address, chars = 8)] for an integral [chars]. *)
Definition formatAddress (address : string) (chars : option Z) : string :=
  let chars := match chars with Some c => c | None => 8 end in
  if Z.of_nat (String.length address) <=? chars * 2 then address
  else (String_slice address 0 chars ++ "..."
        ++ String_slice_from address (- chars))%string.

(** [x > y] on numbers. *)
Definition gt (x y : number) : bool := SFltb y x.

(** [timeAgo(timestamp)], with the value of [Date.now()] as [now]. *)
Definition timeAgo (now timestamp : number) : string :=
  let diff := sub now timestamp in
  let minutes := Math_floor (div diff (lit 60000)) in
  let hours := Math_floor (div diff (lit 3600000)) in
  let days := Math_floor (div diff (lit 86400000)) in
  if gt days (lit 0) then (Number_toString days ++ "d ago")%string
  else if gt hours (lit 0) then (Number_toString hours ++ "h ago")%string
  else if gt minutes (lit 0) then (Number_toString minutes ++ "m ago")%string
  else "Just now"%string.

(** [x >= y] on numbers. *)
Definition ge (x y : number) : bool := SFleb y x.

(** An argument of type [number | bigint]. *)
Inductive numeric : Type :=
| a_number (x : number)
| a_bigint (n : Z).

Section Formatting.

(** [n.toLocaleString('en-US', { minimumFractionDigits: d,
    maximumFractionDigits: d })] and [n.toFixed(d)], which the language's
    library provides. *)
Variable toLocaleString : number -> number -> string.
Variable toFixed : number -> number -> string.

(** [formatNumber(num, decimals = 2)] *)
Definition formatNumber (num : numeric) (decimals : option number) : string :=
  let n := match num with
           | a_bigint b => Number_of_bigint b
           | a_number x => x
           end in
  toLocaleString n match decimals with Some d => d | None => lit 2 end.

(** [formatVolume(volume)] *)
Definition formatVolume (volume : Z) : string :=
  let num := Number_of_bigint volume in
  if ge num (lit 1000000) then
    (formatNumber (a_number (div num (lit 1000000))) (Some (lit 1)) ++ "M")%string
  else if ge num (lit 1000) then
    (formatNumber (a_number (div num (lit 1000))) (Some (lit 1)) ++ "K")%string
  else formatNumber (a_number num) None.

(** [formatMarketCap(marketCap)] *)
Definition formatMarketCap (marketCap : Z) : string :=
  let num := Number_of_bigint marketCap in
  if ge num (lit 1000000000) then
    ("$" ++ toFixed (div num (lit 1000000000)) (lit 2) ++ "B")%string
  else if ge num (lit 1000000) then
    ("$" ++ toFixed (div num (lit 1000000)) (lit 2) ++ "M")%string
  else if ge num (lit 1000) then
    ("$" ++ toFixed (div num (lit 1000)) (lit 2) ++ "K")%string
  else ("$" ++ toFixed num (lit 2))%string.

End Formatting.

End Display.

(** ** The other methods of [LaunchpadClient] *)

Module Launchpad.

Import Flashnet.

(** [const BITCOIN_PUBLIC_KEY] *)
Definition BITCOIN_PUBLIC_KEY : string :=
  "020202020202020202020202020202020202020202020202020202020202020202".

(** [interface TokenLaunchParams]; an optional field may be absent. *)
Module TokenLaunchParams.
Record t : Type := {
  name : string;
  symbol : string;
  description : string;
  imageUrl : option string;
  initialSupply : Z;
  graduationThresholdPct : number;
  targetRaise : Z;
  lpFeeRateBps : number;
  totalHostFeeRateBps : number;
  hostNamespace : option string
}.
End TokenLaunchParams.

(** The argument object of the SDK's [createSingleSidedPool]. *)
Module CreatePoolRequest.
Record t : Type := {
  assetAAddress : string;
  assetBAddress : string;
  assetAInitialReserve : string;
  virtualReserveA : string;
  virtualReserveB : string;
  threshold : string;
  lpFeeRateBps : number;
  totalHostFeeRateBps : number;
  hostNamespace : option string
}.
End CreatePoolRequest.

(** [interface SwapQuote] *)
Module SwapQuote.
Record t : Type := {
  amountOut : Z;
  priceImpact : number;
  lpFee : Z;
  hostFee : Z;
  route : list string
}.
End SwapQuote.

(** The argument object of [SparkWallet.initialize]. *)
Module WalletConfig.
Record t : Type := {
  mnemonicOrSeed : string;
  network : string
}.
End WalletConfig.

(** The argument object of the wallet's [createLightningInvoice]. *)
Module InvoiceRequest.
Record t : Type := {
  amountSats : number;
  memo : string
}.
End InvoiceRequest.

(** The objects [{ success: true, <payload> }] and
    [{ success: false, error }] that the methods resolve to. *)
Module Outcome.
Record t (A : Type) : Type := {
  success : bool;
  payload : option A;
  error : option string
}.
Arguments success {A} _.
Arguments payload {A} _.
Arguments error {A} _.
Definition succeeded {A : Type} (a : A) : t A :=
  {| success := true; payload := Some a; error := None |}.
Definition succeeded_bare {A : Type} : t A :=
  {| success := true; payload := None; error := None |}.
Definition failed {A : Type} (message : string) : t A :=
  {| success := false; payload := None; error := Some message |}.
End Outcome.

(** Truthiness of a string that may be [undefined]. *)
Definition truthy_string (v : option string) : bool :=
  match v with
  | Some s => negb (s =? "")%string
  | None => false
  end.

(** [a || b] where both may be [undefined]. *)
Definition or_undefined (a b : option string) : option string :=
  if truthy_string a then a else b.

(** [a || d] where [d] is a string literal. *)
Definition or_string (a : option string) (d : string) : string :=
  match a with
  | Some s => if (s =? "")%string then d else s
  | None => d
  end.

(** The mnemonic [initialize] falls back to. *)
Definition testMnemonic : string :=
  "abandon abandon abandon abandon abandon abandon abandon abandon abandon abandon abandon about".

Section Methods.

Variables SwapResponse Wallet Pool PoolList Filters Position Invoice : Type.
Variables LiquidityParams Liquidity : Type.

(** The environment [process.env]. *)
Variable env : string -> option string.

(** The SDK: the wallet's factory, the client's constructor and the
    client's methods beyond the two of [FlashnetClient]. What
    [client.initialize()] does inside the SDK's object is not seen from
    here; it returns or it throws. *)
Variable SparkWallet_initialize : WalletConfig.t -> completion Wallet.
Variable new_FlashnetClient : Wallet -> FlashnetClient SwapResponse.
Variable FlashnetClient_initialize :
  FlashnetClient SwapResponse -> completion unit.
Variable FlashnetClient_calculateVirtualReserves :
  VirtualReserveParams.t -> completion VirtualReserves.t.
Variable createSingleSidedPool :
  FlashnetClient SwapResponse -> CreatePoolRequest.t -> completion Pool.
Variable client_getPool :
  FlashnetClient SwapResponse -> string -> completion Pool.
Variable client_listPools :
  FlashnetClient SwapResponse -> Filters -> completion PoolList.

(** The empty object [{}] as a filter. *)
Variable noFilters : Filters.

Variable client_getLpPosition :
  FlashnetClient SwapResponse -> string -> completion Position.
Variable client_addLiquidity :
  FlashnetClient SwapResponse -> LiquidityParams -> completion Liquidity.
Variable createLightningInvoice : Wallet -> InvoiceRequest.t -> completion Invoice.

(** The first argument of [SparkWallet.initialize] in [initialize]. *)
Definition walletConfig (mnemonicOrSeed : option string) : WalletConfig.t :=
  {| WalletConfig.mnemonicOrSeed :=
       or_string (or_undefined mnemonicOrSeed (env "MNEMONIC")) testMnemonic;
     WalletConfig.network := or_string (env "FLASHNET_NETWORK") "REGTEST" |}.

(** [async initialize(mnemonicOrSeed?)]: what it resolves to and the
    object afterwards; the console output is left out. *)
Definition initialize (mnemonicOrSeed : option string)
    (this : LaunchpadClient SwapResponse Wallet)
  : Outcome.t unit * LaunchpadClient SwapResponse Wallet :=
  match SparkWallet_initialize (walletConfig mnemonicOrSeed) with
  | Throw e => (Outcome.failed (message_of e), this)
  | Normal w =>
      let c := new_FlashnetClient w in
      let this' := {| client := Some c; wallet := Some w |} in
      match FlashnetClient_initialize c with
      | Normal _ => (Outcome.succeeded_bare, this')
      | Throw e => (Outcome.failed (message_of e), this')
      end
  end.

(** [getWallet()] *)
Definition getWallet (this : LaunchpadClient SwapResponse Wallet)
  : completion Wallet :=
  match wallet this with
  | Some w => Normal w
  | None => Throw (Error "Wallet not initialized - call initialize() first")
  end.

(** The argument of [createSingleSidedPool] in [launchToken]; [now] is
    the value of [Date.now()], an integral number of milliseconds. *)
Definition poolRequest (now : Z) (params : TokenLaunchParams.t)
    (reserves : VirtualReserves.t) : CreatePoolRequest.t :=
  {| CreatePoolRequest.assetAAddress := ("new_token_" ++ bigint_toString now)%string;
     CreatePoolRequest.assetBAddress := BITCOIN_PUBLIC_KEY;
     CreatePoolRequest.assetAInitialReserve :=
       bigint_toString (TokenLaunchParams.initialSupply params);
     CreatePoolRequest.virtualReserveA :=
       bigint_toString (VirtualReserves.virtualReserveA reserves);
     CreatePoolRequest.virtualReserveB :=
       bigint_toString (VirtualReserves.virtualReserveB reserves);
     CreatePoolRequest.threshold :=
       bigint_toString (VirtualReserves.threshold reserves);
     CreatePoolRequest.lpFeeRateBps := TokenLaunchParams.lpFeeRateBps params;
     CreatePoolRequest.totalHostFeeRateBps :=
       TokenLaunchParams.totalHostFeeRateBps params;
     CreatePoolRequest.hostNamespace := TokenLaunchParams.hostNamespace params |}.

(** [async launchToken(params)]; the console output is left out. *)
Definition launchToken (now : Z) (this : LaunchpadClient SwapResponse Wallet)
    (params : TokenLaunchParams.t)
  : completion (Outcome.t Pool) :=
  c <- getClient this ;;
  try_catch
    (reserves <- FlashnetClient_calculateVirtualReserves {|
         VirtualReserveParams.initialTokenSupply :=
           bigint_toString (TokenLaunchParams.initialSupply params);
         VirtualReserveParams.graduationThresholdPct :=
           TokenLaunchParams.graduationThresholdPct params;
         VirtualReserveParams.targetRaise :=
           bigint_toString (TokenLaunchParams.targetRaise params) |} ;;
     pool <- createSingleSidedPool c (poolRequest now params reserves) ;;
     Normal (Outcome.succeeded pool))
    (fun e => Normal (Outcome.failed (message_of e))).

(** The argument of [simulateSwap] in [getSwapQuote] and [executeSwap]. *)
Definition simulationRequest (params : SwapParams.t) : SimulateSwapRequest.t :=
  {| SimulateSwapRequest.poolId := SwapParams.poolId params;
     SimulateSwapRequest.assetInAddress := SwapParams.assetIn params;
     SimulateSwapRequest.assetOutAddress := SwapParams.assetOut params;
     SimulateSwapRequest.amountIn :=
       bigint_toString (SwapParams.amountIn params) |}.

(** [async getSwapQuote(params)]; [null] is [None]. The log line reads
    [simulation.amountOut] before the quote is built. *)
Definition getSwapQuote (this : LaunchpadClient SwapResponse Wallet)
    (params : SwapParams.t)
  : completion (option SwapQuote.t) :=
  c <- getClient this ;;
  try_catch
    (quoted <- simulateSwap c (simulationRequest params) ;;
     simulation <- read_property quoted "amountOut" ;;
     Normal (Some {|
       SwapQuote.amountOut := SwapSimulation.amountOut simulation;
       SwapQuote.priceImpact := SwapSimulation.priceImpactPct simulation;
       SwapQuote.lpFee := 0;
       SwapQuote.hostFee := 0;
       SwapQuote.route := [SwapParams.assetIn params; SwapParams.assetOut params]
     |}))
    (fun _ => Normal None).

(** [async getPool(poolId)] *)
Definition getPool (this : LaunchpadClient SwapResponse Wallet) (poolId : string)
  : completion (option Pool) :=
  c <- getClient this ;;
  try_catch (pool <- client_getPool c poolId ;; Normal (Some pool))
            (fun _ => Normal None).

(** [async listPools(filters?)]: [Some pools] is the SDK's answer, [None]
    the object [{ pools: [] }] of the [catch] block; an absent [filters]
    is passed on as the empty object. *)
Definition listPools (this : LaunchpadClient SwapResponse Wallet)
    (filters : option Filters)
  : completion (option PoolList) :=
  c <- getClient this ;;
  try_catch
    (pools <- client_listPools c match filters with
                                 | Some f => f
                                 | None => noFilters
                                 end ;;
     Normal (Some pools))
    (fun _ => Normal None).

(** [async getLpPosition(poolId)] *)
Definition getLpPosition (this : LaunchpadClient SwapResponse Wallet)
    (poolId : string)
  : completion (option Position) :=
  c <- getClient this ;;
  try_catch (position <- client_getLpPosition c poolId ;; Normal (Some position))
            (fun _ => Normal None).

(** [async addLiquidity(params)] *)
Definition addLiquidity (this : LaunchpadClient SwapResponse Wallet)
    (params : LiquidityParams)
  : completion (Outcome.t Liquidity) :=
  c <- getClient this ;;
  try_catch (result <- client_addLiquidity c params ;;
             Normal (Outcome.succeeded result))
            (fun e => Normal (Outcome.failed (message_of e))).

(** [async createInvoice(amountSats, memo?)] *)
Definition createInvoice (this : LaunchpadClient SwapResponse Wallet)
    (amountSats : number) (memo : option string)
  : completion (Outcome.t Invoice) :=
  w <- getWallet this ;;
  try_catch
    (invoice <- createLightningInvoice w {|
         InvoiceRequest.amountSats := amountSats;
         InvoiceRequest.memo := or_string memo "Launchpad payment" |} ;;
     Normal (Outcome.succeeded invoice))
    (fun e => Normal (Outcome.failed (message_of e))).

End Methods.

Arguments initialize {SwapResponse Wallet} env SparkWallet_initialize
  new_FlashnetClient FlashnetClient_initialize mnemonicOrSeed this.
Arguments getWallet {SwapResponse Wallet} this.
Arguments launchToken {SwapResponse Wallet Pool}
  FlashnetClient_calculateVirtualReserves createSingleSidedPool now this params.
Arguments getSwapQuote {SwapResponse Wallet} this params.
Arguments getPool {SwapResponse Wallet Pool} client_getPool this poolId.
Arguments listPools {SwapResponse Wallet PoolList Filters} client_listPools
  noFilters this filters.
Arguments getLpPosition {SwapResponse Wallet Position} client_getLpPosition
  this poolId.
Arguments addLiquidity {SwapResponse Wallet LiquidityParams Liquidity}
  client_addLiquidity this params.
Arguments createInvoice {SwapResponse Wallet Invoice} createLightningInvoice
  this amountSats memo.

End Launchpad.

(** ** The trading panel *)

Module TradingInterface.

Import Flashnet.

(** [swapDirection] *)
Inductive direction : Type := buy | sell.

(** A call of [toast.success] or [toast.error]. *)
Inductive toast : Type :=
| toast_success (message : string)
| toast_error (message : string).

(** The doubles 0.5 and 2.5. *)
Definition half : number := binary_normalize prec emax 1 (-1) false.
Definition two_and_a_half : number := binary_normalize prec emax 5 (-1) false.

(** The values of the slippage buttons, [[0.5, 1, 2.5, 5]], in percent. *)
Definition slippageOptions : list number :=
  [half; lit 1; two_and_a_half; lit 5].

(** The component's state, and the toasts shown so far. *)
Module State.
Record t : Type := {
  swapDirection : direction;
  amount : string;
  slippage : number;
  isSwapping : bool;
  quote : option Launchpad.SwapQuote.t;
  toasts : list toast
}.
End State.

(** The state of the first render. *)
Definition initialState : State.t :=
  {| State.swapDirection := buy;
     State.amount := "";
     State.slippage := lit 1;
     State.isSwapping := false;
     State.quote := None;
     State.toasts := [] |}.

(** The name of an exception, which is how it prints when its message is
    empty. *)
Definition name_of (e : JS.error) : string :=
  match e with
  | RangeError _ => "RangeError"
  | TypeError _ => "TypeError"
  | Error _ => "Error"
  end.

(** [error.message || error] inside a string concatenation. *)
Definition message_or_name (e : JS.error) : string :=
  if (message_of e =? "")%string then name_of e else message_of e.

Section Handlers.

Variables SwapResponse Wallet : Type.

(** The global [parseFloat]. *)
Variable parseFloat : string -> number.

(** The module's singleton [launchpadClient] and the component's props. *)
Variable launchpadClient : LaunchpadClient SwapResponse Wallet.
Variables poolId assetAAddress : string.

(** Satoshis per bitcoin when buying, token units per token when
    selling. *)
Definition unitsPer (d : direction) : number :=
  match d with
  | buy => lit 100000000
  | sell => lit 1000000
  end.

(** The object [swapParams] that both handlers build from the text of
    the amount field. *)
Definition swapParams (st : State.t) (value : string) : completion SwapParams.t :=
  amountIn <- BigInt_of_number
                (Math_floor (mul (parseFloat value)
                                 (unitsPer (State.swapDirection st)))) ;;
  Normal {|
    SwapParams.poolId := poolId;
    SwapParams.assetIn :=
      match State.swapDirection st with
      | buy => Launchpad.BITCOIN_PUBLIC_KEY
      | sell => assetAAddress
      end;
    SwapParams.assetOut :=
      match State.swapDirection st with
      | buy => assetAAddress
      | sell => Launchpad.BITCOIN_PUBLIC_KEY
      end;
    SwapParams.amountIn := amountIn;
    SwapParams.minAmountOut := 0;
    SwapParams.maxSlippageBps := Some (mul (State.slippage st) (lit 100))
  |}.

(** [!amount || parseFloat(amount) <= 0] *)
Definition rejected (value : string) : bool :=
  (value =? "")%string || SFleb (parseFloat value) (lit 0).

(** [value && parseFloat(value) > 0] *)
Definition quotable (value : string) : bool :=
  negb (value =? "")%string && SFltb (lit 0) (parseFloat value).

Definition say (t : toast) (st : State.t) : State.t :=
  {| State.swapDirection := State.swapDirection st;
     State.amount := State.amount st;
     State.slippage := State.slippage st;
     State.isSwapping := State.isSwapping st;
     State.quote := State.quote st;
     State.toasts := State.toasts st ++ [t] |}.

Definition setIsSwapping (b : bool) (st : State.t) : State.t :=
  {| State.swapDirection := State.swapDirection st;
     State.amount := State.amount st;
     State.slippage := State.slippage st;
     State.isSwapping := b;
     State.quote := State.quote st;
     State.toasts := State.toasts st |}.

Definition setAmount (value : string) (st : State.t) : State.t :=
  {| State.swapDirection := State.swapDirection st;
     State.amount := value;
     State.slippage := State.slippage st;
     State.isSwapping := State.isSwapping st;
     State.quote := State.quote st;
     State.toasts := State.toasts st |}.

Definition setQuote (q : option Launchpad.SwapQuote.t) (st : State.t) : State.t :=
  {| State.swapDirection := State.swapDirection st;
     State.amount := State.amount st;
     State.slippage := State.slippage st;
     State.isSwapping := State.isSwapping st;
     State.quote := q;
     State.toasts := State.toasts st |}.

Definition setSlippage (value : number) (st : State.t) : State.t :=
  {| State.swapDirection := State.swapDirection st;
     State.amount := State.amount st;
     State.slippage := value;
     State.isSwapping := State.isSwapping st;
     State.quote := State.quote st;
     State.toasts := State.toasts st |}.

(** The text of the success toast. *)
Definition swapped (d : direction) : string :=
  ((match d with buy => "Bought" | sell => "Sold" end)
   ++ " tokens successfully! 🎉")%string.

(** [handleSwap()]: the state once the handler has run to its end; the
    handler reads the state of the render it was created in. *)
Definition handleSwap (st : State.t) : State.t :=
  if rejected (State.amount st) then
    say (toast_error "Please enter a valid amount") st
  else
    setIsSwapping false
      match (params <- swapParams st (State.amount st) ;;
             executeSwap launchpadClient params) with
      | Normal outcome =>
          if success outcome then
            setQuote None
              (setAmount ""
                 (say (toast_success (swapped (State.swapDirection st)))
                      (setIsSwapping true st)))
          else
            say (toast_error (Launchpad.or_string (error outcome) "Swap failed"))
                (setIsSwapping true st)
      | Throw e =>
          say (toast_error ("Swap failed: " ++ message_or_name e))
              (setIsSwapping true st)
      end.

(** [handleAmountChange(value)] *)
Definition handleAmountChange (value : string) (st : State.t) : State.t :=
  if quotable value then
    match (params <- swapParams st value ;;
           Launchpad.getSwapQuote launchpadClient params) with
    | Normal quoteResult => setQuote quoteResult (setAmount value st)
    | Throw _ => setQuote None (setAmount value st)
    end
  else setQuote None (setAmount value st).

(** [flipSwapDirection()] *)
Definition flipSwapDirection (st : State.t) : State.t :=
  {| State.swapDirection :=
       match State.swapDirection st with buy => sell | sell => buy end;
     State.amount := "";
     State.slippage := State.slippage st;
     State.isSwapping := State.isSwapping st;
     State.quote := None;
     State.toasts := State.toasts st |}.

End Handlers.

Arguments handleSwap {SwapResponse Wallet} parseFloat launchpadClient
  poolId assetAAddress st.
Arguments handleAmountChange {SwapResponse Wallet} parseFloat launchpadClient
  poolId assetAAddress value st.

End TradingInterface.

(** ** The launch form's handlers *)

Module LaunchForm.

Import Flashnet Launchpad.

(** [Math.max(x, y)] *)
Definition Math_max (x y : number) : number :=
  match x, y with
  | S754_nan, _ | _, S754_nan => NaN
  | S754_zero sx, S754_zero sy => S754_zero (sx && sy)
  | _, _ => if SFltb x y then y else x
  end.

(** The component's state and the toasts shown so far. Every field of
    [formData] but [hostNamespace] is set in the first render and no
    handler removes one, so the form is held as a [TokenLaunchParams]. *)
Module State.
Record t : Type := {
  formData : TokenLaunchParams.t;
  isLaunching : bool;
  preview : TokenLaunchForm.PreviewState.t;
  toasts : list TradingInterface.toast
}.
End State.

(** The form of the first render, to which a successful launch resets. *)
Definition blankForm : TokenLaunchParams.t :=
  {| TokenLaunchParams.name := "";
     TokenLaunchParams.symbol := "";
     TokenLaunchParams.description := "";
     TokenLaunchParams.imageUrl := Some ""%string;
     TokenLaunchParams.initialSupply := 1000000;
     TokenLaunchParams.graduationThresholdPct := lit 80;
     TokenLaunchParams.targetRaise := 100000000;
     TokenLaunchParams.lpFeeRateBps := lit 30;
     TokenLaunchParams.totalHostFeeRateBps := lit 50;
     TokenLaunchParams.hostNamespace := None |}.

Definition initialState : State.t :=
  {| State.formData := blankForm;
     State.isLaunching := false;
     State.preview := {| TokenLaunchForm.PreviewState.previewData := None;
                         TokenLaunchForm.PreviewState.console := [] |};
     State.toasts := [] |}.

(** A call [handleInputChange(field, value)], by field. *)
Inductive change : Type :=
| set_name (value : string)
| set_symbol (value : string)
| set_description (value : string)
| set_imageUrl (value : string)
| set_initialSupply (value : Z)
| set_graduationThresholdPct (value : number)
| set_targetRaise (value : Z)
| set_lpFeeRateBps (value : number)
| set_totalHostFeeRateBps (value : number).

(** [{ ...prev, [field]: value }] *)
Definition updated (c : change) (prev : TokenLaunchParams.t) : TokenLaunchParams.t :=
  {| TokenLaunchParams.name :=
       match c with set_name v => v | _ => TokenLaunchParams.name prev end;
     TokenLaunchParams.symbol :=
       match c with set_symbol v => v | _ => TokenLaunchParams.symbol prev end;
     TokenLaunchParams.description :=
       match c with
       | set_description v => v
       | _ => TokenLaunchParams.description prev
       end;
     TokenLaunchParams.imageUrl :=
       match c with
       | set_imageUrl v => Some v
       | _ => TokenLaunchParams.imageUrl prev
       end;
     TokenLaunchParams.initialSupply :=
       match c with
       | set_initialSupply v => v
       | _ => TokenLaunchParams.initialSupply prev
       end;
     TokenLaunchParams.graduationThresholdPct :=
       match c with
       | set_graduationThresholdPct v => v
       | _ => TokenLaunchParams.graduationThresholdPct prev
       end;
     TokenLaunchParams.targetRaise :=
       match c with
       | set_targetRaise v => v
       | _ => TokenLaunchParams.targetRaise prev
       end;
     TokenLaunchParams.lpFeeRateBps :=
       match c with
       | set_lpFeeRateBps v => v
       | _ => TokenLaunchParams.lpFeeRateBps prev
       end;
     TokenLaunchParams.totalHostFeeRateBps :=
       match c with
       | set_totalHostFeeRateBps v => v
       | _ => TokenLaunchParams.totalHostFeeRateBps prev
       end;
     TokenLaunchParams.hostNamespace := TokenLaunchParams.hostNamespace prev |}.

(** [field === 'initialSupply' || field === 'graduationThresholdPct' ||
    field === 'targetRaise'] *)
Definition previewed (c : change) : bool :=
  match c with
  | set_initialSupply _ | set_graduationThresholdPct _ | set_targetRaise _ => true
  | _ => false
  end.

(** The three fields of the form that [updatePreview] reads. *)
Definition previewFields (f : TokenLaunchParams.t) : TokenLaunchForm.FormData.t :=
  {| TokenLaunchForm.FormData.initialSupply :=
       Some (TokenLaunchParams.initialSupply f);
     TokenLaunchForm.FormData.graduationThresholdPct :=
       Some (TokenLaunchParams.graduationThresholdPct f);
     TokenLaunchForm.FormData.targetRaise :=
       Some (TokenLaunchParams.targetRaise f) |}.

(** A change of an input field, by the text now in the field, and a
    click on the launch button at a reading of the clock. *)
Inductive event : Type :=
| name_typed (text : string)
| symbol_typed (text : string)
| description_typed (text : string)
| imageUrl_typed (text : string)
| initialSupply_typed (text : string)
| graduationThresholdPct_moved (text : string)
| targetRaise_typed (text : string)
| lpFeeRateBps_typed (text : string)
| totalHostFeeRateBps_typed (text : string)
| launch_clicked (now : Z).

Section Handlers.

Variables SwapResponse Wallet Pool : Type.

(** The globals [parseInt] and [parseFloat], and [String.toUpperCase]. *)
Variables parseInt parseFloat : string -> number.
Variable toUpperCase : string -> string.

(** The SDK and the module's singleton [launchpadClient]. *)
Variable FlashnetClient_calculateVirtualReserves :
  VirtualReserveParams.t -> completion VirtualReserves.t.
Variable createSingleSidedPool :
  FlashnetClient SwapResponse -> CreatePoolRequest.t -> completion Pool.
Variable launchpadClient : LaunchpadClient SwapResponse Wallet.

(** [handleInputChange(field, value)]. The functional update of
    [formData] takes effect with the next render; [updatePreview] runs
    inside this one and reads the [formData] this render was given. *)
Definition handleInputChange (c : change) (st : State.t) : State.t :=
  {| State.formData := updated c (State.formData st);
     State.isLaunching := State.isLaunching st;
     State.preview :=
       if previewed c then
         TokenLaunchForm.updatePreview FlashnetClient_calculateVirtualReserves
           (previewFields (State.formData st)) (State.preview st)
       else State.preview st;
     State.toasts := State.toasts st |}.

Definition say (t : TradingInterface.toast) (st : State.t) : State.t :=
  {| State.formData := State.formData st;
     State.isLaunching := State.isLaunching st;
     State.preview := State.preview st;
     State.toasts := State.toasts st ++ [t] |}.

Definition setIsLaunching (b : bool) (st : State.t) : State.t :=
  {| State.formData := State.formData st;
     State.isLaunching := b;
     State.preview := State.preview st;
     State.toasts := State.toasts st |}.

Definition setFormData (f : TokenLaunchParams.t) (st : State.t) : State.t :=
  {| State.formData := f;
     State.isLaunching := State.isLaunching st;
     State.preview := State.preview st;
     State.toasts := State.toasts st |}.

(** [!formData.name || !formData.symbol || !formData.initialSupply] *)
Definition incomplete (f : TokenLaunchParams.t) : bool :=
  (TokenLaunchParams.name f =? "")%string
  || (TokenLaunchParams.symbol f =? "")%string
  || negb (truthy_bigint (TokenLaunchParams.initialSupply f)).

(** [handleLaunch()], with [now] the value [Date.now()] has inside
    [launchToken]: the state once the handler has run to its end. *)
Definition handleLaunch (now : Z) (st : State.t) : State.t :=
  if incomplete (State.formData st) then
    say (TradingInterface.toast_error "Please fill in all required fields") st
  else
    setIsLaunching false
      match launchToken FlashnetClient_calculateVirtualReserves
              createSingleSidedPool now launchpadClient (State.formData st) with
      | Normal outcome =>
          if Outcome.success outcome then
            setFormData blankForm
              (say (TradingInterface.toast_success "Token launched successfully! 🚀")
                   (setIsLaunching true st))
          else
            say (TradingInterface.toast_error
                   (or_string (Outcome.error outcome) "Failed to launch token"))
                (setIsLaunching true st)
      | Throw e =>
          say (TradingInterface.toast_error
                 ("Launch failed: " ++ TradingInterface.message_or_name e))
              (setIsLaunching true st)
      end.

(** The value the supply field passes on:
    [BigInt(Math.max(1, parseInt(e.target.value) || 1))] *)
Definition initialSupply_of (text : string) : completion Z :=
  BigInt_of_number (Math_max (lit 1) (or_number (Some (parseInt text)) (lit 1))).

(** The value the target-raise field passes on:
    [BigInt(Math.floor((parseFloat(e.target.value) || 0) * 100000000))] *)
Definition targetRaise_of (text : string) : completion Z :=
  BigInt_of_number
    (Math_floor (mul (or_number (Some (parseFloat text)) (lit 0))
                     (lit 100000000))).

(** [disabled={isLaunching || !formData.name || !formData.symbol}] *)
Definition launchDisabled (st : State.t) : bool :=
  State.isLaunching st
  || (TokenLaunchParams.name (State.formData st) =? "")%string
  || (TokenLaunchParams.symbol (State.formData st) =? "")%string.

(** What an event of the page does to the state. A conversion that
    throws inside an [onChange] ends that handler before
    [handleInputChange] is called; a disabled button does not click. *)
Definition react (e : event) (st : State.t) : State.t :=
  match e with
  | name_typed text => handleInputChange (set_name text) st
  | symbol_typed text => handleInputChange (set_symbol (toUpperCase text)) st
  | description_typed text => handleInputChange (set_description text) st
  | imageUrl_typed text => handleInputChange (set_imageUrl text) st
  | initialSupply_typed text =>
      match initialSupply_of text with
      | Normal v => handleInputChange (set_initialSupply v) st
      | Throw _ => st
      end
  | graduationThresholdPct_moved text =>
      handleInputChange (set_graduationThresholdPct (parseInt text)) st
  | targetRaise_typed text =>
      match targetRaise_of text with
      | Normal v => handleInputChange (set_targetRaise v) st
      | Throw _ => st
      end
  | lpFeeRateBps_typed text =>
      handleInputChange
        (set_lpFeeRateBps (or_number (Some (parseInt text)) (lit 30))) st
  | totalHostFeeRateBps_typed text =>
      handleInputChange
        (set_totalHostFeeRateBps (or_number (Some (parseInt text)) (lit 50))) st
  | launch_clicked now => if launchDisabled st then st else handleLaunch now st
  end.

(** The state after a sequence of events, the first event first. *)
Definition run (events : list event) (st : State.t) : State.t :=
  fold_left (fun s e => react e s) events st.

End Handlers.

Arguments handleLaunch {SwapResponse Wallet Pool}
  FlashnetClient_calculateVirtualReserves createSingleSidedPool
  launchpadClient now st.
Arguments react {SwapResponse Wallet Pool} parseInt parseFloat toUpperCase
  FlashnetClient_calculateVirtualReserves createSingleSidedPool
  launchpadClient e st.
Arguments run {SwapResponse Wallet Pool} parseInt parseFloat toUpperCase
  FlashnetClient_calculateVirtualReserves createSingleSidedPool
  launchpadClient events st.

End LaunchForm.

(** ** The wallet hook *)

Module UseWallet.

Import Flashnet Launchpad.

(** The hook's state, and the toasts shown so far; [null] is [None]. *)
Module State.
Record t (Balance : Type) : Type := {
  isConnected : bool;
  address : option string;
  balance : option Balance;
  isLoading : bool;
  toasts : list TradingInterface.toast
}.
Arguments isConnected {Balance} _.
Arguments address {Balance} _.
Arguments balance {Balance} _.
Arguments isLoading {Balance} _.
Arguments toasts {Balance} _.
End State.

(** The state of the first render. *)
Definition initialState {Balance : Type} : State.t Balance :=
  {| State.isConnected := false;
     State.address := None;
     State.balance := None;
     State.isLoading := false;
     State.toasts := [] |}.

Section Hook.

Variables SwapResponse Wallet Balance : Type.

(** The SDK, as in [initialize], and the wallet's two methods. *)
Variable env : string -> option string.
Variable SparkWallet_initialize : WalletConfig.t -> completion Wallet.
Variable new_FlashnetClient : Wallet -> FlashnetClient SwapResponse.
Variable FlashnetClient_initialize :
  FlashnetClient SwapResponse -> completion unit.
Variable getAddress : Wallet -> completion string.
Variable getBalance : Wallet -> completion Balance.

Definition setIsConnected (b : bool) (st : State.t Balance) : State.t Balance :=
  {| State.isConnected := b;
     State.address := State.address st;
     State.balance := State.balance st;
     State.isLoading := State.isLoading st;
     State.toasts := State.toasts st |}.

Definition setAddress (a : option string) (st : State.t Balance)
  : State.t Balance :=
  {| State.isConnected := State.isConnected st;
     State.address := a;
     State.balance := State.balance st;
     State.isLoading := State.isLoading st;
     State.toasts := State.toasts st |}.

Definition setBalance (b : option Balance) (st : State.t Balance)
  : State.t Balance :=
  {| State.isConnected := State.isConnected st;
     State.address := State.address st;
     State.balance := b;
     State.isLoading := State.isLoading st;
     State.toasts := State.toasts st |}.

Definition setIsLoading (b : bool) (st : State.t Balance) : State.t Balance :=
  {| State.isConnected := State.isConnected st;
     State.address := State.address st;
     State.balance := State.balance st;
     State.isLoading := b;
     State.toasts := State.toasts st |}.

Definition say (t : TradingInterface.toast) (st : State.t Balance)
  : State.t Balance :=
  {| State.isConnected := State.isConnected st;
     State.address := State.address st;
     State.balance := State.balance st;
     State.isLoading := State.isLoading st;
     State.toasts := State.toasts st ++ [t] |}.

(** The effect that runs when the hook is mounted. Each state setter
    that was reached before an exception has taken effect. *)
Definition mounted (launchpadClient : LaunchpadClient SwapResponse Wallet)
    (st : State.t Balance) : State.t Balance :=
  match getWallet launchpadClient with
  | Throw _ => st
  | Normal w =>
      match getAddress w with
      | Normal a => setAddress (Some a) (setIsConnected true st)
      | Throw _ => setIsConnected true st
      end
  end.

(** [connect()]: the hook's state and the module's [launchpadClient]
    once the handler has run to its end. *)
Definition connect (launchpadClient : LaunchpadClient SwapResponse Wallet)
    (st : State.t Balance)
  : State.t Balance * LaunchpadClient SwapResponse Wallet :=
  let (result, launchpadClient') :=
    initialize env SparkWallet_initialize new_FlashnetClient
      FlashnetClient_initialize None launchpadClient in
  let failure (e : JS.error) (st' : State.t Balance) :=
    say (TradingInterface.toast_error
           ("Failed to connect wallet: " ++ TradingInterface.message_or_name e))
        st' in
  let st0 := setIsLoading true st in
  (setIsLoading false
     (if Outcome.success result then
        match getWallet launchpadClient' with
        | Throw e => failure e st0
        | Normal w =>
            let st1 := setIsConnected true st0 in
            match getAddress w with
            | Throw e => failure e st1
            | Normal a =>
                let st2 := setAddress (Some a) st1 in
                match getBalance w with
                | Throw e => failure e st2
                | Normal b =>
                    say (TradingInterface.toast_success
                           "Wallet connected successfully!")
                        (setBalance (Some b) st2)
                end
            end
        end
      else
        say (TradingInterface.toast_error
               (or_string (Outcome.error result) "Failed to connect wallet"))
            st0),
   launchpadClient').

(** [disconnect()]: it does not touch [launchpadClient]. *)
Definition disconnect (st : State.t Balance) : State.t Balance :=
  say (TradingInterface.toast_success "Wallet disconnected")
      (setBalance None (setAddress None (setIsConnected false st))).

(** [refreshBalance()] *)
Definition refreshBalance (launchpadClient : LaunchpadClient SwapResponse Wallet)
    (st : State.t Balance) : State.t Balance :=
  if State.isConnected st then
    match (w <- getWallet launchpadClient ;; getBalance w) with
    | Normal b => setBalance (Some b) st
    | Throw _ => st
    end
  else st.

End Hook.

Arguments mounted {SwapResponse Wallet Balance} getAddress launchpadClient st.
Arguments connect {SwapResponse Wallet Balance} env SparkWallet_initialize
  new_FlashnetClient FlashnetClient_initialize getAddress getBalance
  launchpadClient st.
Arguments disconnect {Balance} st.
Arguments refreshBalance {SwapResponse Wallet Balance} getBalance
  launchpadClient st.

End UseWallet.

(** ** The dashboard *)

Module Dashboard.

Import Flashnet Launchpad.

(** [curveType] *)
Inductive curveType : Type :=
| SINGLE_SIDED
| CONSTANT_PRODUCT
| CONCENTRATED_LIQUIDITY.

Definition curveType_eqb (a b : curveType) : bool :=
  match a, b with
  | SINGLE_SIDED, SINGLE_SIDED
  | CONSTANT_PRODUCT, CONSTANT_PRODUCT
  | CONCENTRATED_LIQUIDITY, CONCENTRATED_LIQUIDITY => true
  | _, _ => false
  end.

(** [interface PoolInfo] *)
Module PoolInfo.
Record t : Type := {
  poolId : string;
  assetAAddress : string;
  assetBAddress : string;
  curveType : Dashboard.curveType;
  lpFeeRateBps : number;
  totalHostFeeRateBps : number;
  hostNamespace : option string;
  totalLiquidity : option Z;
  volume24h : option Z;
  isGraduated : option bool;
  graduationProgress : option number
}.
End PoolInfo.

(** [interface LaunchpadStats]; the three counts are lengths of arrays. *)
Module LaunchpadStats.
Record t : Type := {
  totalTokensLaunched : nat;
  totalVolumeTraded : Z;
  totalGraduated : nat;
  activePools : nat
}.
End LaunchpadStats.

(** The component's state. *)
Module State.
Record t (Position : Type) : Type := {
  stats : LaunchpadStats.t;
  trendingPools : list PoolInfo.t;
  recentLaunches : list PoolInfo.t;
  userPositions : list Position;
  isLoading : bool
}.
Arguments stats {Position} _.
Arguments trendingPools {Position} _.
Arguments recentLaunches {Position} _.
Arguments userPositions {Position} _.
Arguments isLoading {Position} _.
End State.

Section Sort.

Context {A : Type}.

(** The comparison function given to [sort]: a positive result puts its
    first argument after its second; NaN counts as zero. *)
Variable comparefn : A -> A -> number.

(** [x] put into an array that is already in order, behind the elements
    it has to follow and before the first one it need not follow. *)
Fixpoint inserted (x : A) (sorted : list A) : list A :=
  match sorted with
  | [] => [x]
  | y :: rest =>
      if SFltb (lit 0) (comparefn x y) then y :: inserted x rest
      else x :: sorted
  end.

(** [array.sort(comparefn)]: the stable sort that the language
    prescribes, which for a consistent comparison function is the one
    order every implementation produces. *)
Definition Array_sort (array : list A) : list A :=
  fold_right inserted [] array.

End Sort.

(** [Number(pool.volume24h || 0)] *)
Definition volumeNumber (pool : PoolInfo.t) : number :=
  match PoolInfo.volume24h pool with
  | Some v => if truthy_bigint v then Number_of_bigint v else lit 0
  | None => lit 0
  end.

(** [(a, b) => Number(b.volume24h || 0) - Number(a.volume24h || 0)] *)
Definition byVolume (a b : PoolInfo.t) : number :=
  sub (volumeNumber b) (volumeNumber a).

(** [pool.volume24h || BigInt(0)] *)
Definition volumeOf (pool : PoolInfo.t) : Z :=
  match PoolInfo.volume24h pool with
  | Some v => if truthy_bigint v then v else 0
  | None => 0
  end.

(** [pool.isGraduated] as a condition. *)
Definition graduated (pool : PoolInfo.t) : bool :=
  match PoolInfo.isGraduated pool with
  | Some b => b
  | None => false
  end.

Definition noStats : LaunchpadStats.t :=
  {| LaunchpadStats.totalTokensLaunched := 0;
     LaunchpadStats.totalVolumeTraded := 0;
     LaunchpadStats.totalGraduated := 0;
     LaunchpadStats.activePools := 0 |}.

Section Load.

Variables SwapResponse Wallet Filters Position : Type.

(** The SDK's [listPools], whose answer is held as its array [pools],
    the empty filter, and [String.localeCompare]. *)
Variable client_listPools :
  FlashnetClient SwapResponse -> Filters -> completion (list PoolInfo.t).
Variable noFilters : Filters.
Variable localeCompare : string -> string -> number.

Variable launchpadClient : LaunchpadClient SwapResponse Wallet.

(** [(a, b) => b.poolId.localeCompare(a.poolId)] *)
Definition byIdDescending (a b : PoolInfo.t) : number :=
  localeCompare (PoolInfo.poolId b) (PoolInfo.poolId a).

(** The pools [loadDashboardData] works on: [pools.pools] filtered. *)
Definition bondingCurvePools (pools : list PoolInfo.t) : list PoolInfo.t :=
  filter (fun pool => curveType_eqb (PoolInfo.curveType pool) SINGLE_SIDED) pools.

(** [loadDashboardData()]: the state once it has run to its end. Both
    calls of [sort] reorder the one array [bondingCurvePools]; the
    statistics are taken from it after the second. *)
Definition loadDashboardData (st : State.t Position) : State.t Position :=
  match listPools client_listPools noFilters launchpadClient None with
  | Normal answer =>
      let pools := match answer with Some pools => pools | None => [] end in
      let byVolumeOrder := Array_sort byVolume (bondingCurvePools pools) in
      let trending := firstn 3 byVolumeOrder in
      let byIdOrder := Array_sort byIdDescending byVolumeOrder in
      let recent := firstn 2 byIdOrder in
      {| State.stats :=
           {| LaunchpadStats.totalTokensLaunched := List.length byIdOrder;
              LaunchpadStats.totalVolumeTraded :=
                fold_left (fun total pool => total + volumeOf pool) byIdOrder 0;
              LaunchpadStats.totalGraduated :=
                List.length (filter graduated byIdOrder);
              LaunchpadStats.activePools := List.length byIdOrder |};
         State.trendingPools := trending;
         State.recentLaunches := recent;
         State.userPositions := [];
         State.isLoading := false |}
  | Throw _ =>
      {| State.stats := noStats;
         State.trendingPools := [];
         State.recentLaunches := [];
         State.userPositions := [];
         State.isLoading := false |}
  end.

End Load.

Arguments loadDashboardData {SwapResponse Wallet Filters Position}
  client_listPools noFilters localeCompare launchpadClient st.

End Dashboard.

(** ** Predicates used in the statements *)

(** [has_sign s x]: the sign bit of [x] is [s]; NaN carries no sign. *)
Definition has_sign (s : bool) (x : number) : Prop :=
  match x with
  | S754_zero s' | S754_infinity s' | S754_finite s' _ _ => s' = s
  | S754_nan => True
  end.

Definition is_nan (x : number) : bool :=
  match x with
  | S754_nan => true
  | _ => false
  end.

Definition is_zero (x : number) : bool :=
  match x with
  | S754_zero _ => true
  | _ => false
  end.

(** Finite and different from both zeros. *)
Definition is_finite_nonzero (x : number) : bool :=
  match x with
  | S754_finite _ _ _ => true
  | _ => false
  end.

(** [0 <= x] as JavaScript evaluates it: false on NaN. *)
Definition nonnegative (x : number) : bool := SFleb (lit 0) x.

(** The double [expectedOut] of [calculatePriceImpact]. *)
Definition expectedOut (amountIn reserveIn reserveOut : Z) : number :=
  div (mul (Number_of_bigint amountIn) (Number_of_bigint reserveOut))
      (Number_of_bigint reserveIn).

(** The specification's [computeMinAmountOut], an exact integer formula:
    [quotedAmountOut * (10000 - maxSlippageBps) / 10000], the division
    truncating toward zero. *)
Definition computeMinAmountOut_spec (quotedAmountOut maxSlippageBps : Z) : Z :=
  Z.quot (quotedAmountOut * (10000 - maxSlippageBps)) 10000.

(** The basis points [0 .. 10000]. *)
Definition bps_range : list Z := map Z.of_nat (seq 0 (Z.to_nat 10001)).

(** What the enumeration over [bps_range] checks about [executeSwap]:
    an integral [maxSlippageBps] is falsy exactly when it is 0, and
    [BigInt(10000 - bps)] is the exact difference. *)
Definition multiplier_exact (bps : Z) : bool :=
  Bool.eqb (truthy_number (lit bps)) (negb (bps =? 0))
  && match BigInt_of_number (sub (lit 10000) (lit bps)) with
     | Normal k => k =? 10000 - bps
     | Throw _ => false
     end.

(** Sample arguments of [executeSwap]. *)
Definition swap_of (amountIn : Z) (maxSlippageBps : option number)
  : Flashnet.SwapParams.t :=
  {| Flashnet.SwapParams.poolId := "pool";
     Flashnet.SwapParams.assetIn := "sats";
     Flashnet.SwapParams.assetOut := "token";
     Flashnet.SwapParams.amountIn := amountIn;
     Flashnet.SwapParams.minAmountOut := 0;
     Flashnet.SwapParams.maxSlippageBps := maxSlippageBps |}.

(** A sample answer of the simulation quoting [amountOut]. *)
Definition simulated (amountOut : Z) : Flashnet.SwapSimulation.t :=
  {| Flashnet.SwapSimulation.amountOut := amountOut;
     Flashnet.SwapSimulation.executionPrice := lit 1;
     Flashnet.SwapSimulation.priceImpactPct := lit 0 |}.

(** The request [executeSwap] builds when the default tolerance applies. *)
Definition default_request
    (params : Flashnet.SwapParams.t) (simulation : Flashnet.SwapSimulation.t)
  : Flashnet.ExecuteSwapRequest.t :=
  {| Flashnet.ExecuteSwapRequest.poolId := Flashnet.SwapParams.poolId params;
     Flashnet.ExecuteSwapRequest.assetInAddress := Flashnet.SwapParams.assetIn params;
     Flashnet.ExecuteSwapRequest.assetOutAddress := Flashnet.SwapParams.assetOut params;
     Flashnet.ExecuteSwapRequest.amountIn :=
       bigint_toString (Flashnet.SwapParams.amountIn params);
     Flashnet.ExecuteSwapRequest.minAmountOut :=
       bigint_toString
         (Z.quot (Flashnet.SwapSimulation.amountOut simulation * 9900) 10000);
     Flashnet.ExecuteSwapRequest.maxSlippageBps := lit 100 |}.

(** A tolerance of 2^-50 basis points. *)
Definition tiny_tolerance : number := binary_normalize prec emax 1 (-50) false.

(** The strictest SDK conceivable: it refuses every argument. *)
Definition refusing_sdk (params : Flashnet.VirtualReserveParams.t)
  : completion Flashnet.VirtualReserves.t :=
  Throw (Error "InvalidParameters").

(** A sample preview left on screen by an earlier computation. *)
Definition earlier_preview : Flashnet.VirtualReserves.t :=
  {| Flashnet.VirtualReserves.virtualReserveA := 1;
     Flashnet.VirtualReserves.virtualReserveB := 1;
     Flashnet.VirtualReserves.threshold := 1 |}.

(** The form after the user typed 0 into the target-raise field. *)
Definition zero_raise_form : TokenLaunchForm.FormData.t :=
  {| TokenLaunchForm.FormData.initialSupply := Some 1000000;
     TokenLaunchForm.FormData.graduationThresholdPct := Some (lit 80);
     TokenLaunchForm.FormData.targetRaise := Some 0 |}.

(** A form whose graduation threshold is 0, outside [50, 95]. *)
Definition zero_threshold_form : TokenLaunchForm.FormData.t :=
  {| TokenLaunchForm.FormData.initialSupply := Some 1000000;
     TokenLaunchForm.FormData.graduationThresholdPct := Some (lit 0);
     TokenLaunchForm.FormData.targetRaise := Some 100000000 |}.

(** The preview state with an earlier preview on screen. *)
Definition showing_earlier : TokenLaunchForm.PreviewState.t :=
  {| TokenLaunchForm.PreviewState.previewData := Some earlier_preview;
     TokenLaunchForm.PreviewState.console := [] |}.

(** The specification's input constraints of [deriveVirtualReserves],
    read on the form's fields. *)
Definition valid_launch_input (formData : TokenLaunchForm.FormData.t) : Prop :=
  exists supply pct raise,
    TokenLaunchForm.FormData.initialSupply formData = Some supply
    /\ TokenLaunchForm.FormData.graduationThresholdPct formData = Some (lit pct)
    /\ TokenLaunchForm.FormData.targetRaise formData = Some raise
    /\ 1 <= supply /\ 50 <= pct <= 95 /\ 1 <= raise.

(** What the enumeration over [bps_range] checks about the double
    [slippageBps / 10000]: it is [+0] for 0 and otherwise a positive double
    with a 53-bit mantissa [mp] and an exponent [ep] in [-66, -52], within
    half a unit in the last place of the exact quotient. *)
Definition percent_ok (bps : Z) : bool :=
  match div (lit bps) (lit 10000) with
  | S754_zero false => bps =? 0
  | S754_finite false mp ep =>
      (0 <? bps)
      && (Z.pos (digits2_pos mp) =? 53)
      && (-66 <=? ep) && (ep <=? -52)
      && (Z.abs (Z.pos mp * 10000 - bps * 2 ^ (- ep)) <=? 5000)
  | _ => false
  end.

(** The canonical double of a positive integer below 2^53. *)
Definition canonical_of (s : bool) (D : Z) : number :=
  S754_finite s
    (Z.to_pos (D * 2 ^ (53 - Z.pos (digits2_pos (Z.to_pos D)))))
    (Z.pos (digits2_pos (Z.to_pos D)) - 53).

(** [timeAgo] on integers: the age in whole days, hours or minutes, by
    integer division. *)
Definition timeAgo_integer (diff : Z) : string :=
  if 0 <? diff / 86400000 then (bigint_toString (diff / 86400000) ++ "d ago")%string
  else if 0 <? diff / 3600000 then (bigint_toString (diff / 3600000) ++ "h ago")%string
  else if 0 <? diff / 60000 then (bigint_toString (diff / 60000) ++ "m ago")%string
  else "Just now"%string.

(** The double 50.5, that is [101 / 2]. *)
Definition fifty_and_a_half : number := binary_normalize prec emax 101 (-1) false.

(** A sample SDK client: every simulation quotes [amountOut] and every
    swap is accepted. *)
Definition obliging_client (amountOut : Z) : Flashnet.FlashnetClient unit :=
  {| Flashnet.simulateSwap := fun _ => Normal (object (simulated amountOut));
     Flashnet.client_executeSwap := fun _ => Normal (object tt) |}.

(** A [LaunchpadClient] after a successful [initialize]. *)
Definition initialized (c : Flashnet.FlashnetClient unit)
  : Flashnet.LaunchpadClient unit string :=
  {| Flashnet.client := Some c; Flashnet.wallet := Some "wallet"%string |}.

(** A [parseFloat] that reads nothing: every text is NaN. *)
Definition unreadable (text : string) : number := NaN.

(** The trading panel after the user typed [text] into the amount field. *)
Definition typed (text : string) : TradingInterface.State.t :=
  {| TradingInterface.State.swapDirection := TradingInterface.buy;
     TradingInterface.State.amount := text;
     TradingInterface.State.slippage := lit 1;
     TradingInterface.State.isSwapping := false;
     TradingInterface.State.quote := None;
     TradingInterface.State.toasts := [] |}.

(** The tolerances, in basis points, that the slippage buttons stand for. *)
Definition buttonBps : list Z := [50; 100; 250; 500].

(** Sample SDK pieces: a wallet factory that accepts every configuration,
    a client constructor, and a [client.initialize()] that fails. *)
Definition any_wallet (config : Launchpad.WalletConfig.t) : completion string :=
  Normal (Launchpad.WalletConfig.mnemonicOrSeed config).

Definition client_of (w : string) : Flashnet.FlashnetClient unit :=
  obliging_client 1000.

Definition offline (c : Flashnet.FlashnetClient unit) : completion unit :=
  Throw (Error "network unreachable").

(** No environment variable is set. *)
Definition no_env (name : string) : option string := None.

(** A [LaunchpadClient] as constructed: both fields [null]. *)
Definition fresh : Flashnet.LaunchpadClient unit string :=
  {| Flashnet.client := None; Flashnet.wallet := None |}.

(** Two launches that differ in the token's name, symbol, description
    and image only. The same in everything the SDK is sent. *)
Definition same_launch (p q : Launchpad.TokenLaunchParams.t) : Prop :=
  Launchpad.TokenLaunchParams.initialSupply p
  = Launchpad.TokenLaunchParams.initialSupply q
  /\ Launchpad.TokenLaunchParams.graduationThresholdPct p
     = Launchpad.TokenLaunchParams.graduationThresholdPct q
  /\ Launchpad.TokenLaunchParams.targetRaise p
     = Launchpad.TokenLaunchParams.targetRaise q
  /\ Launchpad.TokenLaunchParams.lpFeeRateBps p
     = Launchpad.TokenLaunchParams.lpFeeRateBps q
  /\ Launchpad.TokenLaunchParams.totalHostFeeRateBps p
     = Launchpad.TokenLaunchParams.totalHostFeeRateBps q
  /\ Launchpad.TokenLaunchParams.hostNamespace p
     = Launchpad.TokenLaunchParams.hostNamespace q.

(** The argument of [calculateVirtualReserves] in [launchToken]. *)
Definition reserveParams (params : Launchpad.TokenLaunchParams.t)
  : Flashnet.VirtualReserveParams.t :=
  {| Flashnet.VirtualReserveParams.initialTokenSupply :=
       bigint_toString (Launchpad.TokenLaunchParams.initialSupply params);
     Flashnet.VirtualReserveParams.graduationThresholdPct :=
       Launchpad.TokenLaunchParams.graduationThresholdPct params;
     Flashnet.VirtualReserveParams.targetRaise :=
       bigint_toString (Launchpad.TokenLaunchParams.targetRaise params) |}.

(** Sample launches. *)
Definition launch_of (name symbol : string) : Launchpad.TokenLaunchParams.t :=
  {| Launchpad.TokenLaunchParams.name := name;
     Launchpad.TokenLaunchParams.symbol := symbol;
     Launchpad.TokenLaunchParams.description := "";
     Launchpad.TokenLaunchParams.imageUrl := None;
     Launchpad.TokenLaunchParams.initialSupply := 1000000;
     Launchpad.TokenLaunchParams.graduationThresholdPct := lit 80;
     Launchpad.TokenLaunchParams.targetRaise := 100000000;
     Launchpad.TokenLaunchParams.lpFeeRateBps := lit 30;
     Launchpad.TokenLaunchParams.totalHostFeeRateBps := lit 50;
     Launchpad.TokenLaunchParams.hostNamespace := None |}.

(** What a method that needs the client throws when there is none. *)
Definition no_client {A : Type} : completion A :=
  Throw (Error "Client not initialized - call initialize() first").

(** What the launch form keeps true about its data, whatever is typed:
    a supply of at least one token, fee rates that are neither zero nor
    NaN, and no launch in progress between two events. *)
Definition form_invariant (st : LaunchForm.State.t) : Prop :=
  1 <= Launchpad.TokenLaunchParams.initialSupply (LaunchForm.State.formData st)
  /\ truthy_number
       (Launchpad.TokenLaunchParams.lpFeeRateBps (LaunchForm.State.formData st))
     = true
  /\ truthy_number
       (Launchpad.TokenLaunchParams.totalHostFeeRateBps
          (LaunchForm.State.formData st))
     = true
  /\ LaunchForm.State.isLaunching st = false.

(** A sample SDK: the reserves are the supply, the raise and a fixed
    threshold. *)
Definition echo_sdk (params : Flashnet.VirtualReserveParams.t)
  : completion Flashnet.VirtualReserves.t :=
  Normal {| Flashnet.VirtualReserves.virtualReserveA :=
              Z.of_nat (String.length
                          (Flashnet.VirtualReserveParams.initialTokenSupply params));
            Flashnet.VirtualReserves.virtualReserveB :=
              Z.of_nat (String.length
                          (Flashnet.VirtualReserveParams.targetRaise params));
            Flashnet.VirtualReserves.threshold := 7 |}.

(** Sample methods of the wallet: the address is the wallet itself, the
    balance is a constant. *)
Definition address_of (w : string) : completion string := Normal w.
Definition balance_of (w : string) : completion Z := Normal 21.

(** A [client.initialize()] that succeeds. *)
Definition online (c : Flashnet.FlashnetClient unit) : completion unit :=
  Normal tt.

(** The sum [array.reduce((total, x) => total + f(x), start)]. *)
Definition reduce_sum {A : Type} (f : A -> Z) (array : list A) (start : Z) : Z :=
  fold_left (fun total x => total + f x) array start.

(** No element of the list comes before one with a larger key. *)
Fixpoint descending {A : Type} (key : A -> Z) (l : list A) : Prop :=
  match l with
  | [] => True
  | x :: rest => (forall y, In y rest -> key y <= key x) /\ descending key rest
  end.

(** Sample pools. *)
Definition pool_of (id : string) (curve : Dashboard.curveType)
    (volume : option Z) (isGraduated : option bool) : Dashboard.PoolInfo.t :=
  {| Dashboard.PoolInfo.poolId := id;
     Dashboard.PoolInfo.assetAAddress := id;
     Dashboard.PoolInfo.assetBAddress := Launchpad.BITCOIN_PUBLIC_KEY;
     Dashboard.PoolInfo.curveType := curve;
     Dashboard.PoolInfo.lpFeeRateBps := lit 30;
     Dashboard.PoolInfo.totalHostFeeRateBps := lit 50;
     Dashboard.PoolInfo.hostNamespace := None;
     Dashboard.PoolInfo.totalLiquidity := None;
     Dashboard.PoolInfo.volume24h := volume;
     Dashboard.PoolInfo.isGraduated := isGraduated;
     Dashboard.PoolInfo.graduationProgress := None |}.

Definition sample_pools : list Dashboard.PoolInfo.t :=
  [pool_of "a" Dashboard.SINGLE_SIDED (Some 5) None;
   pool_of "b" Dashboard.CONSTANT_PRODUCT (Some 900) (Some true);
   pool_of "c" Dashboard.SINGLE_SIDED None (Some true);
   pool_of "d" Dashboard.SINGLE_SIDED (Some 70) (Some false);
   pool_of "e" Dashboard.SINGLE_SIDED (Some 20) None;
   pool_of "f" Dashboard.SINGLE_SIDED (Some 70) (Some true)].

(** A client whose [listPools] is answered with [sample_pools], and a
    comparison of strings that finds them all equal. *)
Definition listing (c : Flashnet.FlashnetClient unit) (filters : unit)
  : completion (list Dashboard.PoolInfo.t) :=
  Normal sample_pools.

Definition indifferent (a b : string) : number := lit 0.

(** The dashboard before anything was loaded. *)
Definition loading : Dashboard.State.t unit :=
  {| Dashboard.State.stats := Dashboard.noStats;
     Dashboard.State.trendingPools := [];
     Dashboard.State.recentLaunches := [];
     Dashboard.State.userPositions := [];
     Dashboard.State.isLoading := true |}.

(** ** Sign of the results of the double operations *)

Section Signs.

Lemma binary_round_aux_sign s m e l :
  has_sign s (binary_round_aux prec emax s m e l).
Proof.
  unfold binary_round_aux.
  destruct (shr_fexp prec emax m e l) as [mrs e1].
  destruct (shr_fexp prec emax _ e1 loc_Exact) as [mrs' e2].
  destruct (shr_m mrs'); simpl; trivial.
  destruct (e2 <=? _); simpl; trivial.
Qed.

Lemma binary_normalize_sign n e :
  0 <= n -> has_sign false (binary_normalize prec emax n e false).
Proof.
  intros Hn. destruct n as [|p|p]; simpl; trivial; [|lia].
  unfold binary_round.
  destruct (shl_align p e _) as [mz ez].
  apply binary_round_aux_sign.
Qed.

Lemma Number_of_bigint_sign n :
  0 <= n -> has_sign false (Number_of_bigint n).
Proof. apply binary_normalize_sign. Qed.

Lemma mul_sign sx sy x y :
  has_sign sx x -> has_sign sy y -> has_sign (xorb sx sy) (mul x y).
Proof.
  destruct x as [a|a| |a mx ex], y as [b|b| |b my ey]; simpl;
    intros Hx Hy; subst; trivial.
  apply binary_round_aux_sign.
Qed.

Lemma div_sign sx sy x y :
  has_sign sx x -> has_sign sy y -> has_sign (xorb sx sy) (div x y).
Proof.
  destruct x as [a|a| |a mx ex], y as [b|b| |b my ey]; simpl;
    intros Hx Hy; subst; trivial.
  destruct (SFdiv_core_binary prec emax (Z.pos mx) ex (Z.pos my) ey)
    as [[mz ez] lz].
  apply binary_round_aux_sign.
Qed.

Lemma scaled_nonneg (m : positive) e : 0 <= Z.pos m * 2 ^ e.
Proof.
  apply Z.mul_nonneg_nonneg; [lia|]. apply Z.pow_nonneg; lia.
Qed.

Lemma floor_finite_nonneg m e : 0 <= floor_finite false m e.
Proof.
  unfold floor_finite, cond_Zopp. destruct (0 <=? e).
  - apply scaled_nonneg.
  - apply Z.shiftr_nonneg. lia.
Qed.

Lemma Math_floor_sign x :
  has_sign false x -> has_sign false (Math_floor x).
Proof.
  destruct x as [a|a| |a m e]; simpl; trivial.
  intros ->. destruct (0 <=? e); simpl; trivial.
  apply binary_normalize_sign, floor_finite_nonneg.
Qed.

Lemma BigInt_of_number_nonneg x k :
  has_sign false x -> BigInt_of_number x = Normal k -> 0 <= k.
Proof.
  destruct x as [a|a| |a m e]; try discriminate.
  - intros _ [= <-]. lia.
  - intros Hs. cbn [has_sign] in Hs. subst a.
    unfold BigInt_of_number, cond_Zopp.
    destruct (0 <=? e) eqn:He.
    + intros [= <-]. apply scaled_nonneg.
    + destruct (Z.pos m mod 2 ^ (- e) =? 0); [|discriminate].
      intros [= <-]. apply Z.div_pos; [lia|].
      apply Z.pow_pos_nonneg; [lia|].
      apply Z.leb_gt in He. lia.
Qed.

End Signs.

(** ** Where the double operations cannot produce NaN *)

Section NotNaN.

Lemma iter_pos_invariant {A : Type} (P : A -> Prop) (f : A -> A) :
  (forall y, P y -> P (f y)) ->
  forall n x, P x -> P (iter_pos f n x).
Proof.
  intros Hf. induction n as [n IH|n IH|]; intros x Hx; simpl; auto.
Qed.

Lemma shr_1_nonneg mrs : 0 <= shr_m mrs -> 0 <= shr_m (shr_1 mrs).
Proof.
  destruct mrs as [m r s]. simpl.
  destruct m as [|[p|p|]|[p|p|]]; simpl; lia.
Qed.

Lemma shr_nonneg mrs e n :
  0 <= shr_m mrs -> 0 <= shr_m (fst (shr mrs e n)).
Proof.
  intros H. destruct n as [|p|p]; simpl; trivial.
  apply (iter_pos_invariant (fun y => 0 <= shr_m y)); trivial.
  exact shr_1_nonneg.
Qed.

Lemma shr_fexp_nonneg m e l :
  0 <= m -> 0 <= shr_m (fst (shr_fexp prec emax m e l)).
Proof.
  intros H. unfold shr_fexp. apply shr_nonneg.
  destruct l as [|[ | | ]]; simpl; exact H.
Qed.

Lemma round_nearest_even_nonneg m l :
  0 <= m -> 0 <= round_nearest_even m l.
Proof.
  intros H. destruct l as [|[ | | ]]; simpl; try lia.
  destruct (Z.even m); lia.
Qed.

Lemma binary_round_aux_not_nan s m e l :
  0 <= m -> is_nan (binary_round_aux prec emax s m e l) = false.
Proof.
  intros H. unfold binary_round_aux.
  pose proof (shr_fexp_nonneg m e l H) as H1.
  destruct (shr_fexp prec emax m e l) as [mrs e1]. simpl in H1.
  pose proof (shr_fexp_nonneg _ e1 loc_Exact
                (round_nearest_even_nonneg _ (loc_of_shr_record mrs) H1)) as H2.
  destruct (shr_fexp prec emax _ e1 loc_Exact) as [mrs' e2]. simpl in H2.
  destruct (shr_m mrs'); [reflexivity| |lia].
  destruct (e2 <=? _); reflexivity.
Qed.

Lemma binary_round_not_nan s m e :
  is_nan (binary_round prec emax s m e) = false.
Proof.
  unfold binary_round. destruct (shl_align m e _) as [mz ez].
  apply binary_round_aux_not_nan. lia.
Qed.

Lemma binary_normalize_not_nan n e s :
  is_nan (binary_normalize prec emax n e s) = false.
Proof.
  destruct n; simpl; trivial; apply binary_round_not_nan.
Qed.

Lemma Number_of_bigint_not_nan n : is_nan (Number_of_bigint n) = false.
Proof. apply binary_normalize_not_nan. Qed.

Lemma SFdiv_core_binary_nonneg m1 e1 m2 e2 :
  0 <= fst (fst (SFdiv_core_binary prec emax (Z.pos m1) e1 (Z.pos m2) e2)).
Proof.
  unfold SFdiv_core_binary.
  set (s := _ - _ - _).
  assert (Hm : 0 <= match s with
                    | 0 => Z.pos m1
                    | Z.pos _ => Z.shiftl (Z.pos m1) s
                    | Z.neg _ => 0
                    end).
  { destruct s; try lia. apply Z.shiftl_nonneg. lia. }
  set (m' := match s with 0 => _ | Z.pos _ => _ | Z.neg _ => _ end) in *.
  pose proof (Z_div_mod m' (Z.pos m2) eq_refl) as Hd.
  destruct (Z.div_eucl m' (Z.pos m2)) as [q r]. simpl.
  destruct Hd as [Hq Hr]. nia.
Qed.

Lemma div_finite_not_nan sx mx ex sy my ey :
  is_nan (div (S754_finite sx mx ex) (S754_finite sy my ey)) = false.
Proof.
  unfold div. cbn [SFdiv].
  pose proof (SFdiv_core_binary_nonneg mx ex my ey) as H.
  destruct (SFdiv_core_binary prec emax (Z.pos mx) ex (Z.pos my) ey)
    as [[mz ez] lz].
  apply binary_round_aux_not_nan. exact H.
Qed.

Lemma mul_finite_not_nan sx mx ex sy my ey :
  is_nan (mul (S754_finite sx mx ex) (S754_finite sy my ey)) = false.
Proof.
  unfold mul. cbn [SFmul]. apply binary_round_aux_not_nan. lia.
Qed.

Lemma sub_finite_not_nan sx mx ex sy my ey :
  is_nan (sub (S754_finite sx mx ex) (S754_finite sy my ey)) = false.
Proof.
  unfold sub. cbn [SFsub]. apply binary_normalize_not_nan.
Qed.

End NotNaN.

(** ** [Math.abs] and the sign-symmetric operations *)

Section Abs.

Lemma Math_abs_binary_round_aux s m e l :
  Math_abs (binary_round_aux prec emax s m e l)
  = binary_round_aux prec emax false m e l.
Proof.
  unfold binary_round_aux.
  destruct (shr_fexp prec emax m e l) as [mrs e1].
  destruct (shr_fexp prec emax _ e1 loc_Exact) as [mrs' e2].
  destruct (shr_m mrs'); trivial.
  destruct (e2 <=? _); trivial.
Qed.

Lemma Math_abs_mul x y :
  Math_abs (mul x y) = mul (Math_abs x) (Math_abs y).
Proof.
  destruct x as [a|a| |a mx ex], y as [b|b| |b my ey]; trivial.
  unfold mul. cbn [SFmul Math_abs SFabs].
  apply Math_abs_binary_round_aux.
Qed.

Lemma Math_abs_div x y :
  Math_abs (div x y) = div (Math_abs x) (Math_abs y).
Proof.
  destruct x as [a|a| |a mx ex], y as [b|b| |b my ey]; trivial.
  unfold div. cbn [SFdiv Math_abs SFabs].
  destruct (SFdiv_core_binary prec emax (Z.pos mx) ex (Z.pos my) ey)
    as [[mz ez] lz].
  apply Math_abs_binary_round_aux.
Qed.

Lemma Math_abs_id x : has_sign false x -> Math_abs x = x.
Proof.
  destruct x as [a|a| |a m e]; simpl; trivial; intros ->; trivial.
Qed.

End Abs.

(** ** Agreement with the machine's doubles

    The reference operations on [spec_float] give, on the inputs the
    counterexamples below rest on, the results of the processor's binary64
    arithmetic. *)

Module Hardware.

Import PrimInt63 PrimFloat FloatOps.

Example hardware_Number_rounds :
  Prim2SF (of_uint63 999999999999999999%uint63)
  = Number_of_bigint 999999999999999999.
Proof. vm_compute. reflexivity. Qed.

Example hardware_one_percent_of_one :
  Prim2SF (of_uint63 1%uint63 * (of_uint63 100%uint63 / of_uint63 10000%uint63))%float
  = JS.mul (Number_of_bigint 1) (JS.div (lit 100) (lit 10000)).
Proof. vm_compute. reflexivity. Qed.

Example hardware_29_percent_of_100 :
  Prim2SF (of_uint63 100%uint63 * (of_uint63 2900%uint63 / of_uint63 10000%uint63))%float
  = JS.mul (Number_of_bigint 100) (JS.div (lit 2900) (lit 10000)).
Proof. vm_compute. reflexivity. Qed.

Example hardware_expectedOut_overflows :
  Prim2SF (0x1p1023 * of_uint63 2%uint63 / of_uint63 1%uint63)%float
  = expectedOut (2 ^ 1023) 1 2.
Proof. vm_compute. reflexivity. Qed.

Example hardware_impact_of_zero_expectedOut :
  Prim2SF (abs ((of_uint63 0%uint63 - of_uint63 5%uint63) / of_uint63 0%uint63
                * of_uint63 100%uint63))%float
  = PosInfinity.
Proof. vm_compute. reflexivity. Qed.

End Hardware.

(** ** Enumerating the basis points *)

Section BasisPoints.

Lemma bps_range_complete bps : 0 <= bps <= 10000 -> In bps bps_range.
Proof.
  intros H. unfold bps_range. apply in_map_iff.
  exists (Z.to_nat bps). split; [lia|]. apply in_seq. lia.
Qed.

Lemma forall_bps (P : Z -> bool) :
  forallb P bps_range = true ->
  forall bps, 0 <= bps <= 10000 -> P bps = true.
Proof.
  intros H bps Hb.
  exact (proj1 (forallb_forall P bps_range) H bps (bps_range_complete bps Hb)).
Qed.

Lemma multiplier_exact_all : forallb multiplier_exact bps_range = true.
Proof. vm_compute. reflexivity. Qed.

Lemma truthy_lit bps :
  0 <= bps <= 10000 -> truthy_number (lit bps) = negb (bps =? 0).
Proof.
  intros H. pose proof (forall_bps _ multiplier_exact_all bps H) as E.
  unfold multiplier_exact in E. apply andb_prop in E as [E _].
  apply Bool.eqb_prop in E. exact E.
Qed.

Lemma BigInt_multiplier bps :
  0 <= bps <= 10000 ->
  BigInt_of_number (sub (lit 10000) (lit bps)) = Normal (10000 - bps).
Proof.
  intros H. pose proof (forall_bps _ multiplier_exact_all bps H) as E.
  unfold multiplier_exact in E. apply andb_prop in E as [_ E].
  destruct (BigInt_of_number (sub (lit 10000) (lit bps))); [|discriminate].
  apply Z.eqb_eq in E. now subst.
Qed.

End BasisPoints.

(** ** The slippage protection of [executeSwap] *)

Section SlippageProtection.

Import Flashnet.

(** The tolerance applied for an integral [maxSlippageBps]. *)
Lemma slippageTolerance_bps params bps :
  0 <= bps <= 10000 ->
  SwapParams.maxSlippageBps params = Some (lit bps) ->
  slippageTolerance params = lit (if bps =? 0 then 100 else bps).
Proof.
  intros H E. unfold slippageTolerance, or_number. rewrite E.
  rewrite (truthy_lit bps H). destruct (bps =? 0); reflexivity.
Qed.

Lemma slippageMultiplier_bps params bps :
  0 <= bps <= 10000 ->
  SwapParams.maxSlippageBps params = Some (lit bps) ->
  slippageMultiplier params = Normal (10000 - (if bps =? 0 then 100 else bps)).
Proof.
  intros H E. unfold slippageMultiplier.
  rewrite (slippageTolerance_bps params bps H E).
  apply BigInt_multiplier. destruct (bps =? 0); lia.
Qed.

Lemma slippageMultiplier_absent params :
  SwapParams.maxSlippageBps params = None ->
  slippageMultiplier params = Normal 9900.
Proof.
  intros E. unfold slippageMultiplier, slippageTolerance, or_number.
  rewrite E. apply (BigInt_multiplier 100). lia.
Qed.

Lemma slippageProtection_bps params simulation bps :
  0 <= bps <= 10000 ->
  SwapParams.maxSlippageBps params = Some (lit bps) ->
  slippageProtection params simulation
  = Normal (computeMinAmountOut_spec (SwapSimulation.amountOut simulation)
              (if bps =? 0 then 100 else bps)).
Proof.
  intros H E. unfold slippageProtection.
  rewrite (slippageMultiplier_bps params bps H E). reflexivity.
Qed.

(** With an initialised client whose simulation answers, [executeSwap]
    hands the request of step 2 to the SDK and reports what the SDK does. *)
Lemma executeSwap_sends {SwapResponse Wallet : Type}
    (this : LaunchpadClient SwapResponse Wallet) c params simulation request :
  client this = Some c ->
  simulateSwap c {|
      SimulateSwapRequest.poolId := SwapParams.poolId params;
      SimulateSwapRequest.assetInAddress := SwapParams.assetIn params;
      SimulateSwapRequest.assetOutAddress := SwapParams.assetOut params;
      SimulateSwapRequest.amountIn := bigint_toString (SwapParams.amountIn params) |}
  = Normal (object simulation) ->
  swapRequest params simulation = Normal request ->
  executeSwap this params
  = Normal match (answer <- client_executeSwap c request ;;
                  swapExecuted answer) with
           | Normal outcome => outcome
           | Throw e => swapCatch e
           end.
Proof.
  intros Hc Hs Hr. unfold executeSwap, getClient. rewrite Hc. cbn [bind].
  rewrite Hs. cbn [bind read_property]. rewrite Hr. cbn [bind].
  destruct (client_executeSwap c request) as [[r| |]|e]; reflexivity.
Qed.

End SlippageProtection.

(** ** The minimum amount never exceeds the quoted amount *)

Section Bounds.

Import Flashnet.

Lemma lit_sign n : 0 <= n -> has_sign false (lit n).
Proof. apply Number_of_bigint_sign. Qed.

(** [calculateSlippage] subtracts a non-negative integer from [amount]
    whenever the amount and the basis points carry no minus sign. *)
Lemma calculateSlippage_le amount slippageBps r :
  0 <= amount -> has_sign false slippageBps ->
  calculateSlippage amount slippageBps = Normal r -> r <= amount.
Proof.
  intros Ha Hb. unfold calculateSlippage.
  set (slippageAmount := mul _ _).
  assert (Hs : has_sign false slippageAmount).
  { apply (mul_sign false false); [now apply Number_of_bigint_sign|].
    apply (div_sign false false); [exact Hb|]. apply lit_sign. lia. }
  destruct (BigInt_of_number (Math_floor slippageAmount)) as [k|e] eqn:Ek;
    simpl; [|discriminate].
  intros [= <-].
  pose proof (BigInt_of_number_nonneg _ _ (Math_floor_sign _ Hs) Ek). lia.
Qed.

Lemma computeMinAmountOut_spec_le q bps :
  0 <= q -> 0 <= bps <= 10000 -> computeMinAmountOut_spec q bps <= q.
Proof.
  intros Hq Hb. unfold computeMinAmountOut_spec.
  rewrite Z.quot_div_nonneg by nia.
  apply Z.div_le_upper_bound; nia.
Qed.

Lemma computeMinAmountOut_spec_lt q bps :
  0 < q -> 0 < bps <= 10000 -> computeMinAmountOut_spec q bps < q.
Proof.
  intros Hq Hb. unfold computeMinAmountOut_spec.
  rewrite Z.quot_div_nonneg by nia.
  apply Z.div_lt_upper_bound; nia.
Qed.

Lemma computeMinAmountOut_spec_nonneg q bps :
  0 <= q -> 0 <= bps <= 10000 -> 0 <= computeMinAmountOut_spec q bps.
Proof.
  intros Hq Hb. unfold computeMinAmountOut_spec.
  rewrite Z.quot_div_nonneg by nia.
  apply Z.div_pos; nia.
Qed.

End Bounds.

(** ** Values of the rounded results *)

Section Rounding.

Lemma digits_bounds p :
  2 ^ (Z.pos (digits2_pos p) - 1) <= Z.pos p < 2 ^ Z.pos (digits2_pos p).
Proof.
  induction p as [p IH|p IH|]; cbn [digits2_pos].
  - rewrite Pos2Z.inj_succ.
    replace (Z.succ (Z.pos (digits2_pos p)) - 1) with (Z.succ (Z.pos (digits2_pos p) - 1)) by lia.
    rewrite !Z.pow_succ_r by lia. lia.
  - rewrite Pos2Z.inj_succ.
    replace (Z.succ (Z.pos (digits2_pos p)) - 1) with (Z.succ (Z.pos (digits2_pos p) - 1)) by lia.
    rewrite !Z.pow_succ_r by lia. lia.
  - simpl. lia.
Qed.

Lemma digits_unique p d :
  2 ^ (d - 1) <= Z.pos p < 2 ^ d -> Z.pos (digits2_pos p) = d.
Proof.
  intros [Hl Hu]. pose proof (digits_bounds p) as [Bl Bu].
  assert (Hd : 0 < d).
  { destruct (Z_lt_le_dec 0 d); trivial.
    exfalso. destruct d; simpl in Hu; lia. }
  assert (d - 1 < Z.pos (digits2_pos p)).
  { apply (Z.pow_lt_mono_r_iff 2); lia. }
  assert (Z.pos (digits2_pos p) - 1 < d).
  { apply (Z.pow_lt_mono_r_iff 2); lia. }
  lia.
Qed.

Lemma shr_1_div2 mrs : 0 <= shr_m mrs -> shr_m (shr_1 mrs) = shr_m mrs / 2.
Proof.
  destruct mrs as [m r s]. cbn [shr_m]. intros H.
  destruct m as [|[p|p|]|p]; cbn [shr_1 shr_m]; try reflexivity; try lia.
  - rewrite (Pos2Z.inj_xI p). apply Z.div_unique with 1; lia.
  - rewrite (Pos2Z.inj_xO p). apply Z.div_unique with 0; lia.
Qed.

Lemma pow2_xO p : 2 ^ Z.pos p~0 = 2 ^ Z.pos p * 2 ^ Z.pos p.
Proof.
  rewrite (Pos2Z.inj_xO p), <- Z.pow_add_r by lia. f_equal. lia.
Qed.

Lemma pow2_xI p : 2 ^ Z.pos p~1 = 2 * (2 ^ Z.pos p * 2 ^ Z.pos p).
Proof.
  rewrite (Pos2Z.inj_xI p), <- Z.pow_add_r, <- Z.pow_succ_r by lia.
  f_equal. lia.
Qed.

Lemma pow2_pos k : 0 <= k -> 0 < 2 ^ k.
Proof. intros. apply Z.pow_pos_nonneg; lia. Qed.

Lemma iter_shr_1_div p : forall mrs,
  0 <= shr_m mrs ->
  shr_m (iter_pos shr_1 p mrs) = shr_m mrs / 2 ^ Z.pos p.
Proof.
  induction p as [p IH|p IH|]; intros mrs H; cbn [iter_pos].
  - assert (H1 := shr_1_nonneg _ H).
    assert (H2 : 0 <= shr_m (iter_pos shr_1 p (shr_1 mrs))).
    { rewrite IH by trivial. apply Z.div_pos; [trivial|]. apply pow2_pos; lia. }
    assert (P := pow2_pos (Z.pos p) ltac:(lia)).
    rewrite IH, IH, shr_1_div2, pow2_xI by trivial.
    rewrite !Z.div_div by lia. reflexivity.
  - assert (H2 : 0 <= shr_m (iter_pos shr_1 p mrs)).
    { rewrite IH by trivial. apply Z.div_pos; [trivial|]. apply pow2_pos; lia. }
    assert (P := pow2_pos (Z.pos p) ltac:(lia)).
    rewrite IH, IH, pow2_xO by trivial.
    rewrite !Z.div_div by lia. reflexivity.
  - rewrite shr_1_div2 by trivial. reflexivity.
Qed.

Lemma round_nearest_even_bounds m l :
  m <= round_nearest_even m l <= m + 1.
Proof.
  destruct l as [|[ | | ]]; simpl; try lia. destruct (Z.even m); lia.
Qed.

Lemma fexp_normal k : -1074 <= k - 53 -> fexp prec emax k = k - 53.
Proof. unfold fexp, emin, prec, emax. lia. Qed.

(** Rounding a mantissa of exactly 53 bits changes nothing. *)
Lemma binary_round_aux_canonical s m e :
  Z.pos (digits2_pos m) = 53 -> -1074 <= e <= 971 ->
  binary_round_aux prec emax s (Z.pos m) e loc_Exact = S754_finite s m e.
Proof.
  intros Hd He. unfold binary_round_aux, shr_fexp.
  cbn [Zdigits2 shr_record_of_loc]. rewrite Hd.
  rewrite fexp_normal by lia.
  replace (53 + e - 53 - e) with 0 by lia.
  cbn [shr shr_m loc_of_shr_record round_nearest_even Zdigits2].
  rewrite Hd, fexp_normal by lia.
  replace (53 + e - 53 - e) with 0 by lia.
  cbn [shr shr_m].
  replace (e <=? emax - prec) with true; [reflexivity|].
  symmetry. apply Z.leb_le. unfold emax, prec. lia.
Qed.

Lemma shr_m_of_loc m l : shr_m (shr_record_of_loc m l) = m.
Proof. destruct l as [|[ | | ]]; reflexivity. Qed.

Lemma pos_iter_xO p k : Z.pos (Pos.iter xO p k) = Z.pos p * 2 ^ Z.pos k.
Proof.
  rewrite (Pos.iter_swap_gen _ _ Z.pos xO (Z.mul 2)) by reflexivity.
  change (Pos.iter (Z.mul 2) (Z.pos p) k) with (Z.shiftl (Z.pos p) (Z.pos k)).
  apply Z.shiftl_mul_pow2. lia.
Qed.

(** Rounding a mantissa of [53 + n] bits: the result keeps 53 bits and lies
    between the mantissa truncated to 53 bits and its successor. *)
Lemma binary_round_aux_inexact s M e (n : positive) l :
  Z.pos (digits2_pos M) = 53 + Z.pos n ->
  -1074 <= e + Z.pos n -> e + Z.pos n + 1 <= 971 ->
  exists m' k,
    binary_round_aux prec emax s (Z.pos M) e l
    = S754_finite s m' (e + Z.pos n + k)
    /\ 0 <= k <= 1
    /\ Z.pos (digits2_pos m') = 53
    /\ Z.pos M / 2 ^ Z.pos n * 2 ^ Z.pos n <= Z.pos m' * 2 ^ (Z.pos n + k)
       <= (Z.pos M / 2 ^ Z.pos n + 1) * 2 ^ Z.pos n.
Proof.
  intros Hd Hlo Hhi.
  assert (Pn := pow2_pos (Z.pos n) ltac:(lia)).
  pose proof (digits_bounds M) as [Bl Bu]. rewrite Hd in Bl, Bu.
  replace (53 + Z.pos n - 1) with (52 + Z.pos n) in Bl by lia.
  rewrite Z.pow_add_r in Bl, Bu by lia.
  set (m0 := Z.pos M / 2 ^ Z.pos n).
  assert (Hm0 : 2 ^ 52 <= m0 < 2 ^ 53).
  { split.
    - apply Z.div_le_lower_bound; lia.
    - apply Z.div_lt_upper_bound; lia. }
  unfold binary_round_aux, shr_fexp. cbn [Zdigits2]. rewrite Hd.
  rewrite fexp_normal by lia.
  replace (53 + Z.pos n + e - 53 - e) with (Z.pos n) by lia.
  cbn [shr].
  set (mrs := iter_pos shr_1 n (shr_record_of_loc (Z.pos M) l)).
  assert (Hmrs : shr_m mrs = m0).
  { unfold mrs. rewrite iter_shr_1_div; rewrite shr_m_of_loc; [reflexivity|lia]. }
  rewrite Hmrs.
  pose proof (round_nearest_even_bounds m0 (loc_of_shr_record mrs)) as Hr.
  destruct (round_nearest_even m0 (loc_of_shr_record mrs)) as [|p1|p1] eqn:E1;
    [lia| |lia].
  cbn [Zdigits2].
  destruct (Z_lt_le_dec (Z.pos p1) (2 ^ 53)) as [Hlt|Hge].
  - assert (D1 : Z.pos (digits2_pos p1) = 53).
    { apply digits_unique. simpl (53 - 1). lia. }
    rewrite D1, fexp_normal by lia.
    replace (53 + (e + Z.pos n) - 53 - (e + Z.pos n)) with 0 by lia.
    cbn [shr shr_record_of_loc shr_m].
    replace (e + Z.pos n <=? emax - prec) with true
      by (symmetry; apply Z.leb_le; unfold emax, prec; lia).
    exists p1, 0. rewrite !Z.add_0_r. repeat split; try lia; nia.
  - assert (Ep : p1 = 9007199254740992%positive).
    { assert (Z.pos p1 = 2 ^ 53) by lia. apply Pos2Z.inj. rewrite H. reflexivity. }
    subst p1.
    change (Z.pos (digits2_pos 9007199254740992)) with 54.
    rewrite fexp_normal by lia.
    replace (54 + (e + Z.pos n) - 53 - (e + Z.pos n)) with 1 by lia.
    cbn [shr shr_record_of_loc shr_m iter_pos shr_1].
    replace (e + Z.pos n + 1 <=? emax - prec) with true
      by (symmetry; apply Z.leb_le; unfold emax, prec; lia).
    exists 4503599627370496%positive, 1. repeat split; try lia.
    + rewrite Z.pow_add_r by lia.
      change (Z.pos 4503599627370496 * (2 ^ Z.pos n * 2 ^ 1))
        with (2 ^ 52 * (2 ^ Z.pos n * 2)). nia.
    + rewrite Z.pow_add_r by lia.
      change (Z.pos 4503599627370496 * (2 ^ Z.pos n * 2 ^ 1))
        with (2 ^ 52 * (2 ^ Z.pos n * 2)).
      assert (m0 + 1 = 2 ^ 53) by lia.
      change (2 ^ 53) with (2 ^ 52 * 2) in *. nia.
Qed.

(** An integer below 2^53 converts exactly. *)
Lemma Number_of_bigint_exact q :
  0 < q < 2 ^ 53 ->
  exists m e,
    Number_of_bigint q = S754_finite false m e
    /\ Z.pos (digits2_pos m) = 53
    /\ -52 <= e <= 0
    /\ Z.pos m = q * 2 ^ (- e).
Proof.
  intros [H0 H53]. destruct q as [|p|p]; try lia.
  unfold Number_of_bigint. cbn [binary_normalize]. unfold binary_round.
  pose proof (digits_bounds p) as [Bl Bu].
  set (d := Z.pos (digits2_pos p)) in *.
  assert (Hd : 1 <= d <= 53).
  { split; [unfold d; lia|].
    assert (d - 1 < 53); [|lia].
    apply (Z.pow_lt_mono_r_iff 2); lia. }
  rewrite Z.add_0_r, fexp_normal by lia.
  unfold shl_align.
  destruct (d - 53 - 0) as [|k|k] eqn:Ek; [| lia |].
  - assert (d = 53) by lia.
    exists p, 0. rewrite binary_round_aux_canonical by (unfold d in *; lia).
    repeat split; lia.
  - assert (Hk : Z.pos k = 53 - d) by lia.
    pose proof (pos_iter_xO p k) as Hz.
    assert (Pk := pow2_pos (Z.pos k) ltac:(lia)).
    assert (E1 : 2 ^ (53 - 1) = 2 ^ (d - 1) * 2 ^ Z.pos k).
    { rewrite <- Z.pow_add_r by lia. f_equal. lia. }
    assert (E2 : 2 ^ 53 = 2 ^ d * 2 ^ Z.pos k).
    { rewrite <- Z.pow_add_r by lia. f_equal. lia. }
    assert (D : Z.pos (digits2_pos (Pos.iter xO p k)) = 53).
    { apply digits_unique. rewrite Hz, E1, E2. split; nia. }
    exists (Pos.iter xO p k), (d - 53).
    rewrite binary_round_aux_canonical by lia.
    repeat split; try lia.
    rewrite Hz. f_equal. f_equal. lia.
Qed.

End Rounding.

(** ** [calculateSlippage] against the exact formula *)

Section SlippageValue.

Lemma percent_ok_all : forallb percent_ok bps_range = true.
Proof. vm_compute. reflexivity. Qed.

Lemma percent_zero : div (lit 0) (lit 10000) = S754_zero false.
Proof. reflexivity. Qed.

Lemma percent_finite bps :
  1 <= bps <= 10000 ->
  exists mp ep,
    div (lit bps) (lit 10000) = S754_finite false mp ep
    /\ Z.pos (digits2_pos mp) = 53
    /\ -66 <= ep <= -52
    /\ Z.abs (Z.pos mp * 10000 - bps * 2 ^ (- ep)) <= 5000.
Proof.
  intros H.
  pose proof (forall_bps _ percent_ok_all bps ltac:(lia)) as E.
  unfold percent_ok in E.
  destruct (div (lit bps) (lit 10000)) as [[|]|[|]| |[|] mp ep];
    try discriminate.
  - apply Z.eqb_eq in E. lia.
  - exists mp, ep.
    repeat (apply andb_prop in E; destruct E as [E ?]).
    repeat split; try reflexivity.
    + now apply Z.eqb_eq.
    + now apply Z.leb_le.
    + now apply Z.leb_le.
    + now apply Z.leb_le.
Qed.

(** [BigInt(Math.floor(x))] for a positive double below 1 in the last
    place: the exact integer part. *)
Lemma BigInt_floor_finite m e :
  Z.pos (digits2_pos m) = 53 -> e < 0 ->
  BigInt_of_number (Math_floor (S754_finite false m e))
  = Normal (Z.pos m / 2 ^ (- e)).
Proof.
  intros Hd He. cbn [Math_floor].
  replace (0 <=? e) with false by (symmetry; apply Z.leb_gt; lia).
  unfold floor_finite.
  replace (0 <=? e) with false by (symmetry; apply Z.leb_gt; lia).
  cbn [cond_Zopp]. rewrite Z.shiftr_div_pow2 by lia.
  assert (Pe := pow2_pos (- e) ltac:(lia)).
  pose proof (digits_bounds m) as [_ Bu]. rewrite Hd in Bu.
  set (F := Z.pos m / 2 ^ (- e)).
  assert (HF : 0 <= F < 2 ^ 53).
  { split; [apply Z.div_pos; lia|].
    apply Z.div_lt_upper_bound; [lia|]. nia. }
  destruct (Z.eq_dec F 0) as [->|Hnz]; [reflexivity|].
  destruct (Number_of_bigint_exact F ltac:(lia)) as (mF & eF & EF & _ & HeF & HmF).
  fold (Number_of_bigint F). rewrite EF. cbn [BigInt_of_number cond_Zopp].
  assert (PF := pow2_pos (- eF) ltac:(lia)).
  destruct (0 <=? eF) eqn:E0.
  - apply Z.leb_le in E0. assert (eF = 0) by lia. subst eF.
    f_equal. rewrite HmF. simpl. lia.
  - rewrite HmF, Z_mod_mult, Z_div_mult by lia. reflexivity.
Qed.

(** The product of two positive doubles with 53-bit mantissas, away from
    overflow and underflow: a 53-bit mantissa within one unit in the last
    place of the exact product. *)
Lemma mul_finite_value mx ex my ey :
  Z.pos (digits2_pos mx) = 53 -> Z.pos (digits2_pos my) = 53 ->
  -1074 <= ex + ey + 52 -> ex + ey + 54 <= 971 ->
  exists m' sh,
    mul (S754_finite false mx ex) (S754_finite false my ey)
    = S754_finite false m' (ex + ey + sh)
    /\ 52 <= sh <= 54
    /\ Z.pos (digits2_pos m') = 53
    /\ Z.abs (Z.pos m' * 2 ^ sh - Z.pos mx * Z.pos my) * 2 ^ 52
       <= Z.pos mx * Z.pos my.
Proof.
  intros Dx Dy Hlo Hhi. unfold mul. cbn [SFmul xorb].
  pose proof (digits_bounds mx) as [Xl Xu]. rewrite Dx in Xl, Xu.
  pose proof (digits_bounds my) as [Yl Yu]. rewrite Dy in Yl, Yu.
  change (2 ^ (53 - 1)) with (2 ^ 52) in Xl, Yl.
  set (M := (mx * my)%positive).
  assert (HM : Z.pos M = Z.pos mx * Z.pos my) by reflexivity.
  assert (Ml : 2 ^ 104 <= Z.pos M).
  { rewrite HM. change (2 ^ 104) with (2 ^ 52 * 2 ^ 52). nia. }
  assert (Mu : Z.pos M < 2 ^ 106).
  { rewrite HM. change (2 ^ 106) with (2 ^ 53 * 2 ^ 53). nia. }
  pose proof (digits_bounds M) as [Bl Bu].
  set (d := Z.pos (digits2_pos M)) in *.
  assert (Hd : d = 105 \/ d = 106).
  { assert (104 < d) by (apply (Z.pow_lt_mono_r_iff 2); lia).
    assert (d - 1 < 106) by (apply (Z.pow_lt_mono_r_iff 2); lia).
    lia. }
  assert (Hn : exists n : positive, d = 53 + Z.pos n /\ 52 <= Z.pos n <= 53).
  { destruct Hd as [-> | ->]; [exists 52%positive | exists 53%positive]; lia. }
  destruct Hn as (n & Hdn & Hn).
  destruct (binary_round_aux_inexact false M (ex + ey) n loc_Exact)
    as (m' & k & E & Hk & D' & Vl & Vu); try lia.
  exists m', (Z.pos n + k).
  rewrite E. replace (ex + ey + Z.pos n + k) with (ex + ey + (Z.pos n + k)) by lia.
  split; [reflexivity|]. split; [lia|]. split; [exact D'|].
  rewrite <- HM.
  assert (Pn := pow2_pos (Z.pos n) ltac:(lia)).
  assert (Hulp : 2 ^ Z.pos n * 2 ^ 52 <= Z.pos M).
  { rewrite <- Z.pow_add_r by lia.
    replace (Z.pos n + 52) with (d - 1) by lia. exact Bl. }
  pose proof (Z.mul_div_le (Z.pos M) (2 ^ Z.pos n) Pn) as T1.
  pose proof (Z.mul_succ_div_gt (Z.pos M) (2 ^ Z.pos n) Pn) as T2.
  set (V := Z.pos m' * 2 ^ (Z.pos n + k)) in *.
  assert (Z.abs (V - Z.pos M) <= 2 ^ Z.pos n) by lia.
  nia.
Qed.

(** The integer that [calculateSlippage] subtracts, for amounts up to
    10^11: the exact slippage [amount * bps / 10000] rounded down, or one
    less when the double product falls just below an exact integer. *)
Lemma slippage_floor q bps :
  1 <= q <= 10 ^ 11 -> 1 <= bps <= 10000 ->
  exists F,
    BigInt_of_number
      (Math_floor (mul (Number_of_bigint q) (div (lit bps) (lit 10000))))
    = Normal F
    /\ q * bps / 10000 - 1 <= F <= q * bps / 10000
    /\ (0 < (q * bps) mod 10000 -> F = q * bps / 10000).
Proof.
  intros Hq Hb.
  destruct (Number_of_bigint_exact q) as (mq & eq & Eq & Dq & Heq & Hmq).
  { change (2 ^ 53) with 9007199254740992. change (10 ^ 11) with 100000000000 in Hq. lia. }
  destruct (percent_finite bps Hb) as (mp & ep & Ep & Dp & Hep & Hdelta).
  rewrite Eq, Ep.
  set (a := 2 ^ (- eq)) in *. set (b := 2 ^ (- ep)) in *.
  assert (Pa : 0 < a) by (apply pow2_pos; lia).
  pose proof (digits_bounds mq) as [Ql _]. rewrite Dq in Ql.
  change (2 ^ (53 - 1)) with 4503599627370496 in Ql.
  change (10 ^ 11) with 100000000000 in Hq.
  assert (Heq' : eq <= -16).
  { destruct (Z_le_gt_dec eq (-16)) as [|Hgt]; trivial. exfalso.
    assert (a <= 2 ^ 15) by (apply Z.pow_le_mono_r; lia).
    change (2 ^ 15) with 32768 in *. nia. }
  assert (Hb52 : 2 ^ 52 <= b) by (apply Z.pow_le_mono_r; lia).
  change (2 ^ 52) with 4503599627370496 in Hb52.
  pose proof (digits_bounds mp) as [_ Pu]. rewrite Dp in Pu.
  change (2 ^ 53) with 9007199254740992 in Pu.
  destruct (mul_finite_value mq eq mp ep Dq Dp) as (m' & sh & Em & Hsh & D' & HV);
    try lia.
  rewrite Em.
  rewrite BigInt_floor_finite by (trivial; lia).
  eexists. split; [reflexivity|].
  set (e' := eq + ep + sh).
  assert (He' : e' < 0) by (unfold e'; lia).
  set (W := a * b).
  assert (HW : 2 ^ (- e') * 2 ^ sh = W).
  { unfold W, a, b. rewrite <- !Z.pow_add_r by lia. f_equal. unfold e'. lia. }
  assert (Ps := pow2_pos sh ltac:(lia)).
  assert (Pe := pow2_pos (- e') ltac:(lia)).
  set (V := Z.pos m' * 2 ^ sh) in *.
  assert (HF : Z.pos m' / 2 ^ (- e') = V / W).
  { unfold V. rewrite <- HW. symmetry. apply Z.div_mul_cancel_r; lia. }
  rewrite HF. clearbody V. clear HF.
  change (2 ^ 52) with 4503599627370496 in HV.
  set (QA := q * a) in *.
  assert (PQA : 0 < QA) by (unfold QA; nia).
  rewrite Hmq in HV.
  set (X := V - QA * Z.pos mp) in *.
  assert (HX : - (2 * QA) < X < 2 * QA).
  { assert (Z.abs X * 4503599627370496 < QA * 9007199254740992) by nia. lia. }
  set (delta := Z.pos mp * 10000 - bps * b) in *.
  assert (Hd : -5000 <= delta <= 5000) by lia.
  assert (HY : - W < V * 10000 - q * bps * W < W).
  { replace (V * 10000 - q * bps * W) with (X * 10000 + QA * delta)
      by (unfold X, delta, W, QA; ring).
    assert (25000 * QA < W) by (unfold W, QA; nia).
    assert (-5000 * QA <= QA * delta <= 5000 * QA).
    { split.
      - replace (-5000 * QA) with (QA * -5000) by ring.
        apply Z.mul_le_mono_nonneg_l; lia.
      - replace (5000 * QA) with (QA * 5000) by ring.
        apply Z.mul_le_mono_nonneg_l; lia. }
    lia. }
  assert (PW : 0 < W) by (unfold W; apply Z.mul_pos_pos; lia).
  pose proof (Z.div_mod (q * bps) 10000 ltac:(lia)) as HN.
  pose proof (Z.mod_pos_bound (q * bps) 10000 ltac:(lia)) as Ht.
  set (c := q * bps / 10000) in *. set (t := (q * bps) mod 10000) in *.
  rewrite HN in HY.
  assert (T1 : 0 <= t * W) by (apply Z.mul_nonneg_nonneg; lia).
  assert (T2 : t * W <= 9999 * W) by (apply Z.mul_le_mono_nonneg_r; lia).
  assert (T3 : 0 < t -> 1 * W <= t * W)
    by (intros; apply Z.mul_le_mono_nonneg_r; lia).
  clear - HY T1 T2 T3 PW.
  split; [split|].
  - apply Z.div_le_lower_bound; [lia|]. lia.
  - assert (V / W < c + 1); [|lia]. apply Z.div_lt_upper_bound; [lia|]. lia.
  - intros Hpos. specialize (T3 Hpos). apply Z.le_antisymm.
    + assert (V / W < c + 1); [|lia]. apply Z.div_lt_upper_bound; [lia|]. lia.
    + apply Z.div_le_lower_bound; [lia|]. lia.
Qed.

(** For amounts up to 10^11 [calculateSlippage] returns the formula of the
    specification or one more, and one more whenever [q * bps] is not a
    multiple of 10000. *)
Lemma calculateSlippage_near_formula q bps :
  0 <= q <= 10 ^ 11 -> 0 <= bps <= 10000 ->
  exists r,
    calculateSlippage q (lit bps) = Normal r
    /\ computeMinAmountOut_spec q bps <= r <= computeMinAmountOut_spec q bps + 1
    /\ ((q * bps) mod 10000 <> 0 -> r = computeMinAmountOut_spec q bps + 1).
Proof.
  intros Hq Hb. unfold calculateSlippage, computeMinAmountOut_spec.
  destruct (Z.eq_dec q 0) as [->|Hq0].
  { exists 0. rewrite Z.mul_0_l, Z.quot_0_l by lia.
    split; [|split; [lia|intros H; now elim H]].
    destruct (Z.eq_dec bps 0) as [->|Hb0]; [reflexivity|].
    destruct (percent_finite bps ltac:(lia)) as (mp & ep & Ep & _).
    rewrite Ep. reflexivity. }
  destruct (Z.eq_dec bps 0) as [->|Hb0].
  { rewrite percent_zero.
    destruct (Number_of_bigint_exact q) as (mq & eq & Eq & _).
    { change (2 ^ 53) with 9007199254740992.
      change (10 ^ 11) with 100000000000 in Hq. lia. }
    rewrite Eq. exists q. split; [|split].
    - simpl. f_equal. lia.
    - rewrite Z.sub_0_r, Z.quot_mul by lia. lia.
    - rewrite Z.mul_0_r. intros H; now elim H. }
  destruct (slippage_floor q bps ltac:(lia) ltac:(lia)) as (F & EF & HF & Ht).
  rewrite EF. cbn [bind]. exists (q - F). split; [reflexivity|].
  change (10 ^ 11) with 100000000000 in Hq.
  rewrite Z.quot_div_nonneg by nia.
  replace (q * (10000 - bps)) with (10000 * q - q * bps) by ring.
  pose proof (Z.div_mod (q * bps) 10000 ltac:(lia)) as HN.
  pose proof (Z.mod_pos_bound (q * bps) 10000 ltac:(lia)) as Hm.
  set (N := q * bps) in *.
  set (c := N / 10000) in *. set (t := N mod 10000) in *.
  destruct (Z.eq_dec t 0) as [E0|Hpos].
  - assert ((10000 * q - N) / 10000 = q - c).
    { symmetry. apply Z.div_unique with 0; lia. }
    split; [lia|]. intros H'. now elim H'.
  - assert ((10000 * q - N) / 10000 = q - c - 1).
    { symmetry. apply Z.div_unique with (10000 - t); lia. }
    specialize (Ht ltac:(lia)). split; [lia|]. intros _. lia.
Qed.

Lemma percent_full :
  div (lit 10000) (lit 10000) = S754_finite false 4503599627370496 (-52).
Proof. reflexivity. Qed.

(** Up to 10^11 the two extreme tolerances are exact: nothing is taken off
    at 0 basis points and everything at 10000. *)
Lemma calculateSlippage_extremes q :
  0 <= q <= 10 ^ 11 ->
  calculateSlippage q (lit 0) = Normal q
  /\ calculateSlippage q (lit 10000) = Normal 0.
Proof.
  intros Hq. unfold calculateSlippage. rewrite percent_zero, percent_full.
  destruct (Z.eq_dec q 0) as [->|Hq0]; [split; reflexivity|].
  change (10 ^ 11) with 100000000000 in Hq.
  destruct (Number_of_bigint_exact q) as (mq & eq & Eq & Dq & Heq & Hmq).
  { change (2 ^ 53) with 9007199254740992. lia. }
  rewrite Eq. split.
  - simpl. f_equal. lia.
  - set (a := 2 ^ (- eq)) in *.
    assert (Pa : 0 < a) by (apply pow2_pos; lia).
    pose proof (digits_bounds mq) as [Ql Qu]. rewrite Dq in Ql, Qu.
    change (2 ^ (53 - 1)) with 4503599627370496 in Ql.
    change (2 ^ 53) with 9007199254740992 in Qu.
    assert (Heq' : eq <= -16).
    { destruct (Z_le_gt_dec eq (-16)) as [|Hgt]; trivial. exfalso.
      assert (a <= 2 ^ 15) by (apply Z.pow_le_mono_r; lia).
      change (2 ^ 15) with 32768 in *. nia. }
    assert (Ha : 2 ^ 16 <= a) by (apply Z.pow_le_mono_r; lia).
    change (2 ^ 16) with 65536 in Ha.
    unfold mul. cbn [SFmul xorb].
    set (M := (mq * 4503599627370496)%positive).
    assert (HM : Z.pos M = Z.pos mq * 2 ^ 52) by reflexivity.
    assert (DM : Z.pos (digits2_pos M) = 53 + 52).
    { apply digits_unique. rewrite HM.
      change (2 ^ (53 + 52 - 1)) with (4503599627370496 * 2 ^ 52).
      change (2 ^ (53 + 52)) with (9007199254740992 * 2 ^ 52).
      assert (0 < 2 ^ 52) by (apply pow2_pos; lia). nia. }
    destruct (binary_round_aux_inexact false M (eq + -52) 52 loc_Exact DM)
      as (m' & k & E & Hk & D' & Vl & Vu); try lia.
    rewrite E, BigInt_floor_finite by (trivial; lia). cbn [bind].
    f_equal.
    assert (HT : Z.pos M / 2 ^ 52 = Z.pos mq).
    { rewrite HM. apply Z_div_mult. reflexivity. }
    rewrite HT in Vl, Vu.
    assert (Pk := pow2_pos k ltac:(lia)).
    rewrite Z.pow_add_r in Vl, Vu by lia.
    assert (P52 : 0 < 2 ^ 52) by (apply pow2_pos; lia).
    assert (Hv : Z.pos mq <= Z.pos m' * 2 ^ k <= Z.pos mq + 1) by nia.
    assert (HF : Z.pos m' / 2 ^ (- (eq + -52 + 52 + k)) = q); [|lia].
    assert (Hsplit : a = 2 ^ (- (eq + -52 + 52 + k)) * 2 ^ k).
    { unfold a. rewrite <- Z.pow_add_r by lia. f_equal. lia. }
    assert (Pe := pow2_pos (- (eq + -52 + 52 + k)) ltac:(lia)).
    rewrite <- (Z.div_mul_cancel_r _ _ (2 ^ k)) by lia.
    rewrite <- Hsplit. rewrite Hmq in Hv.
    symmetry. apply Z.div_unique with (Z.pos m' * 2 ^ k - q * a); lia.
Qed.

End SlippageValue.

(** ** The slippage claims *)

Section SlippageClaims.

Import Flashnet.

(** C1, as stated, fails on both realisations: [calculateSlippage(1n, 100)]
    is 1 where the formula gives 0, and [executeSwap] with
    [maxSlippageBps = 0] protects a quote of 1000 with 990 where the
    formula gives 1000. *)
Lemma computeMinAmountOut_counterexample :
  calculateSlippage 1 (lit 100) = Normal 1
  /\ computeMinAmountOut_spec 1 100 = 0
  /\ slippageProtection (swap_of 5000 (Some (lit 0))) (simulated 1000) = Normal 990
  /\ computeMinAmountOut_spec 1000 0 = 1000.
Proof. repeat split; vm_compute; reflexivity. Qed.

(** C1, amended: for every quoted amount and every integral
    [maxSlippageBps] in [1, 10000] the inline computation of [executeSwap]
    returns [quotedAmountOut * (10000 - maxSlippageBps) / 10000], the
    division truncating toward zero; for unsigned amounts up to 10^11
    [calculateSlippage] returns that value or that value plus one. *)
Theorem computeMinAmountOut_formula params simulation bps :
  1 <= bps <= 10000 ->
  SwapParams.maxSlippageBps params = Some (lit bps) ->
  slippageProtection params simulation
  = Normal (computeMinAmountOut_spec (SwapSimulation.amountOut simulation) bps)
  /\ (0 <= SwapSimulation.amountOut simulation <= 10 ^ 11 ->
      exists r,
        calculateSlippage (SwapSimulation.amountOut simulation) (lit bps) = Normal r
        /\ computeMinAmountOut_spec (SwapSimulation.amountOut simulation) bps <= r
           <= computeMinAmountOut_spec (SwapSimulation.amountOut simulation) bps + 1).
Proof.
  intros Hb E. split.
  - rewrite (slippageProtection_bps params simulation bps) by (trivial; lia).
    replace (bps =? 0) with false by (symmetry; apply Z.eqb_neq; lia).
    reflexivity.
  - intros Hq.
    destruct (calculateSlippage_near_formula
                (SwapSimulation.amountOut simulation) bps Hq ltac:(lia))
      as (r & Er & Hr & _).
    exists r. split; assumption.
Qed.

(** At a quote of 1000 and 100 basis points the inline minimum is 990. *)
Lemma computeMinAmountOut_formula_witness :
  slippageProtection (swap_of 5000 (Some (lit 100))) (simulated 1000)
  = Normal 990.
Proof.
  exact (proj1 (computeMinAmountOut_formula
                  (swap_of 5000 (Some (lit 100))) (simulated 1000) 100
                  ltac:(lia) eq_refl)).
Defined.

(** C5: up to 10^11 base units [calculateSlippage] leaves the whole amount
    at 0 basis points and nothing at 10000, and the three sample values of
    the specification hold; but on 999999999999999999 base units a slippage
    of 10000 basis points leaves -1 instead of 0, because [Number(amount)]
    rounds the amount up to 10^18. *)
Theorem calculateSlippage_samples_and_precision_loss :
  (forall q, 0 <= q <= 10 ^ 11 ->
             calculateSlippage q (lit 0) = Normal q
             /\ calculateSlippage q (lit 10000) = Normal 0)
  /\ calculateSlippage 1000 (lit 0) = Normal 1000
  /\ calculateSlippage 1000 (lit 10000) = Normal 0
  /\ calculateSlippage 1000 (lit 100) = Normal 990
  /\ Number_of_bigint 999999999999999999 = Number_of_bigint (10 ^ 18)
  /\ calculateSlippage 999999999999999999 (lit 10000) = Normal (-1)
  /\ calculateSlippage (10 ^ 18 + 1) (lit 10000) = Normal 1.
Proof.
  split; [exact calculateSlippage_extremes|].
  repeat split; vm_compute; reflexivity.
Qed.

(** C6: for every unsigned quoted amount and every [maxSlippageBps] in
    [0, 10000], the minimum computed by [executeSwap] and any minimum
    returned by [calculateSlippage] are at most the quoted amount; up to
    10^11 [calculateSlippage] does return. *)
Theorem minAmountOut_le_amountOut amountOut bps params simulation :
  0 <= amountOut -> 0 <= bps <= 10000 ->
  SwapParams.maxSlippageBps params = Some (lit bps) ->
  SwapSimulation.amountOut simulation = amountOut ->
  (forall r, calculateSlippage amountOut (lit bps) = Normal r -> r <= amountOut)
  /\ (exists m, slippageProtection params simulation = Normal m /\ m <= amountOut)
  /\ (amountOut <= 10 ^ 11 ->
      exists r, calculateSlippage amountOut (lit bps) = Normal r /\ r <= amountOut).
Proof.
  intros Hq Hb E Ea.
  assert (Hle : forall r,
             calculateSlippage amountOut (lit bps) = Normal r -> r <= amountOut).
  { intros r. apply calculateSlippage_le; [exact Hq|]. apply lit_sign; lia. }
  split; [exact Hle|]. split.
  - rewrite (slippageProtection_bps params simulation bps Hb E), Ea.
    eexists. split; [reflexivity|].
    apply computeMinAmountOut_spec_le; [exact Hq|].
    destruct (bps =? 0); lia.
  - intros Hu.
    destruct (calculateSlippage_near_formula amountOut bps ltac:(lia) Hb)
      as (r & Er & _).
    exists r. split; [exact Er|]. now apply Hle.
Qed.

(** The bound at a quote of 1000 and 100 basis points. *)
Lemma minAmountOut_le_amountOut_witness :
  (forall r, calculateSlippage 1000 (lit 100) = Normal r -> r <= 1000)
  /\ (exists m,
         slippageProtection (swap_of 5000 (Some (lit 100))) (simulated 1000)
         = Normal m /\ m <= 1000)
  /\ (1000 <= 10 ^ 11 ->
      exists r, calculateSlippage 1000 (lit 100) = Normal r /\ r <= 1000).
Proof.
  exact (minAmountOut_le_amountOut 1000 100
           (swap_of 5000 (Some (lit 100))) (simulated 1000)
           ltac:(lia) ltac:(lia) eq_refl eq_refl).
Defined.

(** C9, as stated, fails: for one base unit and 100 basis points
    [calculateSlippage] returns 1 and the inline computation 0; and for 0
    basis points [calculateSlippage] returns the amount while the inline
    computation applies its default of 100. *)
Lemma slippage_paths_counterexample :
  calculateSlippage 1 (lit 100) = Normal 1
  /\ slippageProtection (swap_of 5000 (Some (lit 100))) (simulated 1) = Normal 0
  /\ calculateSlippage 1000 (lit 0) = Normal 1000
  /\ slippageProtection (swap_of 5000 (Some (lit 0))) (simulated 1000) = Normal 990.
Proof. repeat split; vm_compute; reflexivity. Qed.

(** C9, amended: for unsigned amounts up to 10^11 and integral basis points
    in [1, 10000] the inline computation of [executeSwap] is the exact
    [(amount * (10000 - bps)) / 10000], and [calculateSlippage] returns that
    value or that value plus one, plus one whenever [amount * bps] is not a
    multiple of 10000. *)
Theorem slippage_paths_within_one amount bps params simulation :
  0 <= amount <= 10 ^ 11 -> 1 <= bps <= 10000 ->
  SwapParams.maxSlippageBps params = Some (lit bps) ->
  SwapSimulation.amountOut simulation = amount ->
  exists inline r,
    slippageProtection params simulation = Normal inline
    /\ inline = Z.quot (amount * (10000 - bps)) 10000
    /\ calculateSlippage amount (lit bps) = Normal r
    /\ inline <= r <= inline + 1
    /\ ((amount * bps) mod 10000 <> 0 -> r = inline + 1).
Proof.
  intros Hq Hb E Ea.
  destruct (calculateSlippage_near_formula amount bps Hq ltac:(lia))
    as (r & Er & Hr & Hup).
  exists (computeMinAmountOut_spec amount bps), r.
  split; [|repeat split; trivial; lia].
  rewrite (slippageProtection_bps params simulation bps) by (trivial; lia).
  replace (bps =? 0) with false by (symmetry; apply Z.eqb_neq; lia).
  now rewrite Ea.
Qed.

(** One base unit at 100 basis points: the two paths are one apart. *)
Lemma slippage_paths_within_one_witness :
  exists inline r,
    slippageProtection (swap_of 5000 (Some (lit 100))) (simulated 1) = Normal inline
    /\ inline = Z.quot (1 * (10000 - 100)) 10000
    /\ calculateSlippage 1 (lit 100) = Normal r
    /\ inline <= r <= inline + 1
    /\ ((1 * 100) mod 10000 <> 0 -> r = inline + 1).
Proof.
  exact (slippage_paths_within_one 1 100
           (swap_of 5000 (Some (lit 100))) (simulated 1)
           ltac:(vm_compute; split; discriminate) ltac:(lia) eq_refl eq_refl).
Defined.

(** C10, as stated, fails in its last part: a tolerance of 2^-50 basis
    points is not zero and is applied as it is, yet [10000 - 2^-50] is
    10000 as a double, so the minimum sent to the SDK is the simulated
    amount itself: nothing of it may slip. *)
Lemma executeSwap_zero_tolerance_counterexample :
  truthy_number tiny_tolerance = true
  /\ slippageTolerance (swap_of 5000 (Some tiny_tolerance)) = tiny_tolerance
  /\ slippageProtection (swap_of 5000 (Some tiny_tolerance)) (simulated 1000)
     = Normal 1000
  /\ swapRequest (swap_of 5000 (Some tiny_tolerance)) (simulated 1000)
     = Normal {|
         ExecuteSwapRequest.poolId := "pool";
         ExecuteSwapRequest.assetInAddress := "sats";
         ExecuteSwapRequest.assetOutAddress := "token";
         ExecuteSwapRequest.amountIn := "5000";
         ExecuteSwapRequest.minAmountOut := "1000";
         ExecuteSwapRequest.maxSlippageBps := tiny_tolerance |}.
Proof. repeat split; vm_compute; reflexivity. Qed.

(** C10, amended: when [maxSlippageBps] is 0 or absent, [executeSwap]
    applies 100 basis points: the request it sends to the SDK carries
    [simulatedAmountOut * 9900 / 10000] as [minAmountOut] and 100 as
    [maxSlippageBps]; that minimum is below the simulated amount whenever
    the latter is positive; and no [maxSlippageBps] whatever yields a
    tolerance of zero. A tolerance so small that [BigInt(10000 -
    maxSlippageBps)] is 10000 still has the simulated amount itself sent
    as the minimum. *)
Theorem executeSwap_zero_slippage_is_default params simulation :
  SwapParams.maxSlippageBps params = None
  \/ SwapParams.maxSlippageBps params = Some (lit 0) ->
  slippageTolerance params = lit 100
  /\ slippageProtection params simulation
     = Normal (Z.quot (SwapSimulation.amountOut simulation * 9900) 10000)
  /\ swapRequest params simulation = Normal (default_request params simulation)
  /\ (forall (SwapResponse Wallet : Type)
             (this : LaunchpadClient SwapResponse Wallet) c,
         client this = Some c ->
         simulateSwap c {|
             SimulateSwapRequest.poolId := SwapParams.poolId params;
             SimulateSwapRequest.assetInAddress := SwapParams.assetIn params;
             SimulateSwapRequest.assetOutAddress := SwapParams.assetOut params;
             SimulateSwapRequest.amountIn :=
               bigint_toString (SwapParams.amountIn params) |}
         = Normal (object simulation) ->
         executeSwap this params
         = Normal match (answer <- client_executeSwap c
                                     (default_request params simulation) ;;
                         swapExecuted answer) with
                  | Normal outcome => outcome
                  | Throw e => swapCatch e
                  end)
  /\ (0 < SwapSimulation.amountOut simulation ->
      Z.quot (SwapSimulation.amountOut simulation * 9900) 10000
      < SwapSimulation.amountOut simulation)
  /\ (forall any : SwapParams.t, is_zero (slippageTolerance any) = false)
  /\ (forall (any : SwapParams.t) (quote : SwapSimulation.t),
         slippageMultiplier any = Normal 10000 ->
         slippageProtection any quote
         = Normal (SwapSimulation.amountOut quote)).
Proof.
  intros H.
  assert (Ht : slippageTolerance params = lit 100).
  { unfold slippageTolerance, or_number. destruct H as [-> | ->]; reflexivity. }
  assert (Hp : slippageProtection params simulation
               = Normal (Z.quot (SwapSimulation.amountOut simulation * 9900) 10000)).
  { unfold slippageProtection, slippageMultiplier. rewrite Ht. reflexivity. }
  assert (Hr : swapRequest params simulation
               = Normal (default_request params simulation)).
  { unfold swapRequest. rewrite Hp. cbn [bind].
    fold (slippageTolerance params). rewrite Ht. reflexivity. }
  split; [exact Ht|]. split; [exact Hp|]. split; [exact Hr|].
  split; [|split; [|split]].
  - intros SwapResponse Wallet this c Hc Hs.
    exact (executeSwap_sends this c params simulation _ Hc Hs Hr).
  - intros Hpos. apply (computeMinAmountOut_spec_lt _ 100); lia.
  - intros any. unfold slippageTolerance, or_number.
    destruct (SwapParams.maxSlippageBps any) as [x|]; [|reflexivity].
    destruct x; reflexivity.
  - intros any quote Hm. unfold slippageProtection, minAmountOut.
    rewrite Hm. cbn [bind]. f_equal. apply Z.quot_mul. lia.
Qed.

(** At a quote of 1000 with [maxSlippageBps = 0] the request asks for at
    least 990. *)
Lemma executeSwap_zero_slippage_is_default_witness :
  swapRequest (swap_of 5000 (Some (lit 0))) (simulated 1000)
  = Normal {|
      ExecuteSwapRequest.poolId := "pool";
      ExecuteSwapRequest.assetInAddress := "sats";
      ExecuteSwapRequest.assetOutAddress := "token";
      ExecuteSwapRequest.amountIn := "5000";
      ExecuteSwapRequest.minAmountOut := "990";
      ExecuteSwapRequest.maxSlippageBps := lit 100 |}.
Proof.
  exact (proj1 (proj2 (proj2 (executeSwap_zero_slippage_is_default
                                (swap_of 5000 (Some (lit 0))) (simulated 1000)
                                (or_intror eq_refl))))).
Defined.

End SlippageClaims.

(** ** The price-impact claims *)

Section PriceImpactClaims.

Lemma lit_100 : lit 100 = S754_finite false 7036874417766400 (-46).
Proof. reflexivity. Qed.

Lemma div_by_finite_not_nan x s m e :
  is_nan x = false -> is_nan (div x (S754_finite s m e)) = false.
Proof.
  destruct x as [a|a| |a mx ex]; try discriminate; intros _; try reflexivity.
  apply div_finite_not_nan.
Qed.

Lemma mul_by_finite_not_nan x s m e :
  is_nan x = false -> is_nan (mul x (S754_finite s m e)) = false.
Proof.
  destruct x as [a|a| |a mx ex]; try discriminate; intros _; try reflexivity.
  apply mul_finite_not_nan.
Qed.

Lemma sub_from_finite_not_nan s m e y :
  is_nan y = false -> is_nan (sub (S754_finite s m e) y) = false.
Proof.
  destruct y as [b|b| |b my ey]; try discriminate; intros _; try reflexivity.
  apply sub_finite_not_nan.
Qed.

Lemma nonnegative_abs x : is_nan x = false -> nonnegative (Math_abs x) = true.
Proof.
  destruct x as [a|a| |a m e]; try discriminate; reflexivity.
Qed.

(** The double [expectedOut] of unsigned arguments carries no minus sign. *)
Lemma expectedOut_sign amountIn reserveIn reserveOut :
  0 <= amountIn -> 0 <= reserveIn -> 0 <= reserveOut ->
  has_sign false (expectedOut amountIn reserveIn reserveOut).
Proof.
  intros Ha Hi Ho. unfold expectedOut.
  apply (div_sign false false); [|now apply Number_of_bigint_sign].
  apply (mul_sign false false); now apply Number_of_bigint_sign.
Qed.

(** [calculatePriceImpact] in terms of [expectedOut], for unsigned
    arguments: the absolute value moves onto the difference. *)
Lemma calculatePriceImpact_abs_inside amountIn amountOut reserveIn reserveOut :
  0 <= amountIn -> 0 <= reserveIn -> 0 <= reserveOut ->
  calculatePriceImpact amountIn amountOut reserveIn reserveOut
  = Normal (mul (div (Math_abs (sub (expectedOut amountIn reserveIn reserveOut)
                                    (Number_of_bigint amountOut)))
                     (expectedOut amountIn reserveIn reserveOut))
                (lit 100)).
Proof.
  intros Ha Hi Ho. unfold calculatePriceImpact.
  fold (expectedOut amountIn reserveIn reserveOut).
  rewrite Math_abs_mul, Math_abs_div.
  rewrite (Math_abs_id (expectedOut amountIn reserveIn reserveOut))
    by now apply expectedOut_sign.
  rewrite (Math_abs_id (lit 100)) by (apply lit_sign; lia).
  reflexivity.
Qed.

(** C3, as stated, fails when the double [expectedOut] overflows: with
    [amountIn = 2^1023], [reserveOut = 2] and [reserveIn = 1] it is
    [Infinity], which is not zero, and the result is NaN, which is not
    non-negative. *)
Lemma calculatePriceImpact_counterexample :
  expectedOut (2 ^ 1023) 1 2 = PosInfinity
  /\ calculatePriceImpact (2 ^ 1023) 0 1 2 = Normal NaN
  /\ nonnegative NaN = false.
Proof. repeat split; vm_compute; reflexivity. Qed.

(** C3, amended: for unsigned arguments with [reserveIn] nonzero whose
    double [expectedOut = Number(amountIn) * Number(reserveOut) /
    Number(reserveIn)] is finite and nonzero, [calculatePriceImpact]
    returns [|expectedOut - amountOut| / expectedOut * 100] evaluated in
    double arithmetic, and that number is non-negative (never NaN). *)
Theorem calculatePriceImpact_formula amountIn amountOut reserveIn reserveOut :
  0 <= amountIn -> 0 <= amountOut -> 0 < reserveIn -> 0 <= reserveOut ->
  is_finite_nonzero (expectedOut amountIn reserveIn reserveOut) = true ->
  exists impact,
    calculatePriceImpact amountIn amountOut reserveIn reserveOut = Normal impact
    /\ impact
       = mul (div (Math_abs (sub (expectedOut amountIn reserveIn reserveOut)
                                 (Number_of_bigint amountOut)))
                  (expectedOut amountIn reserveIn reserveOut))
             (lit 100)
    /\ nonnegative impact = true.
Proof.
  intros Ha Hb Hi Ho Hfin.
  pose proof (expectedOut_sign amountIn reserveIn reserveOut Ha ltac:(lia) Ho)
    as Hs.
  set (e := expectedOut amountIn reserveIn reserveOut) in *.
  exists (Math_abs (mul (div (sub e (Number_of_bigint amountOut)) e) (lit 100))).
  split; [reflexivity|]. split.
  - rewrite Math_abs_mul, Math_abs_div, (Math_abs_id e Hs).
    rewrite (Math_abs_id (lit 100)) by (apply lit_sign; lia).
    reflexivity.
  - apply nonnegative_abs. clearbody e.
    destruct e as [s|s| |s m ex]; try discriminate.
    rewrite lit_100.
    apply mul_by_finite_not_nan, div_by_finite_not_nan, sub_from_finite_not_nan.
    apply Number_of_bigint_not_nan.
Qed.

(** A trade of 1000 against equal reserves of 10000 that pays 900. *)
Lemma calculatePriceImpact_formula_witness :
  exists impact,
    calculatePriceImpact 1000 900 10000 10000 = Normal impact
    /\ impact
       = mul (div (Math_abs (sub (expectedOut 1000 10000 10000)
                                 (Number_of_bigint 900)))
                  (expectedOut 1000 10000 10000))
             (lit 100)
    /\ nonnegative impact = true.
Proof.
  exact (calculatePriceImpact_formula 1000 900 10000 10000
           ltac:(lia) ltac:(lia) ltac:(lia) ltac:(lia) eq_refl).
Defined.

(** C4, as stated, fails: no call signals an error. With [expectedOut = 0]
    and a positive [amountOut] the caller receives [Infinity]; with
    [reserveIn = 0] it receives NaN. *)
Lemma calculatePriceImpact_division_counterexample :
  is_zero (expectedOut 0 10 10) = true
  /\ calculatePriceImpact 0 5 10 10 = Normal PosInfinity
  /\ calculatePriceImpact 1 1 0 1 = Normal NaN
  /\ calculatePriceImpact 0 0 10 10 = Normal NaN.
Proof. repeat split; vm_compute; reflexivity. Qed.

(** C4, amended: [calculatePriceImpact] never signals an error; for
    unsigned arguments it returns NaN when [reserveIn = 0], and NaN or
    [+Infinity] when the double [expectedOut] is zero: never a finite
    number. *)
Theorem calculatePriceImpact_degenerate amountIn amountOut reserveIn reserveOut :
  0 <= amountIn -> 0 <= amountOut -> 0 <= reserveIn -> 0 <= reserveOut ->
  (exists impact,
      calculatePriceImpact amountIn amountOut reserveIn reserveOut = Normal impact)
  /\ (reserveIn = 0 ->
      calculatePriceImpact amountIn amountOut reserveIn reserveOut = Normal NaN)
  /\ (is_zero (expectedOut amountIn reserveIn reserveOut) = true ->
      calculatePriceImpact amountIn amountOut reserveIn reserveOut = Normal NaN
      \/ calculatePriceImpact amountIn amountOut reserveIn reserveOut
         = Normal PosInfinity).
Proof.
  intros Ha Hb Hi Ho.
  split; [eexists; reflexivity|].
  pose proof (Number_of_bigint_sign amountOut Hb) as Sa.
  pose proof (Number_of_bigint_not_nan amountOut) as Na.
  split.
  - intros ->. unfold calculatePriceImpact.
    change (Number_of_bigint 0) with (S754_zero false).
    pose proof (mul_sign false false _ _
                  (Number_of_bigint_sign amountIn Ha)
                  (Number_of_bigint_sign reserveOut Ho)) as Sp.
    destruct (mul (Number_of_bigint amountIn) (Number_of_bigint reserveOut))
      as [s|s| |s m e]; simpl in Sp; subst; try reflexivity;
      destruct (Number_of_bigint amountOut) as [t|t| |t m' e'];
      simpl in Sa; subst; try discriminate; reflexivity.
  - intros Hz. unfold calculatePriceImpact.
    fold (expectedOut amountIn reserveIn reserveOut).
    destruct (expectedOut amountIn reserveIn reserveOut) as [s|s| |s m e];
      try discriminate.
    rewrite lit_100.
    destruct (Number_of_bigint amountOut) as [t|t| |t m' e'];
      simpl in Sa; subst; try discriminate.
    + left. destruct s; reflexivity.
    + right. destruct s; reflexivity.
    + right. destruct s; reflexivity.
Qed.

(** Nothing put in, five paid out: [expectedOut] is zero. *)
Lemma calculatePriceImpact_degenerate_witness :
  calculatePriceImpact 0 5 10 10 = Normal NaN
  \/ calculatePriceImpact 0 5 10 10 = Normal PosInfinity.
Proof.
  exact (proj2 (proj2 (calculatePriceImpact_degenerate 0 5 10 10
                         ltac:(lia) ltac:(lia) ltac:(lia) ltac:(lia)))
           eq_refl).
Defined.

End PriceImpactClaims.

(** ** The virtual-reserve claims *)

Section VirtualReserveClaims.

Import Flashnet TokenLaunchForm.

(** C2, as stated, fails on the launch form: with a target raise of 0, or a
    graduation threshold of 0, the preview makes no call and signals
    nothing, even against an SDK that refuses every argument; the earlier
    preview stays on screen. *)
Lemma deriveVirtualReserves_validation_counterexample :
  ~ valid_launch_input zero_raise_form
  /\ updatePreview refusing_sdk zero_raise_form showing_earlier = showing_earlier
  /\ ~ valid_launch_input zero_threshold_form
  /\ updatePreview refusing_sdk zero_threshold_form showing_earlier
     = showing_earlier.
Proof.
  split; [|split; [reflexivity|split; [|reflexivity]]].
  - intros (supply & pct & raise & _ & _ & E & _ & _ & Hr).
    injection E as <-. lia.
  - intros (supply & pct & raise & _ & E & _ & _ & Hp & _).
    injection E as E.
    assert (F : truthy_number (lit pct) = true).
    { rewrite truthy_lit by lia.
      replace (pct =? 0) with false by (symmetry; apply Z.eqb_neq; lia).
      reflexivity. }
    rewrite <- E in F. discriminate.
Qed.

(** C2, amended: this code validates nothing and has no InvalidParameters
    error. [LaunchpadClient.calculateVirtualReserves] returns or throws
    what the SDK does on the same arguments; the preview is left as it is
    when a field is absent, zero or NaN; otherwise it shows the SDK's
    result, or, when the SDK throws, keeps the earlier preview and logs the
    message. *)
Theorem deriveVirtualReserves_validation_is_the_sdks
    (sdk : VirtualReserveParams.t -> completion VirtualReserves.t) :
  (forall params, calculateVirtualReserves sdk params = sdk params)
  /\ (forall formData st,
         previewable formData = false -> updatePreview sdk formData st = st)
  /\ (forall formData st supply pct raise,
         FormData.initialSupply formData = Some supply ->
         FormData.graduationThresholdPct formData = Some pct ->
         FormData.targetRaise formData = Some raise ->
         previewable formData = true ->
         updatePreview sdk formData st
         = match sdk {| VirtualReserveParams.initialTokenSupply :=
                          bigint_toString supply;
                        VirtualReserveParams.graduationThresholdPct := pct;
                        VirtualReserveParams.targetRaise :=
                          bigint_toString raise |} with
           | Normal preview =>
               {| PreviewState.previewData := Some preview;
                  PreviewState.console := PreviewState.console st |}
           | Throw e =>
               {| PreviewState.previewData := PreviewState.previewData st;
                  PreviewState.console :=
                    PreviewState.console st
                    ++ [("Preview calculation failed: " ++ message_of e)%string] |}
           end).
Proof.
  split; [reflexivity|]. split.
  - intros formData st H. unfold updatePreview. rewrite H.
    destruct (FormData.initialSupply formData),
             (FormData.graduationThresholdPct formData),
             (FormData.targetRaise formData); reflexivity.
  - intros formData st supply pct raise E1 E2 E3 H.
    unfold updatePreview. rewrite E1, E2, E3, H. reflexivity.
Qed.

(** The form with a target raise of 0 leaves the preview as it is. *)
Lemma deriveVirtualReserves_validation_is_the_sdks_witness :
  updatePreview refusing_sdk zero_raise_form showing_earlier = showing_earlier.
Proof.
  exact (proj1 (proj2 (deriveVirtualReserves_validation_is_the_sdks refusing_sdk))
           zero_raise_form showing_earlier eq_refl).
Defined.

End VirtualReserveClaims.

(** ** Exact double arithmetic on small integers *)

Section ExactArithmetic.

(** Rounding a mantissa of exactly 53 bits with an inexact location. *)
Lemma binary_round_aux_round0 s M e l :
  Z.pos (digits2_pos M) = 53 -> -1074 <= e -> e + 1 <= 971 ->
  exists m' k,
    binary_round_aux prec emax s (Z.pos M) e l = S754_finite s m' (e + k)
    /\ 0 <= k <= 1
    /\ Z.pos (digits2_pos m') = 53
    /\ Z.pos M <= Z.pos m' * 2 ^ k <= Z.pos M + 1.
Proof.
  intros Hd Hlo Hhi.
  pose proof (digits_bounds M) as [Bl Bu]. rewrite Hd in Bl, Bu.
  change (2 ^ (53 - 1)) with 4503599627370496 in Bl.
  change (2 ^ 53) with 9007199254740992 in Bu.
  unfold binary_round_aux, shr_fexp. cbn [Zdigits2]. rewrite Hd.
  rewrite fexp_normal by lia.
  replace (53 + e - 53 - e) with 0 by lia.
  cbn [shr]. rewrite shr_m_of_loc.
  pose proof (round_nearest_even_bounds (Z.pos M)
                (loc_of_shr_record (shr_record_of_loc (Z.pos M) l))) as Hr.
  destruct (round_nearest_even (Z.pos M) _) as [|p1|p1] eqn:E1; [lia| |lia].
  cbn [Zdigits2].
  destruct (Z_lt_le_dec (Z.pos p1) 9007199254740992) as [Hlt|Hge].
  - assert (D1 : Z.pos (digits2_pos p1) = 53).
    { apply digits_unique.
      change (2 ^ (53 - 1)) with 4503599627370496.
      change (2 ^ 53) with 9007199254740992. lia. }
    rewrite D1, fexp_normal by lia.
    replace (53 + e - 53 - e) with 0 by lia.
    cbn [shr shr_record_of_loc shr_m].
    replace (e <=? emax - prec) with true
      by (symmetry; apply Z.leb_le; unfold emax, prec; lia).
    exists p1, 0. rewrite Z.add_0_r, Z.pow_0_r. repeat split; lia.
  - assert (Ep : p1 = 9007199254740992%positive) by lia.
    subst p1.
    change (Z.pos (digits2_pos 9007199254740992)) with 54.
    rewrite fexp_normal by lia.
    replace (54 + e - 53 - e) with 1 by lia.
    cbn [shr shr_record_of_loc shr_m iter_pos shr_1].
    replace (e + 1 <=? emax - prec) with true
      by (symmetry; apply Z.leb_le; unfold emax, prec; lia).
    exists 4503599627370496%positive, 1. repeat split; try lia.
Qed.

(** The quotient of two doubles with 53-bit mantissas, away from overflow
    and underflow: a 53-bit mantissa between the exact quotient truncated
    to an even number of units and that quotient plus two units. *)
Lemma div_finite_value sx mx ex sy my ey :
  Z.pos (digits2_pos mx) = 53 -> Z.pos (digits2_pos my) = 53 ->
  -1074 <= ex - ey - 53 -> ex - ey - 53 + 2 <= 971 ->
  exists m' sh,
    div (S754_finite sx mx ex) (S754_finite sy my ey)
    = S754_finite (xorb sx sy) m' (ex - ey - 53 + sh)
    /\ 0 <= sh <= 2
    /\ Z.pos (digits2_pos m') = 53
    /\ 2 * (Z.pos mx * 2 ^ 53 / Z.pos my / 2) <= Z.pos m' * 2 ^ sh
       <= Z.pos mx * 2 ^ 53 / Z.pos my + 2.
Proof.
  intros Dx Dy Hlo Hhi.
  pose proof (digits_bounds mx) as [Xl Xu]. rewrite Dx in Xl, Xu.
  pose proof (digits_bounds my) as [Yl Yu]. rewrite Dy in Yl, Yu.
  change (2 ^ (53 - 1)) with 4503599627370496 in Xl, Yl.
  change (2 ^ 53) with 9007199254740992 in Xu, Yu |- *.
  unfold div. cbn [SFdiv]. unfold SFdiv_core_binary. cbn [Zdigits2].
  rewrite Dx, Dy, fexp_normal by lia.
  replace (Z.min (53 + ex - (53 + ey) - 53) (ex - ey)) with (ex - ey - 53) by lia.
  replace (ex - ey - (ex - ey - 53)) with 53 by lia.
  rewrite Z.shiftl_mul_pow2 by lia.
  change (2 ^ 53) with 9007199254740992.
  pose proof (Z_div_mod (Z.pos mx * 9007199254740992) (Z.pos my) eq_refl) as Hdm.
  destruct (Z.div_eucl (Z.pos mx * 9007199254740992) (Z.pos my)) as [q r] eqn:E.
  destruct Hdm as [Hq Hr].
  assert (Eq : Z.pos mx * 9007199254740992 / Z.pos my = q).
  { symmetry. apply Z.div_unique with r; lia. }
  rewrite Eq.
  assert (Hqb : 4503599627370496 <= q < 18014398509481984) by nia.
  destruct q as [|pq|pq]; try lia.
  destruct (Z_lt_le_dec (Z.pos pq) 9007199254740992) as [Hlt|Hge].
  - assert (Dq : Z.pos (digits2_pos pq) = 53).
    { apply digits_unique.
      change (2 ^ (53 - 1)) with 4503599627370496.
      change (2 ^ 53) with 9007199254740992. lia. }
    destruct (binary_round_aux_round0 (xorb sx sy) pq (ex - ey - 53)
                (new_location (Z.pos my) r) Dq)
      as (m' & k & Em & Hk & D' & Hv); try lia.
    exists m', k. rewrite Em.
    pose proof (Z.mul_div_le (Z.pos pq) 2 eq_refl) as Hh.
    set (V := Z.pos m' * 2 ^ k) in *. clearbody V.
    clear - Hk D' Hv Hh.
    split; [reflexivity|]. split; [lia|]. split; [exact D'|]. lia.
  - assert (Dq : Z.pos (digits2_pos pq) = 53 + 1).
    { apply digits_unique.
      change (2 ^ (53 + 1 - 1)) with 9007199254740992.
      change (2 ^ (53 + 1)) with 18014398509481984. lia. }
    destruct (binary_round_aux_inexact (xorb sx sy) pq (ex - ey - 53) 1
                (new_location (Z.pos my) r) Dq)
      as (m' & k & Em & Hk & D' & Vl & Vu); try lia.
    exists m', (1 + k).
    replace (ex - ey - 53 + (1 + k)) with (ex - ey - 53 + 1 + k) by lia.
    rewrite Em. change (2 ^ 1) with 2 in Vl, Vu.
    pose proof (Z.mul_div_le (Z.pos pq) 2 eq_refl) as Hh.
    set (V := Z.pos m' * 2 ^ (1 + k)) in *. clearbody V.
    clear - Hk D' Vl Vu Hh.
    split; [reflexivity|]. split; [lia|]. split; [exact D'|]. lia.
Qed.

(** [Math.floor(D / c)] on doubles is the integer quotient, for a positive
    integer [D] below 2^52 and an integer [c] from 2 up. *)
Lemma floor_div D c :
  0 < D < 2 ^ 52 -> 2 <= c < 2 ^ 53 ->
  Math_floor (div (lit D) (lit c)) = lit (D / c).
Proof.
  intros HD Hc.
  change (2 ^ 52) with 4503599627370496 in HD.
  change (2 ^ 53) with 9007199254740992 in Hc.
  destruct (Number_of_bigint_exact D) as (mx & ex & Ex & Dx & Hex & Hmx).
  { change (2 ^ 53) with 9007199254740992. lia. }
  destruct (Number_of_bigint_exact c) as (my & ey & Ey & Dy & Hey & Hmy).
  { change (2 ^ 53) with 9007199254740992. lia. }
  unfold lit at 1 2. rewrite Ex, Ey.
  set (a := 2 ^ (- ex)) in *. set (b := 2 ^ (- ey)) in *.
  assert (Pa : 0 < a) by (apply pow2_pos; lia).
  assert (Pb : 0 < b) by (apply pow2_pos; lia).
  pose proof (digits_bounds mx) as [Xl Xu]. rewrite Dx in Xl, Xu.
  pose proof (digits_bounds my) as [Yl Yu]. rewrite Dy in Yl, Yu.
  change (2 ^ (53 - 1)) with 4503599627370496 in Xl, Yl.
  change (2 ^ 53) with 9007199254740992 in Xu, Yu.
  assert (Hex' : ex <= -1).
  { destruct (Z_le_gt_dec ex (-1)) as [|Hgt]; trivial. exfalso.
    assert (ex = 0) by lia. subst ex. change a with 1 in *. lia. }
  assert (Ha2 : 2 <= a).
  { change 2 with (2 ^ 1). apply Z.pow_le_mono_r; lia. }
  destruct (div_finite_value false mx ex false my ey Dx Dy)
    as (m' & sh & Ed & Hsh & D' & Vl & Vu); try lia.
  rewrite Ed. cbn [xorb].
  set (e1 := ex - ey - 53) in *.
  set (W := 2 ^ (- e1)).
  assert (HWb : W * b = 9007199254740992 * a).
  { unfold W, a, b, e1. change 9007199254740992 with (2 ^ 53).
    rewrite <- !Z.pow_add_r by lia. f_equal. lia. }
  assert (PW : 0 < W) by (apply pow2_pos; unfold e1; lia).
  change (2 ^ 53) with 9007199254740992 in Vl, Vu.
  set (q := Z.pos mx * 9007199254740992 / Z.pos my) in *.
  pose proof (Z.mul_div_le (Z.pos mx * 9007199254740992) (Z.pos my) eq_refl) as Q1.
  pose proof (Z.mul_succ_div_gt (Z.pos mx * 9007199254740992) (Z.pos my) eq_refl) as Q2.
  fold q in Q1, Q2.
  assert (Hqc : q * c <= D * W).
  { apply (Z.mul_le_mono_pos_r _ _ b Pb). nia. }
  assert (Hqc' : D * W < (q + 1) * c).
  { apply Z.mul_lt_mono_pos_r with (p := b); [exact Pb|]. nia. }
  assert (HcW : 2 * c < W).
  { assert (c * a < W); [|nia].
    apply Z.mul_lt_mono_pos_r with (p := b); [exact Pb|]. nia. }
  assert (He1 : e1 <= -3).
  { destruct (Z_le_gt_dec e1 (-3)) as [|Hgt]; trivial. exfalso.
    assert (W <= 2 ^ 2) by (apply Z.pow_le_mono_r; lia).
    change (2 ^ 2) with 4 in *. lia. }
  assert (He'' : e1 + sh < 0) by lia.
  cbn [Math_floor].
  replace (0 <=? e1 + sh) with false by (symmetry; apply Z.leb_gt; lia).
  unfold floor_finite.
  replace (0 <=? e1 + sh) with false by (symmetry; apply Z.leb_gt; lia).
  cbn [cond_Zopp]. rewrite Z.shiftr_div_pow2 by lia.
  unfold lit, Number_of_bigint. f_equal.
  assert (Ps := pow2_pos sh ltac:(lia)).
  assert (Pe := pow2_pos (- (e1 + sh)) ltac:(lia)).
  assert (HW : 2 ^ (- (e1 + sh)) * 2 ^ sh = W).
  { unfold W. rewrite <- Z.pow_add_r by lia. f_equal. lia. }
  rewrite <- (Z.div_mul_cancel_r _ _ (2 ^ sh)) by lia.
  rewrite HW.
  set (V := Z.pos m' * 2 ^ sh) in *. clearbody V.
  pose proof (Z.mul_div_le D c ltac:(lia)) as K1.
  pose proof (Z.mul_succ_div_gt D c ltac:(lia)) as K2.
  set (k := D / c) in *.
  assert (Hk0 : 0 <= k) by (apply Z.div_pos; lia).
  assert (HkW : k * W <= q).
  { assert (k * W < q + 1); [|lia].
    apply Z.mul_lt_mono_pos_r with (p := c); [lia|]. nia. }
  assert (HWeven : exists W', W = 2 * W' /\ 0 < W').
  { exists (2 ^ (- e1 - 1)). split; [|apply pow2_pos; lia].
    unfold W. rewrite <- Z.pow_succ_r by lia. f_equal. lia. }
  destruct HWeven as (W' & EW & PW').
  assert (Hlow : k * W <= 2 * (q / 2)).
  { assert (k * W' <= q / 2); [|nia].
    apply Z.div_le_lower_bound; nia. }
  assert (Hup : q + 2 < (k + 1) * W).
  { apply Z.mul_lt_mono_pos_r with (p := c); [lia|]. nia. }
  symmetry. apply Z.div_unique with (V - k * W); nia.
Qed.

(** ** Exact results *)

Lemma iter_shr_1_exact n : forall m0,
  0 <= m0 ->
  iter_pos shr_1 n {| shr_m := m0 * 2 ^ Z.pos n; shr_r := false; shr_s := false |}
  = {| shr_m := m0; shr_r := false; shr_s := false |}.
Proof.
  assert (Hs : forall m, 0 <= m ->
             shr_1 {| shr_m := 2 * m; shr_r := false; shr_s := false |}
             = {| shr_m := m; shr_r := false; shr_s := false |}).
  { intros m Hm. destruct m as [|p|p]; try lia; reflexivity. }
  induction n as [n IH|n IH|]; intros m0 H0; cbn [iter_pos].
  - assert (P := pow2_pos (Z.pos n) ltac:(lia)).
    rewrite pow2_xI.
    replace (m0 * (2 * (2 ^ Z.pos n * 2 ^ Z.pos n)))
      with (2 * (m0 * 2 ^ Z.pos n * 2 ^ Z.pos n)) by ring.
    rewrite Hs by nia. rewrite IH by nia. apply IH. exact H0.
  - assert (P := pow2_pos (Z.pos n) ltac:(lia)).
    rewrite pow2_xO.
    replace (m0 * (2 ^ Z.pos n * 2 ^ Z.pos n))
      with (m0 * 2 ^ Z.pos n * 2 ^ Z.pos n) by ring.
    rewrite IH by nia. apply IH. exact H0.
  - change (2 ^ 1) with 2. rewrite Z.mul_comm. apply Hs. exact H0.
Qed.

(** A mantissa that is a 53-bit mantissa followed by [n] zero bits rounds
    to that mantissa. *)
Lemma binary_round_aux_exact s M0 (n : positive) M e :
  Z.pos M = Z.pos M0 * 2 ^ Z.pos n ->
  Z.pos (digits2_pos M0) = 53 ->
  -1074 <= e + Z.pos n <= 971 ->
  binary_round_aux prec emax s (Z.pos M) e loc_Exact
  = S754_finite s M0 (e + Z.pos n).
Proof.
  intros HM D0 He.
  assert (Pn := pow2_pos (Z.pos n) ltac:(lia)).
  pose proof (digits_bounds M0) as [Bl Bu]. rewrite D0 in Bl, Bu.
  assert (DM : Z.pos (digits2_pos M) = 53 + Z.pos n).
  { apply digits_unique. rewrite HM.
    replace (53 + Z.pos n - 1) with (53 - 1 + Z.pos n) by lia.
    rewrite !Z.pow_add_r by lia. nia. }
  unfold binary_round_aux, shr_fexp. cbn [Zdigits2]. rewrite DM.
  rewrite fexp_normal by lia.
  replace (53 + Z.pos n + e - 53 - e) with (Z.pos n) by lia.
  cbn [shr shr_record_of_loc]. rewrite HM.
  rewrite iter_shr_1_exact by lia.
  cbn [shr_m loc_of_shr_record round_nearest_even Zdigits2].
  rewrite D0, fexp_normal by lia.
  replace (53 + (e + Z.pos n) - 53 - (e + Z.pos n)) with 0 by lia.
  cbn [shr shr_record_of_loc shr_m].
  replace (e + Z.pos n <=? emax - prec) with true
    by (symmetry; apply Z.leb_le; unfold emax, prec; lia).
  reflexivity.
Qed.


(** Rounding any mantissa and exponent that denote a positive integer
    below 2^53 gives the canonical double of that integer. *)
Lemma binary_round_integer s p e D :
  e <= 0 -> Z.pos p = D * 2 ^ (- e) -> 0 < D < 2 ^ 53 ->
  binary_round prec emax s p e = canonical_of s D.
Proof.
  intros He Hp HD. unfold canonical_of.
  destruct D as [|pD|pD]; try lia. cbn [Z.to_pos].
  pose proof (digits_bounds pD) as [Dl Du].
  set (dD := Z.pos (digits2_pos pD)) in *.
  assert (HdD : 1 <= dD <= 53).
  { split; [unfold dD; lia|].
    assert (dD - 1 < 53); [|lia]. apply (Z.pow_lt_mono_r_iff 2); lia. }
  assert (Pe := pow2_pos (- e) ltac:(lia)).
  assert (Dp : Z.pos (digits2_pos p) = dD - e).
  { apply digits_unique. rewrite Hp.
    replace (dD - e - 1) with (dD - 1 + - e) by lia.
    replace (dD - e) with (dD + - e) by lia.
    rewrite !Z.pow_add_r by lia. nia. }
  unfold binary_round. rewrite Dp.
  rewrite fexp_normal by lia.
  replace (dD - e + e - 53) with (dD - 53) by lia.
  assert (Pk := pow2_pos (53 - dD) ltac:(lia)).
  assert (Hm : 0 < Z.pos pD * 2 ^ (53 - dD)) by nia.
  assert (Dc : Z.pos (digits2_pos (Z.to_pos (Z.pos pD * 2 ^ (53 - dD)))) = 53).
  { assert (E1 : 2 ^ (53 - 1) = 2 ^ (dD - 1) * 2 ^ (53 - dD)).
    { rewrite <- Z.pow_add_r by lia. f_equal. lia. }
    assert (E2 : 2 ^ 53 = 2 ^ dD * 2 ^ (53 - dD)).
    { rewrite <- Z.pow_add_r by lia. f_equal. lia. }
    apply digits_unique. rewrite Z2Pos.id, E1, E2 by lia. split; nia. }
  unfold shl_align.
  destruct (dD - 53 - e) as [|k|k] eqn:Ek.
  - (* 53 bits already *)
    assert (E0 : Z.to_pos (Z.pos pD * 2 ^ (53 - dD)) = p).
    { apply Pos2Z.inj. rewrite Z2Pos.id by lia. rewrite Hp.
      f_equal. f_equal. lia. }
    rewrite <- E0, binary_round_aux_canonical by (trivial; lia).
    f_equal. lia.
  - (* more than 53 bits: the low ones are zero *)
    rewrite (binary_round_aux_exact s (Z.to_pos (Z.pos pD * 2 ^ (53 - dD))) k p e);
      trivial; try lia.
    + f_equal. lia.
    + rewrite Z2Pos.id by lia. rewrite Hp.
      rewrite <- Z.mul_assoc, <- Z.pow_add_r by lia. f_equal. f_equal. lia.
  - (* fewer than 53 bits: shift left *)
    assert (E0 : Z.to_pos (Z.pos pD * 2 ^ (53 - dD)) = Pos.iter xO p k).
    { apply Pos2Z.inj. rewrite Z2Pos.id by lia. rewrite pos_iter_xO, Hp.
      rewrite <- Z.mul_assoc, <- Z.pow_add_r by lia. f_equal. f_equal. lia. }
    rewrite <- E0, binary_round_aux_canonical by (trivial; lia).
    reflexivity.
Qed.

Lemma lit_positive D : 0 < D < 2 ^ 53 -> lit D = canonical_of false D.
Proof.
  intros HD. destruct D as [|p|p]; try lia.
  unfold lit, Number_of_bigint. cbn [binary_normalize].
  apply binary_round_integer; [lia| |exact HD]. simpl. lia.
Qed.

Lemma lit_negative D : 0 < D < 2 ^ 53 -> lit (- D) = canonical_of true D.
Proof.
  intros HD. destruct D as [|p|p]; try lia.
  unfold lit, Number_of_bigint. cbn [Z.opp binary_normalize].
  apply binary_round_integer; [lia| |exact HD]. simpl. lia.
Qed.

Lemma shl_align_value m e ez :
  ez <= e -> Z.pos (fst (shl_align m e ez)) = Z.pos m * 2 ^ (e - ez).
Proof.
  intros H. unfold shl_align.
  destruct (ez - e) as [|k|k] eqn:Ek; cbn [fst]; try lia.
  - replace (e - ez) with 0 by lia. simpl. lia.
  - rewrite pos_iter_xO. f_equal. f_equal. lia.
Qed.

(** Subtraction of integers below 2^53 is exact. *)
Lemma sub_exact a b :
  0 <= a < 2 ^ 53 -> 0 <= b < 2 ^ 53 -> sub (lit a) (lit b) = lit (a - b).
Proof.
  intros Ha Hb.
  destruct (Z.eq_dec b 0) as [->|Hb0].
  { rewrite Z.sub_0_r. change (lit 0) with (S754_zero false).
    destruct (lit a) as [[|]|[|]| |s m e]; reflexivity. }
  destruct (Z.eq_dec a 0) as [->|Ha0].
  { rewrite Z.sub_0_l, (lit_negative b), (lit_positive b) by lia. reflexivity. }
  destruct (Number_of_bigint_exact a ltac:(lia)) as (ma & ea & Ea & Da & Hea & Hma).
  destruct (Number_of_bigint_exact b ltac:(lia)) as (mb & eb & Eb & Db & Heb & Hmb).
  unfold lit at 1 2. rewrite Ea, Eb. unfold sub. cbn [SFsub cond_Zopp].
  set (ez := Z.min ea eb).
  rewrite (shl_align_value ma ea ez), (shl_align_value mb eb ez) by (unfold ez; lia).
  assert (Hz : Z.pos ma * 2 ^ (ea - ez) - Z.pos mb * 2 ^ (eb - ez)
               = (a - b) * 2 ^ (- ez)).
  { rewrite Hma, Hmb, <- !Z.mul_assoc, <- !Z.pow_add_r by (unfold ez; lia).
    replace (- ea + (ea - ez)) with (- ez) by lia.
    replace (- eb + (eb - ez)) with (- ez) by lia. ring. }
  rewrite Hz.
  assert (Pz := pow2_pos (- ez) ltac:(unfold ez; lia)).
  destruct (Z.lt_trichotomy a b) as [Hlt|[Heq|Hgt]].
  - replace (a - b) with (- (b - a)) by lia.
    rewrite lit_negative by lia.
    destruct (- (b - a) * 2 ^ (- ez)) as [|p|p] eqn:Ep; try nia.
    cbn [binary_normalize].
    apply binary_round_integer; [unfold ez; lia| |lia].
    assert (Z.pos p = - Z.neg p) by reflexivity. nia.
  - subst b. rewrite Z.sub_diag. reflexivity.
  - rewrite lit_positive by lia.
    destruct ((a - b) * 2 ^ (- ez)) as [|p|p] eqn:Ep; try nia.
    cbn [binary_normalize].
    apply binary_round_integer; [unfold ez; lia| |lia]. lia.
Qed.

End ExactArithmetic.

(** ** [timeAgo] *)

Section TimeAgo.

Import Display.

Lemma binary_normalize_negative_sign n e :
  n < 0 -> has_sign true (binary_normalize prec emax n e true).
Proof.
  intros Hn. destruct n as [|p|p]; try lia. cbn [binary_normalize].
  unfold binary_round. destruct (shl_align p e _) as [mz ez].
  apply binary_round_aux_sign.
Qed.

Lemma lit_negative_sign D : D < 0 -> has_sign true (lit D).
Proof.
  intros H. destruct D as [|p|p]; try lia.
  unfold lit, Number_of_bigint. cbn [binary_normalize].
  unfold binary_round. destruct (shl_align p 0 _) as [mz ez].
  apply binary_round_aux_sign.
Qed.

Lemma Math_floor_negative_sign x :
  has_sign true x -> has_sign true (Math_floor x).
Proof.
  destruct x as [a|a| |a m e]; simpl; trivial.
  intros ->. destruct (0 <=? e) eqn:He; simpl; trivial.
  apply binary_normalize_negative_sign.
  unfold floor_finite. rewrite He. cbn [cond_Zopp].
  apply Z.leb_gt in He.
  rewrite Z.shiftr_div_pow2 by lia.
  apply Z.div_lt_upper_bound; [apply pow2_pos; lia|]. lia.
Qed.

Lemma not_gt_zero x : has_sign true x -> gt x (lit 0) = false.
Proof.
  destruct x as [a|a| |a m e]; simpl; trivial; intros ->; reflexivity.
Qed.

(** Dividing a negative age never gives a positive count. *)
Lemma floor_div_negative D c :
  D < 0 -> 0 < c -> gt (Math_floor (div (lit D) (lit c))) (lit 0) = false.
Proof.
  intros HD Hc. apply not_gt_zero, Math_floor_negative_sign.
  apply (div_sign true false); [now apply lit_negative_sign|].
  apply lit_sign. lia.
Qed.

Lemma gt_zero_lit k : 0 <= k < 2 ^ 53 -> gt (lit k) (lit 0) = (0 <? k).
Proof.
  intros Hk. destruct (Z.eq_dec k 0) as [->|Hk0]; [reflexivity|].
  rewrite lit_positive by lia.
  replace (0 <? k) with true by (symmetry; apply Z.ltb_lt; lia).
  reflexivity.
Qed.

Lemma Number_toString_lit k :
  0 < k < 2 ^ 53 -> Number_toString (lit k) = bigint_toString k.
Proof.
  intros Hk.
  destruct (Number_of_bigint_exact k Hk) as (m & e & E & _ & He & Hm).
  unfold lit. rewrite E. unfold Number_toString.
  assert (P := pow2_pos (- e) ltac:(lia)).
  destruct (0 <=? e) eqn:E0.
  - apply Z.leb_le in E0. assert (e = 0) by lia. subst e.
    assert (Ek : Z.pos m * 2 ^ 0 = k) by (rewrite Hm; simpl; lia).
    rewrite Ek.
    replace (k <? 2 ^ 53) with true by (symmetry; apply Z.ltb_lt; lia).
    reflexivity.
  - rewrite Hm, Z_mod_mult, Z_div_mult by lia.
    replace (k <? 2 ^ 53) with true by (symmetry; apply Z.ltb_lt; lia).
    reflexivity.
Qed.

(** One unit of [timeAgo]: the count and whether it is positive. *)
Lemma floor_div_unit D c :
  - 2 ^ 52 < D < 2 ^ 52 -> 2 <= c < 2 ^ 53 ->
  gt (Math_floor (div (lit D) (lit c))) (lit 0) = (0 <? D / c)
  /\ (0 < D / c ->
      Number_toString (Math_floor (div (lit D) (lit c)))
      = bigint_toString (D / c)).
Proof.
  intros HD Hc.
  change (2 ^ 52) with 4503599627370496 in HD.
  destruct (Z.lt_trichotomy D 0) as [Hneg|[->|Hpos]].
  - assert (D / c < 0) by (apply Z.div_lt_upper_bound; lia).
    split.
    + rewrite floor_div_negative by lia.
      symmetry. apply Z.ltb_ge. lia.
    + lia.
  - rewrite Z.div_0_l by lia. split; [|lia].
    rewrite (lit_positive c) by lia. reflexivity.
  - rewrite floor_div by (trivial; change (2 ^ 52) with 4503599627370496; lia).
    assert (Hk : 0 <= D / c < 2 ^ 53).
    { split; [apply Z.div_pos; lia|].
      apply Z.div_lt_upper_bound; [lia|].
      change (2 ^ 53) with 9007199254740992. nia. }
    split; [now apply gt_zero_lit|].
    intros H. apply Number_toString_lit. lia.
Qed.

(** X1. For integral millisecond clocks below 2^52, [timeAgo] is the integer
    computation: whole days if any, else whole hours, else whole minutes,
    else "Just now"; a timestamp in the future gives "Just now". *)
Theorem timeAgo_is_integer_division now timestamp :
  0 <= now < 2 ^ 52 -> 0 <= timestamp < 2 ^ 52 ->
  timeAgo (lit now) (lit timestamp) = timeAgo_integer (now - timestamp)
  /\ (now < timestamp + 60000 ->
      timeAgo (lit now) (lit timestamp) = "Just now"%string).
Proof.
  intros Hn Ht.
  change (2 ^ 52) with 4503599627370496 in Hn, Ht.
  assert (E : timeAgo (lit now) (lit timestamp)
              = timeAgo_integer (now - timestamp)).
  { unfold timeAgo, timeAgo_integer.
    rewrite sub_exact
      by (change (2 ^ 53) with 9007199254740992; lia).
    set (D := now - timestamp).
    assert (HD : - 2 ^ 52 < D < 2 ^ 52)
      by (change (2 ^ 52) with 4503599627370496; unfold D; lia).
    destruct (floor_div_unit D 86400000 HD) as [Gd Td];
      [change (2 ^ 53) with 9007199254740992; lia|].
    destruct (floor_div_unit D 3600000 HD) as [Gh Th];
      [change (2 ^ 53) with 9007199254740992; lia|].
    destruct (floor_div_unit D 60000 HD) as [Gm Tm];
      [change (2 ^ 53) with 9007199254740992; lia|].
    rewrite Gd, Gh, Gm.
    destruct (0 <? D / 86400000) eqn:Ed.
    { apply Z.ltb_lt in Ed. now rewrite Td. }
    destruct (0 <? D / 3600000) eqn:Eh.
    { apply Z.ltb_lt in Eh. now rewrite Th. }
    destruct (0 <? D / 60000) eqn:Em.
    { apply Z.ltb_lt in Em. now rewrite Tm. }
    reflexivity. }
  split; [exact E|].
  intros Hrecent. rewrite E. unfold timeAgo_integer.
  set (D := now - timestamp).
  assert (HD : D < 60000) by (unfold D; lia).
  assert (D / 86400000 <= 0).
  { assert (D / 86400000 < 1); [|lia]. apply Z.div_lt_upper_bound; lia. }
  assert (D / 3600000 <= 0).
  { assert (D / 3600000 < 1); [|lia]. apply Z.div_lt_upper_bound; lia. }
  assert (D / 60000 <= 0).
  { assert (D / 60000 < 1); [|lia]. apply Z.div_lt_upper_bound; lia. }
  replace (0 <? D / 86400000) with false by (symmetry; apply Z.ltb_ge; lia).
  replace (0 <? D / 3600000) with false by (symmetry; apply Z.ltb_ge; lia).
  replace (0 <? D / 60000) with false by (symmetry; apply Z.ltb_ge; lia).
  reflexivity.
Qed.

(** Sixteen minutes and forty seconds. *)
Lemma timeAgo_is_integer_division_witness :
  timeAgo (lit 1700000000000) (lit 1699999000000) = "16m ago"%string.
Proof.
  refine (proj1 (timeAgo_is_integer_division 1700000000000 1699999000000 _ _));
    split; first [reflexivity | discriminate].
Defined.

End TimeAgo.

(** ** [formatAddress] *)

Section FormatAddress.

Import Display.

Lemma length_append (s1 s2 : string) :
  String.length (s1 ++ s2) = (String.length s1 + String.length s2)%nat.
Proof. induction s1 as [|a s1 IH]; simpl; [reflexivity|now rewrite IH]. Qed.

Lemma length_substring (s : string) : forall n m : nat,
  (n + m <= String.length s)%nat -> String.length (substring n m s) = m.
Proof.
  induction s as [|a s IH]; intros n m H; simpl in H.
  - assert (n = 0%nat) by lia. assert (m = 0%nat) by lia. subst. reflexivity.
  - destruct n as [|n]; simpl.
    + destruct m as [|m]; simpl; [reflexivity|]. rewrite IH by lia. reflexivity.
    + apply IH. lia.
Qed.

Lemma substring_all (s : string) : substring 0 (String.length s) s = s.
Proof. induction s as [|a s IH]; simpl; [reflexivity|now rewrite IH]. Qed.

Lemma substring_none (s : string) : substring 0 0 s = ""%string.
Proof. destruct s; reflexivity. Qed.

Lemma formatAddress_cut address chars :
  1 <= chars -> chars * 2 < Z.of_nat (String.length address) ->
  formatAddress address (Some chars)
  = (substring 0 (Z.to_nat chars) address ++ "..."
     ++ substring (String.length address - Z.to_nat chars) (Z.to_nat chars) address)%string.
Proof.
  intros Hc Hlen.
  set (len := String.length address) in *.
  unfold formatAddress.
  replace (Z.of_nat (String.length address) <=? chars * 2) with false
    by (symmetry; apply Z.leb_gt; exact Hlen).
  unfold String_slice_from, String_slice, slice_index. fold len.
  replace (0 <? 0) with false by reflexivity.
  replace (chars <? 0) with false by (symmetry; apply Z.ltb_ge; lia).
  replace (- chars <? 0) with true by (symmetry; apply Z.ltb_lt; lia).
  replace (Z.of_nat len <? 0) with false by (symmetry; apply Z.ltb_ge; lia).
  rewrite (Z.min_l 0) by lia. rewrite (Z.min_l chars) by lia.
  rewrite Z.min_id.
  rewrite (Z.max_l (Z.of_nat len + - chars)) by lia.
  rewrite Z.sub_0_r. rewrite (Z.max_l chars) by lia.
  replace (Z.of_nat len - (Z.of_nat len + - chars)) with chars by lia.
  rewrite (Z.max_l chars) by lia.
  replace (Z.to_nat (Z.of_nat len + - chars)) with (len - Z.to_nat chars)%nat
    by lia.
  reflexivity.
Qed.

(** X2. An address of more than [2 * chars] characters (at least one kept
    at each end) is cut to its first and its last [chars] characters
    around three dots. The result has [2 * chars + 3] characters, so it
    is longer than the address itself when that has [2 * chars + 1] or
    [2 * chars + 2]. *)
Theorem formatAddress_long address chars :
  1 <= chars -> chars * 2 < Z.of_nat (String.length address) ->
  formatAddress address (Some chars)
  = (substring 0 (Z.to_nat chars) address ++ "..."
     ++ substring (String.length address - Z.to_nat chars) (Z.to_nat chars) address)%string
  /\ Z.of_nat (String.length (formatAddress address (Some chars))) = 2 * chars + 3
  /\ (Z.of_nat (String.length address) <= chars * 2 + 2 ->
      (String.length address
       < String.length (formatAddress address (Some chars)))%nat).
Proof.
  intros Hc Hlen.
  assert (E := formatAddress_cut address chars Hc Hlen).
  assert (L : Z.of_nat (String.length (formatAddress address (Some chars)))
              = 2 * chars + 3).
  { rewrite E, !length_append, !length_substring by lia.
    simpl String.length. lia. }
  split; [exact E|]. split; [exact L|]. intros Hshort. lia.
Qed.

Lemma formatAddress_long_witness :
  formatAddress "bc1qar0srrr7xfkvy5l643lydnw9re59gtzzwf5mdq" None
  = "bc1qar0s...zzwf5mdq"%string
  /\ (String.length "abcde" < String.length (formatAddress "abcde" (Some 2%Z)))%nat.
Proof.
  split.
  - etransitivity;
      [exact (proj1 (formatAddress_long
                       "bc1qar0srrr7xfkvy5l643lydnw9re59gtzzwf5mdq" 8
                       ltac:(lia) ltac:(simpl; lia)))
      |reflexivity].
  - apply (formatAddress_long "abcde" 2); simpl; lia.
Defined.

(** X3. With [chars = 0] nothing is cut: [slice(-0)] is the whole string,
    so a non-empty address comes back whole behind three dots. *)
Theorem formatAddress_zero_chars address :
  address <> ""%string ->
  formatAddress address (Some 0) = ("..." ++ address)%string.
Proof.
  intros Hne. unfold formatAddress.
  assert (0 < Z.of_nat (String.length address)).
  { destruct address; [congruence|simpl; lia]. }
  replace (Z.of_nat (String.length address) <=? 0 * 2) with false
    by (symmetry; apply Z.leb_gt; lia).
  unfold String_slice_from, String_slice, slice_index.
  change (- 0) with 0. replace (0 <? 0) with false by reflexivity.
  replace (Z.of_nat (String.length address) <? 0) with false
    by (symmetry; apply Z.ltb_ge; lia).
  rewrite (Z.min_l 0) by lia. rewrite Z.min_id, !Z.sub_0_r.
  rewrite Z.max_id. rewrite (Z.max_l (Z.of_nat _)) by lia.
  rewrite Nat2Z.id. change (Z.to_nat 0) with 0%nat.
  rewrite substring_none, substring_all. reflexivity.
Qed.

Lemma formatAddress_zero_chars_witness :
  formatAddress "sp1abc" (Some 0) = "...sp1abc"%string.
Proof. apply formatAddress_zero_chars. discriminate. Defined.

End FormatAddress.

(** ** More on [calculatePriceImpact] *)

Section PriceImpactValues.

Lemma digits_mono p q :
  Z.pos p <= Z.pos q -> Z.pos (digits2_pos p) <= Z.pos (digits2_pos q).
Proof.
  intros H.
  pose proof (digits_bounds p) as [Lp _].
  pose proof (digits_bounds q) as [_ Uq].
  assert (2 ^ (Z.pos (digits2_pos p) - 1) < 2 ^ Z.pos (digits2_pos q)) by lia.
  apply Z.pow_lt_mono_r_iff in H0; lia.
Qed.

(** The first step of rounding keeps a mantissa positive unless the number
    lies below the subnormal range. *)
Lemma shr_fexp_positive m e l :
  -1073 <= Z.pos (digits2_pos m) + e ->
  0 < shr_m (fst (shr_fexp prec emax (Z.pos m) e l))
  /\ forall p, shr_m (fst (shr_fexp prec emax (Z.pos m) e l)) <= Z.pos p ->
       -1073 <= Z.pos (digits2_pos p) + snd (shr_fexp prec emax (Z.pos m) e l).
Proof.
  intros Hd. unfold shr_fexp. cbn [Zdigits2].
  set (d := Z.pos (digits2_pos m)) in *.
  assert (Hn : fexp prec emax (d + e) - e <= d - 1)
    by (unfold fexp, emin, prec, emax; lia).
  assert (Hf : -1074 <= fexp prec emax (d + e))
    by (unfold fexp, emin, prec, emax; lia).
  destruct (fexp prec emax (d + e) - e) as [|n|n] eqn:En; cbn [shr fst snd].
  - rewrite shr_m_of_loc. split; [lia|]. intros p Hp.
    pose proof (digits_mono m p Hp). fold d in H. lia.
  - rewrite iter_shr_1_div by (rewrite shr_m_of_loc; lia).
    rewrite shr_m_of_loc.
    pose proof (digits_bounds m) as [Lm _]. fold d in Lm.
    assert (Pn := pow2_pos (Z.pos n) ltac:(lia)).
    assert (2 ^ Z.pos n <= 2 ^ (d - 1)) by (apply Z.pow_le_mono_r; lia).
    split.
    + apply Z.div_str_pos. lia.
    + intros p _. pose proof (digits_bounds p).
      assert (0 < Z.pos (digits2_pos p)) by lia. lia.
  - rewrite shr_m_of_loc. split; [lia|]. intros p Hp.
    pose proof (digits_mono m p Hp). fold d in H. lia.
Qed.

(** Rounding never produces a zero from a mantissa above the subnormal
    range. *)
Lemma binary_round_aux_not_zero s m e l :
  -1073 <= Z.pos (digits2_pos m) + e ->
  is_zero (binary_round_aux prec emax s (Z.pos m) e l) = false.
Proof.
  intros Hd. unfold binary_round_aux.
  destruct (shr_fexp_positive m e l Hd) as [P1 X1].
  destruct (shr_fexp prec emax (Z.pos m) e l) as [mrs' e'].
  cbn [fst snd] in P1, X1.
  pose proof (round_nearest_even_bounds (shr_m mrs') (loc_of_shr_record mrs'))
    as [R1 _].
  destruct (round_nearest_even (shr_m mrs') (loc_of_shr_record mrs'))
    as [|p'|p'] eqn:Er; try lia.
  destruct (shr_fexp_positive p' e' loc_Exact (X1 p' R1)) as [P2 _].
  destruct (shr_fexp prec emax (Z.pos p') e' loc_Exact) as [mrs'' e''].
  cbn [fst] in P2.
  destruct (shr_m mrs'') as [|p''|p'']; try lia.
  destruct (e'' <=? _); reflexivity.
Qed.

(** [Number(n)] is a zero only for [n = 0]. *)
Lemma Number_of_bigint_not_zero n :
  n <> 0 -> is_zero (Number_of_bigint n) = false.
Proof.
  intros Hn.
  assert (G : forall s p, is_zero (binary_round prec emax s p 0) = false).
  { intros s p.
    destruct (Z_lt_le_dec (Z.pos p) (2 ^ 53)) as [Hs|Hl].
    - rewrite (binary_round_integer s p 0 (Z.pos p)); try lia.
      reflexivity.
    - unfold binary_round.
      assert (Hd : 53 < Z.pos (digits2_pos p)).
      { pose proof (digits_bounds p) as [_ U].
        apply (Z.pow_lt_mono_r_iff 2); lia. }
      unfold shl_align.
      replace (fexp prec emax (Z.pos (digits2_pos p) + 0) - 0)
        with (Z.pos (digits2_pos p) - 53)
        by (unfold fexp, emin, prec, emax; lia).
      destruct (Z.pos (digits2_pos p) - 53) as [|k|k] eqn:Ek; try lia.
      apply binary_round_aux_not_zero. lia. }
  unfold Number_of_bigint.
  destruct n as [|p|p]; [congruence| |]; cbn [binary_normalize]; apply G.
Qed.

(** A finite number divided by itself is one. *)
Lemma div_self s m e :
  div (S754_finite s m e) (S754_finite s m e) = lit 1.
Proof.
  unfold div, SFdiv, SFdiv_core_binary. cbn [Zdigits2].
  replace (Z.pos (digits2_pos m) + e - (Z.pos (digits2_pos m) + e)) with 0
    by lia.
  rewrite Z.sub_diag.
  change (Z.min (fexp prec emax 0) 0) with (-53).
  change (0 - -53) with 53.
  rewrite Z.shiftl_mul_pow2 by lia.
  assert (E : Z.div_eucl (Z.pos m * 2 ^ 53) (Z.pos m) = (2 ^ 53, 0)).
  { pose proof (Z_div_mod (Z.pos m * 2 ^ 53) (Z.pos m) ltac:(lia)) as H.
    destruct (Z.div_eucl (Z.pos m * 2 ^ 53) (Z.pos m)) as [q r] eqn:Eq.
    destruct H as [H1 H2].
    assert (r = 0).
    { assert (Z.pos m * (2 ^ 53 - q) = r) by lia.
      destruct (Z.eq_dec (2 ^ 53 - q) 0) as [Hz|Hz]; [rewrite Hz in H; lia|].
      assert (Z.pos m <= Z.abs r); [|lia].
      rewrite <- H, Z.abs_mul.
      assert (1 <= Z.abs (2 ^ 53 - q)) by lia.
      rewrite (Z.abs_eq (Z.pos m)) by lia. nia. }
    subst r. f_equal. nia. }
  rewrite E.
  assert (L : new_location (Z.pos m) 0 = loc_Exact).
  { unfold new_location, new_location_even, new_location_odd.
    destruct (Z.even (Z.pos m)); reflexivity. }
  rewrite L. rewrite xorb_nilpotent. reflexivity.
Qed.

(** A finite number minus itself is the positive zero. *)
Lemma sub_self s m e :
  sub (S754_finite s m e) (S754_finite s m e) = S754_zero false.
Proof.
  unfold sub, SFsub. rewrite Z.sub_diag. reflexivity.
Qed.

End PriceImpactValues.

Section PriceImpactAnchors.

(** X4. A trade that pays nothing out: whenever the expected output is a
    finite nonzero double, the price impact is exactly 100. *)
Theorem calculatePriceImpact_total_loss amountIn reserveIn reserveOut :
  is_finite_nonzero (expectedOut amountIn reserveIn reserveOut) = true ->
  calculatePriceImpact amountIn 0 reserveIn reserveOut = Normal (lit 100).
Proof.
  intros Hfin. unfold calculatePriceImpact.
  fold (expectedOut amountIn reserveIn reserveOut).
  destruct (expectedOut amountIn reserveIn reserveOut) as [s|s| |s m e];
    try discriminate.
  change (Number_of_bigint 0) with (S754_zero false).
  change (sub (S754_finite s m e) (S754_zero false)) with (S754_finite s m e).
  rewrite div_self. reflexivity.
Qed.

Lemma calculatePriceImpact_total_loss_witness :
  calculatePriceImpact 1000 0 30000 7 = Normal (lit 100).
Proof. apply calculatePriceImpact_total_loss. reflexivity. Defined.

(** X5. A trade that pays exactly the expected output (as a double, finite
    and nonzero) has price impact [+0]. *)
Theorem calculatePriceImpact_no_impact amountIn amountOut reserveIn reserveOut :
  is_finite_nonzero (expectedOut amountIn reserveIn reserveOut) = true ->
  Number_of_bigint amountOut = expectedOut amountIn reserveIn reserveOut ->
  calculatePriceImpact amountIn amountOut reserveIn reserveOut
  = Normal (S754_zero false).
Proof.
  intros Hfin Heq. unfold calculatePriceImpact.
  fold (expectedOut amountIn reserveIn reserveOut). rewrite Heq.
  destruct (expectedOut amountIn reserveIn reserveOut) as [s|s| |s m e];
    try discriminate.
  rewrite sub_self. destruct s; reflexivity.
Qed.

Lemma calculatePriceImpact_no_impact_witness :
  calculatePriceImpact 1000 250 40000 10000 = Normal (S754_zero false).
Proof.
  apply calculatePriceImpact_no_impact; vm_compute; reflexivity.
Defined.

(** X6. For all arguments, negative ones too, [calculatePriceImpact]
    returns NaN exactly when the double [expectedOut] is NaN or infinite,
    or when it is a zero and [amountOut] is zero as well; with a zero
    [expectedOut] and a nonzero [amountOut] it returns [+Infinity]. *)
Theorem calculatePriceImpact_nan_iff amountIn amountOut reserveIn reserveOut :
  (calculatePriceImpact amountIn amountOut reserveIn reserveOut = Normal NaN
   <-> is_finite_nonzero (expectedOut amountIn reserveIn reserveOut) = false
       /\ (is_zero (expectedOut amountIn reserveIn reserveOut) = true ->
           amountOut = 0))
  /\ (is_zero (expectedOut amountIn reserveIn reserveOut) = true ->
      amountOut <> 0 ->
      calculatePriceImpact amountIn amountOut reserveIn reserveOut
      = Normal PosInfinity).
Proof.
  unfold calculatePriceImpact.
  fold (expectedOut amountIn reserveIn reserveOut).
  pose proof (Number_of_bigint_not_nan amountOut) as Na.
  pose proof (Number_of_bigint_not_zero amountOut) as Za.
  assert (Z0 : amountOut = 0 -> Number_of_bigint amountOut = S754_zero false)
    by (intros ->; reflexivity).
  set (a := Number_of_bigint amountOut) in *.
  destruct (expectedOut amountIn reserveIn reserveOut) as [s|s| |s m e].
  - (* a zero *)
    destruct (Z.eq_dec amountOut 0) as [Hz|Hz].
    + rewrite (Z0 Hz). split; [|congruence].
      split; [intros _; split; [reflexivity|trivial]|].
      intros _. destruct s; reflexivity.
    + specialize (Za Hz). clearbody a.
      assert (E : Normal (Math_abs (mul (div (sub (S754_zero s) a) (S754_zero s))
                                        (lit 100))) = Normal PosInfinity).
      { rewrite lit_100.
        destruct a as [t|t| |t m' e']; try discriminate;
          destruct s, t; reflexivity. }
      split; [|intros _ _; exact E].
      rewrite E. split; [discriminate|].
      intros [_ H]. specialize (H eq_refl). contradiction.
  - (* an infinity *)
    split; [|discriminate].
    split; [intros _; split; [reflexivity|discriminate]|].
    intros _. clearbody a.
    destruct a as [t|t| |t m' e']; try discriminate; destruct s, t; reflexivity.
  - split; [|discriminate].
    split; [intros _; split; [reflexivity|discriminate]|]. reflexivity.
  - (* finite and nonzero *)
    split; [|discriminate].
    split; [|intros [H _]; discriminate].
    intros H. exfalso. clearbody a.
    assert (N : is_nan (Math_abs (mul (div (sub (S754_finite s m e) a)
                                           (S754_finite s m e)) (lit 100)))
                = false).
    { rewrite lit_100.
      assert (forall x, is_nan x = false -> is_nan (Math_abs x) = false)
        as Habs by (intros [ | | | ]; trivial).
      apply Habs, mul_by_finite_not_nan, div_by_finite_not_nan,
        sub_from_finite_not_nan, Na. }
    assert (X : forall x : number, Normal x = Normal NaN -> is_nan x = true)
      by (intros x Hx; injection Hx as ->; reflexivity).
    apply X in H. rewrite N in H. discriminate.
Qed.

End PriceImpactAnchors.

(** ** The edges of [calculateSlippage] *)

Section SlippageEdges.

Lemma lit_10000 : lit 10000 = S754_finite false 5497558138880000 (-39).
Proof. reflexivity. Qed.

Lemma BigInt_of_number_nonpos x k :
  has_sign true x -> BigInt_of_number x = Normal k -> k <= 0.
Proof.
  destruct x as [s|s| |s m e]; unfold has_sign, BigInt_of_number;
    try discriminate.
  - intros _ [= <-]. lia.
  - intros ->.
    assert (N : forall z, 0 <= z -> cond_Zopp true (Z.pos m) * z <= 0).
    { intros z Hz. unfold cond_Zopp. apply Z.mul_nonpos_nonneg; lia. }
    assert (D : forall z, 0 <= z -> cond_Zopp true z <= 0).
    { intros z Hz. unfold cond_Zopp. lia. }
    destruct (0 <=? e) eqn:He.
    + intros [= <-]. apply N. apply Z.pow_nonneg. lia.
    + apply Z.leb_gt in He.
      assert (P : 0 < 2 ^ (- e)) by (apply pow2_pos; lia).
      destruct (Z.pos m mod 2 ^ (- e) =? 0); [|discriminate].
      intros [= <-]. apply D. apply Z.div_pos; lia.
Qed.

(** X24. The edges of [calculateSlippage] in its tolerance. A tolerance
    that is NaN or infinite makes it throw for every amount the
    RangeError of [BigInt], whose message names NaN, Infinity or
    -Infinity. A tolerance with a minus sign never lowers a non-negative
    amount: what is returned is the amount or more. *)
Theorem calculateSlippage_edge_tolerances amount slippageBps :
  (is_finite_nonzero slippageBps = false -> is_zero slippageBps = false ->
   exists y,
     (y = NaN \/ y = PosInfinity \/ y = NegInfinity)
     /\ calculateSlippage amount slippageBps
        = Throw (RangeError (not_an_integer y)))
  /\ (0 <= amount -> has_sign true slippageBps ->
      forall r, calculateSlippage amount slippageBps = Normal r -> amount <= r).
Proof.
  split.
  - intros Hf Hz. unfold calculateSlippage.
    pose proof (Number_of_bigint_not_nan amount) as Na.
    destruct slippageBps as [s|s| |s m e]; try discriminate.
    + rewrite lit_10000.
      destruct s, (Number_of_bigint amount) as [[|]|[|]| |[|] m e];
        try discriminate;
        first [ exists NaN; split; [tauto|reflexivity]
              | exists PosInfinity; split; [tauto|reflexivity]
              | exists NegInfinity; split; [tauto|reflexivity] ].
    + exists NaN. split; [tauto|].
      change (div S754_nan (lit 10000)) with S754_nan.
      destruct (Number_of_bigint amount) as [t|t| |t m e]; reflexivity.
  - intros Ha Hs r. unfold calculateSlippage.
    set (slippageAmount := mul _ _).
    assert (Hm : has_sign true slippageAmount).
    { apply (mul_sign false true); [now apply Number_of_bigint_sign|].
      apply (div_sign true false); [exact Hs|]. apply lit_sign. lia. }
    destruct (BigInt_of_number (Math_floor slippageAmount)) as [k|e] eqn:Ek;
      cbn [bind]; [|discriminate].
    intros [= <-].
    pose proof (BigInt_of_number_nonpos _ _
                  (Math_floor_negative_sign _ Hm) Ek). lia.
Qed.

End SlippageEdges.

(** ** What [executeSwap] resolves to *)

Section SwapOutcomes.

Import Flashnet.

Context {SwapResponse Wallet : Type}.

Lemma swapCatch_fails (e : JS.error) :
  success (swapCatch (SwapResponse := SwapResponse) e) = false
  /\ result (swapCatch (SwapResponse := SwapResponse) e) = None
  /\ exists message,
       error (swapCatch (SwapResponse := SwapResponse) e) = Some message.
Proof.
  unfold swapCatch.
  destruct (includes _ "Insufficient balance");
    [repeat split; eexists; reflexivity|].
  destruct (includes _ "Slippage exceeded");
    [repeat split; eexists; reflexivity|].
  destruct (includes _ "Pool inactive");
    repeat split; eexists; reflexivity.
Qed.


Lemma BigInt_of_number_throws x e :
  BigInt_of_number x = Throw e -> e = RangeError (not_an_integer x).
Proof.
  destruct x as [s|s| |s m ex]; unfold BigInt_of_number;
    try discriminate; try (intros [= <-]; reflexivity).
  destruct (0 <=? ex); [discriminate|].
  destruct (Z.pos m mod 2 ^ (- ex) =? 0); [discriminate|].
  intros [= <-]. reflexivity.
Qed.

(** X8. A tolerance that makes [10000 - maxSlippageBps] a fraction stops
    every swap: [BigInt] throws its RangeError, which names the number,
    and [executeSwap] resolves to the failure its [catch] block makes of
    that error, whatever the SDK's swap would have answered. *)
Theorem executeSwap_fractional_tolerance
    (this : LaunchpadClient SwapResponse Wallet) c params x e simulation :
  client this = Some c ->
  SwapParams.maxSlippageBps params = Some x ->
  truthy_number x = true ->
  BigInt_of_number (sub (lit 10000) x) = Throw e ->
  simulateSwap c (Launchpad.simulationRequest params)
  = Normal (object simulation) ->
  e = RangeError (not_an_integer (sub (lit 10000) x))
  /\ executeSwap this params = Normal (swapCatch e)
  /\ success (swapCatch (SwapResponse := SwapResponse) e) = false.
Proof.
  intros Hc Hx Ht Hb Hs. split; [now apply BigInt_of_number_throws|]. split.
  - unfold executeSwap, getClient. rewrite Hc.
    cbn [bind]. fold (Launchpad.simulationRequest params). rewrite Hs.
    cbn [bind read_property]. unfold swapRequest, slippageProtection, slippageMultiplier,
      slippageTolerance, or_number.
    rewrite Hx, Ht, Hb. reflexivity.
  - apply swapCatch_fails.
Qed.

End SwapOutcomes.

(** A tolerance of 50.5 basis points. *)
Lemma executeSwap_fractional_tolerance_witness :
  Flashnet.executeSwap (initialized (obliging_client 1000))
    (swap_of 5 (Some fifty_and_a_half))
  = Normal
      (Flashnet.failed
         "The number 9949.5 cannot be converted to a BigInt because it is not an integer").
Proof.
  refine (eq_trans
            (proj1 (proj2 (executeSwap_fractional_tolerance
                             (initialized (obliging_client 1000))
                             (obliging_client 1000)
                             (swap_of 5 (Some fifty_and_a_half))
                             fifty_and_a_half
                             (RangeError
                                (not_an_integer (sub (lit 10000) fifty_and_a_half)))
                             (simulated 1000)
                             eq_refl eq_refl eq_refl _ eq_refl))) _);
    vm_compute; reflexivity.
Defined.

(** ** The trading panel's handlers *)

Section TradingPanel.

Import Flashnet TradingInterface.

Lemma slippageOptions_bps s :
  In s slippageOptions -> exists bps, In bps buttonBps /\ mul s (lit 100) = lit bps.
Proof.
  intros [<-|[<-|[<-|[<-|[]]]]].
  - exists 50. split; [simpl; tauto|reflexivity].
  - exists 100. split; [simpl; tauto|reflexivity].
  - exists 250. split; [simpl; tauto|reflexivity].
  - exists 500. split; [simpl; tauto|reflexivity].
Qed.

(** X9. Each slippage button (0.5, 1, 2.5 and 5 percent) reaches
    [executeSwap] as a whole number of basis points (50, 100, 250, 500),
    so the minimum that protects a swap of the trading panel is exactly
    [amountOut * (10000 - bps) / 10000], truncated. *)
Theorem slippage_buttons_are_exact parseFloat poolId assetAAddress st value params :
  In (State.slippage st) slippageOptions ->
  swapParams parseFloat poolId assetAAddress st value = Normal params ->
  exists bps,
    In bps buttonBps
    /\ SwapParams.maxSlippageBps params = Some (lit bps)
    /\ forall simulation,
         slippageProtection params simulation
         = Normal (Z.quot (SwapSimulation.amountOut simulation * (10000 - bps))
                          10000).
Proof.
  intros Hs Hp.
  destruct (slippageOptions_bps _ Hs) as (bps & Hb & E).
  exists bps. split; [exact Hb|].
  unfold swapParams in Hp.
  destruct (BigInt_of_number _) as [amountIn|e]; [|discriminate].
  cbn [bind] in Hp. injection Hp as <-. cbn [SwapParams.maxSlippageBps].
  change (binary_round prec emax false 100 0) with (lit 100).
  rewrite E. split; [reflexivity|]. intros simulation.
  assert (R : 1 <= bps <= 10000).
  { unfold buttonBps in Hb. simpl in Hb. lia. }
  rewrite (slippageProtection_bps _ simulation bps) by (trivial; lia).
  replace (bps =? 0) with false by (symmetry; apply Z.eqb_neq; lia).
  reflexivity.
Qed.

Lemma slippage_buttons_are_exact_witness :
  exists bps,
    In bps buttonBps
    /\ Some (mul two_and_a_half (lit 100)) = Some (lit bps)
    /\ forall simulation,
         slippageProtection
           {| SwapParams.poolId := "pool";
              SwapParams.assetIn := Launchpad.BITCOIN_PUBLIC_KEY;
              SwapParams.assetOut := "token";
              SwapParams.amountIn := 0;
              SwapParams.minAmountOut := 0;
              SwapParams.maxSlippageBps := Some (mul two_and_a_half (lit 100)) |}
           simulation
         = Normal (Z.quot (SwapSimulation.amountOut simulation * (10000 - bps))
                          10000).
Proof.
  exact (slippage_buttons_are_exact
           (fun _ => lit 0) "pool" "token"
           (setSlippage two_and_a_half initialState) "0" _
           ltac:(simpl; tauto) eq_refl).
Defined.

(** X10. A text that [parseFloat] reads as NaN or as [Infinity] is not
    caught by the check for a valid amount: [handleSwap] goes on,
    [BigInt] throws, and the user is told [Swap failed: ] with the
    conversion error, which names the number. No client, initialised or
    not, is asked for anything; the amount stays in the field and the
    panel is not left swapping. For the same text [handleAmountChange]
    shows no quote. *)
Theorem handleSwap_unreadable_amount {SwapResponse Wallet : Type}
    parseFloat (launchpadClient : LaunchpadClient SwapResponse Wallet)
    poolId assetAAddress st :
  State.amount st <> ""%string ->
  parseFloat (State.amount st) = NaN
  \/ parseFloat (State.amount st) = PosInfinity ->
  handleSwap parseFloat launchpadClient poolId assetAAddress st
  = setIsSwapping false
      (say (toast_error
              ("Swap failed: "
               ++ not_an_integer (parseFloat (State.amount st)))) st)
  /\ State.quote
       (handleAmountChange parseFloat launchpadClient poolId assetAAddress
          (State.amount st) st)
     = None.
Proof.
  intros Hne Hx.
  assert (E : (State.amount st =? "")%string = false)
    by now apply String.eqb_neq.
  split.
  - unfold handleSwap, rejected, swapParams. rewrite E.
    destruct Hx as [-> | ->]; cbn [orb SFleb SFcompare];
      destruct (State.swapDirection st); reflexivity.
  - unfold handleAmountChange, quotable, swapParams. rewrite E.
    destruct Hx as [-> | ->]; cbn [negb andb];
      destruct (State.swapDirection st); reflexivity.
Qed.

Lemma handleSwap_unreadable_amount_witness :
  handleSwap unreadable (initialized (obliging_client 1000)) "pool" "token"
    (typed "abc")
  = setIsSwapping false
      (say (toast_error
              "Swap failed: The number NaN cannot be converted to a BigInt because it is not an integer")
           (typed "abc"))
  /\ State.quote
       (handleAmountChange unreadable (initialized (obliging_client 1000))
          "pool" "token" "abc" (typed "abc"))
     = None.
Proof.
  apply (handleSwap_unreadable_amount unreadable
           (initialized (obliging_client 1000)) "pool" "token" (typed "abc"));
    [discriminate|left; reflexivity].
Defined.

End TradingPanel.

(** ** The other methods of [LaunchpadClient] *)

Section LaunchpadMethods.

Import Flashnet Launchpad.

Context {SwapResponse Wallet Pool PoolList Filters Position Invoice : Type}.
Context {LiquidityParams Liquidity : Type}.

Variable env : string -> option string.
Variable SparkWallet_initialize : WalletConfig.t -> completion Wallet.
Variable new_FlashnetClient : Wallet -> FlashnetClient SwapResponse.
Variable FlashnetClient_initialize : FlashnetClient SwapResponse -> completion unit.
Variable sdkReserves : VirtualReserveParams.t -> completion VirtualReserves.t.
Variable createSingleSidedPool :
  FlashnetClient SwapResponse -> CreatePoolRequest.t -> completion Pool.
Variable client_getPool : FlashnetClient SwapResponse -> string -> completion Pool.
Variable client_listPools :
  FlashnetClient SwapResponse -> Filters -> completion PoolList.
Variable noFilters : Filters.
Variable client_getLpPosition :
  FlashnetClient SwapResponse -> string -> completion Position.
Variable client_addLiquidity :
  FlashnetClient SwapResponse -> LiquidityParams -> completion Liquidity.
Variable createLightningInvoice :
  Wallet -> InvoiceRequest.t -> completion Invoice.

(** X11. [initialize] stores the wallet and the client before it calls
    [client.initialize()]: when that call fails, [initialize] reports the
    failure with its message, and yet [getClient] and [getWallet] hand
    out the new client and wallet from then on. When the wallet cannot be
    created the object is left as it was. *)
Theorem initialize_failure_keeps_client
    (mnemonicOrSeed : option string) (this : LaunchpadClient SwapResponse Wallet) :
  (forall w e,
      SparkWallet_initialize (walletConfig env mnemonicOrSeed) = Normal w ->
      FlashnetClient_initialize (new_FlashnetClient w) = Throw e ->
      let (outcome, this') :=
        initialize env SparkWallet_initialize new_FlashnetClient
          FlashnetClient_initialize mnemonicOrSeed this in
      Outcome.success outcome = false
      /\ Outcome.error outcome = Some (message_of e)
      /\ getClient this' = Normal (new_FlashnetClient w)
      /\ getWallet this' = Normal w)
  /\ (forall e,
      SparkWallet_initialize (walletConfig env mnemonicOrSeed) = Throw e ->
      initialize env SparkWallet_initialize new_FlashnetClient
        FlashnetClient_initialize mnemonicOrSeed this
      = (Outcome.failed (message_of e), this)).
Proof.
  split.
  - intros w e Hw Hc. unfold initialize. rewrite Hw, Hc.
    repeat split.
  - intros e Hw. unfold initialize. rewrite Hw. reflexivity.
Qed.

(** X12. The mnemonic [initialize] hands to the wallet is never empty: it
    is the argument when that is a non-empty string, else the
    environment's [MNEMONIC] when that is one, else the well-known test
    mnemonic; the network is [REGTEST] unless the environment names one. *)
Theorem initialize_wallet_configuration (mnemonicOrSeed : option string) :
  WalletConfig.mnemonicOrSeed (walletConfig env mnemonicOrSeed) <> ""%string
  /\ (truthy_string mnemonicOrSeed = true ->
      Some (WalletConfig.mnemonicOrSeed (walletConfig env mnemonicOrSeed))
      = mnemonicOrSeed)
  /\ (truthy_string mnemonicOrSeed = false ->
      truthy_string (env "MNEMONIC") = true ->
      Some (WalletConfig.mnemonicOrSeed (walletConfig env mnemonicOrSeed))
      = env "MNEMONIC")
  /\ (truthy_string mnemonicOrSeed = false ->
      truthy_string (env "MNEMONIC") = false ->
      WalletConfig.mnemonicOrSeed (walletConfig env mnemonicOrSeed)
      = testMnemonic)
  /\ (truthy_string (env "FLASHNET_NETWORK") = false ->
      WalletConfig.network (walletConfig env mnemonicOrSeed) = "REGTEST"%string).
Proof.
  unfold walletConfig, or_undefined, or_string, truthy_string.
  cbn [WalletConfig.mnemonicOrSeed WalletConfig.network].
  destruct mnemonicOrSeed as [a|]; [destruct (a =? "")%string eqn:Ea|];
    (destruct (env "MNEMONIC") as [b|]; [destruct (b =? "")%string eqn:Eb|]);
    (destruct (env "FLASHNET_NETWORK") as [n|];
     [destruct (n =? "")%string eqn:En|]);
    cbn [negb]; rewrite ?Ea, ?Eb;
    repeat split; try discriminate; try reflexivity;
    try (intros H; subst; rewrite String.eqb_refl in *; discriminate).
Qed.

(** X13. [launchToken] throws only for want of a client. With one it
    resolves to a success exactly when the SDK computed the reserves and
    created the pool; the pool is created from the SDK's reserves and
    threshold, written in decimal, and is not asked for at all when the
    reserves could not be computed. *)
Theorem launchToken_outcomes now (this : LaunchpadClient SwapResponse Wallet) params :
  (client this = None ->
   launchToken sdkReserves createSingleSidedPool now this params
   = Throw (Error "Client not initialized - call initialize() first"))
  /\ (forall c e, client this = Some c ->
      sdkReserves (reserveParams params) = Throw e ->
      launchToken sdkReserves createSingleSidedPool now this params
      = Normal (Outcome.failed (message_of e)))
  /\ (forall c reserves, client this = Some c ->
      sdkReserves (reserveParams params) = Normal reserves ->
      launchToken sdkReserves createSingleSidedPool now this params
      = Normal match createSingleSidedPool c (poolRequest now params reserves) with
               | Normal pool => Outcome.succeeded pool
               | Throw e => Outcome.failed (message_of e)
               end
        /\ CreatePoolRequest.threshold (poolRequest now params reserves)
           = bigint_toString (VirtualReserves.threshold reserves)
        /\ CreatePoolRequest.virtualReserveA (poolRequest now params reserves)
           = bigint_toString (VirtualReserves.virtualReserveA reserves)
        /\ CreatePoolRequest.virtualReserveB (poolRequest now params reserves)
           = bigint_toString (VirtualReserves.virtualReserveB reserves)).
Proof.
  split; [|split].
  - intros H. unfold launchToken, getClient. rewrite H. reflexivity.
  - intros c e H Hr. unfold launchToken, getClient. rewrite H. cbn [bind].
    fold (reserveParams params). rewrite Hr. reflexivity.
  - intros c reserves H Hr. unfold launchToken, getClient. rewrite H.
    cbn [bind]. fold (reserveParams params). rewrite Hr. cbn [bind].
    split; [|repeat split].
    destruct (createSingleSidedPool c (poolRequest now params reserves));
      reflexivity.
Qed.

(** X14. The token's name, symbol, description and image never reach the
    SDK: two launches that agree on the other fields and happen in the
    same millisecond are the same to it, down to the address of the new
    token, which is made of the clock's reading alone. *)
Theorem launchToken_ignores_metadata now
    (this : LaunchpadClient SwapResponse Wallet) p q :
  same_launch p q ->
  launchToken sdkReserves createSingleSidedPool now this p
  = launchToken sdkReserves createSingleSidedPool now this q
  /\ forall reserves reserves',
       CreatePoolRequest.assetAAddress (poolRequest now p reserves)
       = CreatePoolRequest.assetAAddress (poolRequest now q reserves').
Proof.
  intros (H1 & H2 & H3 & H4 & H5 & H6). split; [|reflexivity].
  unfold launchToken, poolRequest.
  rewrite H1, H2, H3, H4, H5, H6. reflexivity.
Qed.

(** X15. No error of the SDK leaves the reading and liquidity methods:
    [getSwapQuote], [getPool], [listPools], [getLpPosition] and
    [addLiquidity] throw the not-initialised error when there is no
    client and return otherwise; [createInvoice] does the same on the
    wallet. *)
Theorem methods_throw_only_uninitialised
    (this : LaunchpadClient SwapResponse Wallet)
    params poolId filters liquidity amountSats memo :
  (client this = None ->
   getSwapQuote this params = no_client
   /\ getPool client_getPool this poolId = no_client
   /\ listPools client_listPools noFilters this filters = no_client
   /\ getLpPosition client_getLpPosition this poolId = no_client
   /\ addLiquidity client_addLiquidity this liquidity = no_client)
  /\ (client this <> None ->
      (exists quote, getSwapQuote this params = Normal quote)
      /\ (exists pool, getPool client_getPool this poolId = Normal pool)
      /\ (exists pools,
             listPools client_listPools noFilters this filters = Normal pools)
      /\ (exists position,
             getLpPosition client_getLpPosition this poolId = Normal position)
      /\ (exists outcome,
             addLiquidity client_addLiquidity this liquidity = Normal outcome))
  /\ (wallet this = None ->
      createInvoice createLightningInvoice this amountSats memo
      = Throw (Error "Wallet not initialized - call initialize() first"))
  /\ (wallet this <> None ->
      exists outcome,
        createInvoice createLightningInvoice this amountSats memo
        = Normal outcome).
Proof.
  unfold getSwapQuote, getPool, listPools, getLpPosition, addLiquidity,
    createInvoice, getClient, getWallet.
  split; [|split; [|split]].
  - intros ->. repeat split.
  - destruct (client this) as [c|]; [intros _|congruence]. cbn [bind].
    repeat split.
    + destruct (simulateSwap c _) as [[s| |]|e]; eexists; reflexivity.
    + destruct (client_getPool c _); eexists; reflexivity.
    + destruct (client_listPools c _); eexists; reflexivity.
    + destruct (client_getLpPosition c _); eexists; reflexivity.
    + destruct (client_addLiquidity c _); eexists; reflexivity.
  - intros ->. reflexivity.
  - destruct (wallet this) as [w|]; [intros _|congruence]. cbn [bind].
    destruct (createLightningInvoice w _); eexists; reflexivity.
Qed.


End LaunchpadMethods.

Lemma initialize_failure_keeps_client_witness :
  let (outcome, this') :=
    Launchpad.initialize no_env any_wallet client_of offline None fresh in
  Launchpad.Outcome.success outcome = false
  /\ Launchpad.Outcome.error outcome = Some "network unreachable"%string
  /\ Flashnet.getClient this' = Normal (client_of Launchpad.testMnemonic)
  /\ Launchpad.getWallet this' = Normal Launchpad.testMnemonic.
Proof.
  exact (proj1 (initialize_failure_keeps_client no_env any_wallet client_of
                  offline None fresh)
           Launchpad.testMnemonic (Error "network unreachable")
           eq_refl eq_refl).
Defined.


Lemma launchToken_ignores_metadata_witness :
  Launchpad.launchToken refusing_sdk (fun _ _ => Normal tt) 1700000000000
    (initialized (obliging_client 1000)) (launch_of "Alpha" "ALPHA")
  = Launchpad.launchToken refusing_sdk (fun _ _ => Normal tt) 1700000000000
      (initialized (obliging_client 1000)) (launch_of "Beta" "BETA")
  /\ forall reserves reserves',
       Launchpad.CreatePoolRequest.assetAAddress
         (Launchpad.poolRequest 1700000000000 (launch_of "Alpha" "ALPHA") reserves)
       = Launchpad.CreatePoolRequest.assetAAddress
           (Launchpad.poolRequest 1700000000000 (launch_of "Beta" "BETA") reserves').
Proof.
  apply (launchToken_ignores_metadata refusing_sdk (fun _ _ => Normal tt)).
  repeat split.
Defined.

(** ** The launch form's handlers *)

Section LaunchFormHandlers.

Import Flashnet Launchpad LaunchForm.

Lemma updatePreview_computes sdk f st reserves :
  TokenLaunchForm.previewable (previewFields f) = true ->
  sdk (reserveParams f) = Normal reserves ->
  TokenLaunchForm.PreviewState.previewData
    (TokenLaunchForm.updatePreview sdk (previewFields f) st)
  = Some reserves.
Proof.
  intros Hp Hr. unfold TokenLaunchForm.updatePreview.
  cbn [previewFields TokenLaunchForm.FormData.initialSupply
       TokenLaunchForm.FormData.graduationThresholdPct
       TokenLaunchForm.FormData.targetRaise].
  fold (previewFields f). rewrite Hp.
  fold (reserveParams f). rewrite Hr. reflexivity.
Qed.

(** X17. The preview lags one change behind. When a field of the curve is
    changed, the form takes the new value but the preview is computed
    from the form as it was before: it shows the SDK's reserves for the
    old values, whatever was typed. Making the same change once more
    brings the preview up to the form. *)
Theorem preview_lags_one_change sdk c st reserves :
  previewed c = true ->
  TokenLaunchForm.previewable (previewFields (State.formData st)) = true ->
  sdk (reserveParams (State.formData st)) = Normal reserves ->
  State.formData (handleInputChange sdk c st) = updated c (State.formData st)
  /\ TokenLaunchForm.PreviewState.previewData
       (State.preview (handleInputChange sdk c st))
     = Some reserves
  /\ (forall reserves',
      TokenLaunchForm.previewable
        (previewFields (updated c (State.formData st))) = true ->
      sdk (reserveParams (updated c (State.formData st))) = Normal reserves' ->
      State.formData (handleInputChange sdk c (handleInputChange sdk c st))
      = updated c (State.formData st)
      /\ TokenLaunchForm.PreviewState.previewData
           (State.preview (handleInputChange sdk c (handleInputChange sdk c st)))
         = Some reserves').
Proof.
  intros Hc Hp Hr. split; [reflexivity|]. split.
  - unfold handleInputChange. cbn [State.preview]. rewrite Hc.
    now apply updatePreview_computes.
  - intros reserves' Hp' Hr'. split.
    + destruct c; reflexivity.
    + unfold handleInputChange at 1. cbn [State.preview]. rewrite Hc.
      now apply updatePreview_computes.
Qed.

Lemma preview_lags_one_change_witness :
  State.formData
    (handleInputChange echo_sdk (set_initialSupply 5) initialState)
  = updated (set_initialSupply 5) blankForm
  /\ TokenLaunchForm.PreviewState.previewData
       (State.preview
          (handleInputChange echo_sdk (set_initialSupply 5) initialState))
     = Some {| VirtualReserves.virtualReserveA := 7;
               VirtualReserves.virtualReserveB := 9;
               VirtualReserves.threshold := 7 |}.
Proof.
  pose proof (preview_lags_one_change echo_sdk (set_initialSupply 5)
                initialState _ eq_refl eq_refl eq_refl) as H.
  exact (conj (proj1 H) (proj1 (proj2 H))).
Defined.

Lemma BigInt_of_positive x v :
  match x with S754_finite false _ _ => True | _ => False end ->
  BigInt_of_number x = Normal v -> 1 <= v.
Proof.
  destruct x as [s|s| |[|] m e]; try contradiction. intros _.
  unfold BigInt_of_number. cbn [cond_Zopp].
  destruct (0 <=? e) eqn:He.
  - intros [= <-]. apply Z.leb_le in He.
    assert (0 < 2 ^ e) by (apply pow2_pos; lia).
    assert (1 * 1 <= Z.pos m * 2 ^ e) by (apply Z.mul_le_mono_nonneg; lia).
    change (1 <= Z.pos m * 2 ^ e). lia.
  - apply Z.leb_gt in He.
    assert (P : 0 < 2 ^ (- e)) by (apply pow2_pos; lia).
    destruct (Z.pos m mod 2 ^ (- e) =? 0) eqn:Hm; [|discriminate].
    intros [= <-]. apply Z.eqb_eq in Hm.
    apply Z.div_exact in Hm; [|lia].
    destruct (Z_le_gt_dec 1 (Z.pos m / 2 ^ (- e))) as [|Hlt]; trivial.
    assert (Z.pos m / 2 ^ (- e) <= 0) by lia.
    assert (0 <= Z.pos m / 2 ^ (- e)) by (apply Z.div_pos; lia).
    assert (Z.pos m / 2 ^ (- e) = 0) by lia.
    rewrite H1 in Hm. lia.
Qed.

(** Whatever [parseInt] makes of the text, a supply that the field
    passes on is at least 1. *)
Lemma initialSupply_of_positive parseInt text v :
  initialSupply_of parseInt text = Normal v -> 1 <= v.
Proof.
  unfold initialSupply_of, or_number.
  set (x := parseInt text). clearbody x.
  assert (One : BigInt_of_number (lit 1) = Normal 1) by reflexivity.
  assert (M1 : Math_max (lit 1) (lit 1) = lit 1) by reflexivity.
  destruct (truthy_number x) eqn:Ht.
  - change (lit 1) with (S754_finite false 4503599627370496 (-52)) in *.
    destruct x as [s|s| |s m e]; try discriminate.
    + destruct s; cbn [Math_max SFltb SFcompare].
      * rewrite One. intros [= <-]. lia.
      * discriminate.
    + unfold Math_max.
      destruct (SFltb _ (S754_finite s m e)) eqn:Hlt.
      * apply BigInt_of_positive. destruct s; [discriminate|exact I].
      * rewrite One. intros [= <-]. lia.
  - rewrite M1, One. intros [= <-]. lia.
Qed.

Lemma truthy_or_number x d :
  truthy_number d = true -> truthy_number (or_number (Some x) d) = true.
Proof.
  intros Hd. unfold or_number.
  destruct (truthy_number x) eqn:E; [exact E|exact Hd].
Qed.

Context {SwapResponse Wallet Pool : Type}.

Variables parseInt parseFloat : string -> number.
Variable toUpperCase : string -> string.
Variable sdk : VirtualReserveParams.t -> completion VirtualReserves.t.
Variable createSingleSidedPool :
  FlashnetClient SwapResponse -> CreatePoolRequest.t -> completion Pool.
Variable launchpadClient : LaunchpadClient SwapResponse Wallet.

Lemma handleInputChange_invariant c st :
  form_invariant st ->
  match c with
  | set_initialSupply v => 1 <= v
  | set_lpFeeRateBps v | set_totalHostFeeRateBps v => truthy_number v = true
  | _ => True
  end ->
  form_invariant (handleInputChange sdk c st).
Proof.
  unfold form_invariant. intros (H1 & H2 & H3 & H4) Hc.
  destruct c; cbn; repeat split; trivial.
Qed.

Lemma handleLaunch_invariant now st :
  form_invariant st ->
  form_invariant (handleLaunch sdk createSingleSidedPool launchpadClient now st).
Proof.
  unfold form_invariant. intros (H1 & H2 & H3 & H4). unfold handleLaunch.
  destruct (incomplete (State.formData st)); [cbn; tauto|].
  destruct (launchToken _ _ _ _ _) as [outcome|e];
    [destruct (Outcome.success outcome)|]; cbn; repeat split; trivial; lia.
Qed.

Lemma react_invariant e st :
  form_invariant st ->
  form_invariant
    (react parseInt parseFloat toUpperCase sdk createSingleSidedPool
       launchpadClient e st).
Proof.
  intros H. destruct e; cbn [react];
    try (apply handleInputChange_invariant; [exact H|exact I]).
  - destruct (initialSupply_of parseInt text) as [v|err] eqn:E; [|exact H].
    apply handleInputChange_invariant; [exact H|].
    exact (initialSupply_of_positive parseInt text v E).
  - destruct (targetRaise_of parseFloat text) as [v|err]; [|exact H].
    apply handleInputChange_invariant; [exact H|exact I].
  - apply handleInputChange_invariant; [exact H|].
    now apply truthy_or_number.
  - apply handleInputChange_invariant; [exact H|].
    now apply truthy_or_number.
  - destruct (launchDisabled st); [exact H|].
    now apply handleLaunch_invariant.
Qed.


(** X19. What [handleLaunch] tells the user, for a complete form. Without
    a client: [Launch failed: ] and the not-initialised message. With a
    client: the success toast and a blank form when the SDK computed the
    reserves and created the pool; else an error toast and the form as
    the user left it. *)
Theorem handleLaunch_outcomes now st :
  incomplete (State.formData st) = false ->
  (client launchpadClient = None ->
   handleLaunch sdk createSingleSidedPool launchpadClient now st
   = setIsLaunching false
       (say (TradingInterface.toast_error
               "Launch failed: Client not initialized - call initialize() first")
            st))
  /\ (forall c reserves pool,
      client launchpadClient = Some c ->
      sdk (reserveParams (State.formData st)) = Normal reserves ->
      createSingleSidedPool c (poolRequest now (State.formData st) reserves)
      = Normal pool ->
      handleLaunch sdk createSingleSidedPool launchpadClient now st
      = setFormData blankForm
          (setIsLaunching false
             (say (TradingInterface.toast_success
                     "Token launched successfully! 🚀") st)))
  /\ (forall c,
      client launchpadClient = Some c ->
      (forall reserves pool,
          sdk (reserveParams (State.formData st)) = Normal reserves ->
          createSingleSidedPool c (poolRequest now (State.formData st) reserves)
          <> Normal pool) ->
      exists message,
        handleLaunch sdk createSingleSidedPool launchpadClient now st
        = setIsLaunching false (say (TradingInterface.toast_error message) st)).
Proof.
  intros Hi. unfold handleLaunch. rewrite Hi.
  split; [|split].
  - intros Hc. unfold launchToken, getClient. rewrite Hc. reflexivity.
  - intros c reserves pool Hc Hr Hp.
    unfold launchToken, getClient. rewrite Hc. cbn [bind].
    fold (reserveParams (State.formData st)). rewrite Hr. cbn [bind].
    rewrite Hp. reflexivity.
  - intros c Hc Hno.
    unfold launchToken, getClient. rewrite Hc. cbn [bind].
    fold (reserveParams (State.formData st)).
    destruct (sdk (reserveParams (State.formData st))) as [reserves|e] eqn:Hr;
      cbn [bind try_catch].
    + destruct (createSingleSidedPool c _) as [pool|e] eqn:Hp;
        cbn [bind try_catch].
      * exfalso. exact (Hno reserves pool eq_refl Hp).
      * eexists. reflexivity.
    + eexists. reflexivity.
Qed.

End LaunchFormHandlers.

(** A complete form and a client that was never initialised. *)
Lemma handleLaunch_outcomes_witness :
  LaunchForm.handleLaunch echo_sdk (fun _ _ => Normal tt) fresh 1700000000000
    (LaunchForm.setFormData (launch_of "Alpha" "ALPHA") LaunchForm.initialState)
  = LaunchForm.setIsLaunching false
      (LaunchForm.say
         (TradingInterface.toast_error
            "Launch failed: Client not initialized - call initialize() first")
         (LaunchForm.setFormData (launch_of "Alpha" "ALPHA")
            LaunchForm.initialState)).
Proof.
  exact (proj1 (handleLaunch_outcomes echo_sdk (fun _ _ => Normal tt) fresh
                  1700000000000
                  (LaunchForm.setFormData (launch_of "Alpha" "ALPHA")
                     LaunchForm.initialState)
                  eq_refl)
           eq_refl).
Defined.

(** ** The wallet hook *)

Section WalletHook.

Import Flashnet Launchpad UseWallet.

Context {SwapResponse Wallet Balance : Type}.

Variable env : string -> option string.
Variable SparkWallet_initialize : WalletConfig.t -> completion Wallet.
Variable new_FlashnetClient : Wallet -> FlashnetClient SwapResponse.
Variable FlashnetClient_initialize :
  FlashnetClient SwapResponse -> completion unit.
Variable getAddress : Wallet -> completion string.
Variable getBalance : Wallet -> completion Balance.

(** X20. A connection that fails inside [client.initialize()] tells the
    user so and leaves the hook unconnected, but the wallet it created
    stays in [launchpadClient]: the next time the hook is mounted it
    reports a connected wallet with that wallet's address. *)
Theorem failed_connect_leaves_wallet
    (launchpadClient : LaunchpadClient SwapResponse Wallet)
    (st : State.t Balance) w e a :
  SparkWallet_initialize (walletConfig env None) = Normal w ->
  FlashnetClient_initialize (new_FlashnetClient w) = Throw e ->
  getAddress w = Normal a ->
  let (st', launchpadClient') :=
    connect env SparkWallet_initialize new_FlashnetClient
      FlashnetClient_initialize getAddress getBalance launchpadClient st in
  State.isConnected st' = State.isConnected st
  /\ State.address st' = State.address st
  /\ State.isLoading st' = false
  /\ State.toasts st'
     = State.toasts st
       ++ [TradingInterface.toast_error
             (or_string (Some (message_of e)) "Failed to connect wallet")]
  /\ State.isConnected (mounted getAddress launchpadClient'
                         (initialState (Balance := Balance))) = true
  /\ State.address (mounted getAddress launchpadClient'
                         (initialState (Balance := Balance))) = Some a.
Proof.
  intros Hw Hc Ha. unfold connect, initialize. rewrite Hw, Hc.
  cbn [Outcome.success Outcome.failed Outcome.error].
  unfold mounted, getWallet. cbn [wallet]. rewrite Ha.
  repeat split.
Qed.

(** X21. [disconnect] is local to the hook. After a successful [connect]
    the hook shows the wallet's address and balance; [disconnect] clears
    them, but [launchpadClient] keeps the wallet, and a hook mounted
    afterwards is connected again without any call of [connect]. *)
Theorem disconnect_keeps_wallet
    (launchpadClient : LaunchpadClient SwapResponse Wallet)
    (st : State.t Balance) w a b :
  SparkWallet_initialize (walletConfig env None) = Normal w ->
  FlashnetClient_initialize (new_FlashnetClient w) = Normal tt ->
  getAddress w = Normal a ->
  getBalance w = Normal b ->
  let (st', launchpadClient') :=
    connect env SparkWallet_initialize new_FlashnetClient
      FlashnetClient_initialize getAddress getBalance launchpadClient st in
  State.isConnected st' = true
  /\ State.address st' = Some a
  /\ State.balance st' = Some b
  /\ State.isConnected (disconnect st') = false
  /\ State.address (disconnect st') = None
  /\ State.balance (disconnect st') = None
  /\ State.isConnected (mounted getAddress launchpadClient'
                         (initialState (Balance := Balance))) = true
  /\ State.address (mounted getAddress launchpadClient'
                         (initialState (Balance := Balance))) = Some a.
Proof.
  intros Hw Hc Ha Hb. unfold connect, initialize. rewrite Hw, Hc.
  cbn [Outcome.success Outcome.succeeded_bare].
  unfold mounted, getWallet. cbn [wallet]. rewrite Ha, Hb.
  repeat split.
Qed.

End WalletHook.

Lemma failed_connect_leaves_wallet_witness :
  let (st', launchpadClient') :=
    UseWallet.connect no_env any_wallet client_of offline address_of balance_of
      fresh UseWallet.initialState in
  UseWallet.State.isConnected st' = false
  /\ UseWallet.State.address st' = None
  /\ UseWallet.State.isLoading st' = false
  /\ UseWallet.State.toasts st'
     = [] ++ [TradingInterface.toast_error
                (Launchpad.or_string (Some "network unreachable"%string)
                   "Failed to connect wallet")]
  /\ UseWallet.State.isConnected
       (UseWallet.mounted address_of launchpadClient'
          (UseWallet.initialState (Balance := Z)))
     = true
  /\ UseWallet.State.address
       (UseWallet.mounted address_of launchpadClient'
          (UseWallet.initialState (Balance := Z)))
     = Some Launchpad.testMnemonic.
Proof.
  exact (failed_connect_leaves_wallet no_env any_wallet client_of offline
           address_of balance_of fresh UseWallet.initialState
           Launchpad.testMnemonic (Error "network unreachable")
           Launchpad.testMnemonic eq_refl eq_refl eq_refl).
Defined.

Lemma disconnect_keeps_wallet_witness :
  let (st', launchpadClient') :=
    UseWallet.connect no_env any_wallet client_of online address_of balance_of
      fresh UseWallet.initialState in
  UseWallet.State.isConnected st' = true
  /\ UseWallet.State.address st' = Some Launchpad.testMnemonic
  /\ UseWallet.State.balance st' = Some 21
  /\ UseWallet.State.isConnected (UseWallet.disconnect st') = false
  /\ UseWallet.State.address (UseWallet.disconnect st') = None
  /\ UseWallet.State.balance (UseWallet.disconnect st') = None
  /\ UseWallet.State.isConnected
       (UseWallet.mounted address_of launchpadClient'
          (UseWallet.initialState (Balance := Z)))
     = true
  /\ UseWallet.State.address
       (UseWallet.mounted address_of launchpadClient'
          (UseWallet.initialState (Balance := Z)))
     = Some Launchpad.testMnemonic.
Proof.
  exact (disconnect_keeps_wallet no_env any_wallet client_of online
           address_of balance_of fresh UseWallet.initialState
           Launchpad.testMnemonic Launchpad.testMnemonic 21
           eq_refl eq_refl eq_refl eq_refl).
Defined.

(** ** The dashboard's data *)

Section Sorting.

Import Dashboard.

Context {A : Type}.

Variable comparefn : A -> A -> number.

Lemma In_inserted x y l : In y (inserted comparefn x l) <-> y = x \/ In y l.
Proof.
  induction l as [|z l IH]; cbn [inserted].
  - simpl. intuition.
  - destruct (SFltb (lit 0) (comparefn x z)).
    + simpl. rewrite IH. intuition.
    + simpl. intuition.
Qed.

Lemma In_Array_sort y l : In y (Array_sort comparefn l) <-> In y l.
Proof.
  induction l as [|x l IH]; [reflexivity|].
  cbn [Array_sort fold_right]. fold (Array_sort comparefn l).
  rewrite In_inserted, IH. simpl. intuition.
Qed.

Lemma length_inserted x l :
  List.length (inserted comparefn x l) = S (List.length l).
Proof.
  induction l as [|z l IH]; [reflexivity|]. cbn [inserted].
  destruct (SFltb (lit 0) (comparefn x z)); simpl; [now rewrite IH|reflexivity].
Qed.

Lemma length_Array_sort l :
  List.length (Array_sort comparefn l) = List.length l.
Proof.
  induction l as [|x l IH]; [reflexivity|].
  cbn [Array_sort fold_right]. fold (Array_sort comparefn l).
  rewrite length_inserted, IH. reflexivity.
Qed.

Lemma reduce_sum_shift (f : A -> Z) l a c :
  reduce_sum f l (a + c) = reduce_sum f l a + c.
Proof.
  unfold reduce_sum. revert a. induction l as [|x l IH]; intros a; [reflexivity|].
  cbn [fold_left]. replace (a + c + f x) with (a + f x + c) by lia. apply IH.
Qed.

Lemma reduce_sum_inserted (f : A -> Z) x l a :
  reduce_sum f (inserted comparefn x l) a = reduce_sum f l a + f x.
Proof.
  revert a. induction l as [|z l IH]; intros a; [reflexivity|].
  cbn [inserted]. destruct (SFltb (lit 0) (comparefn x z)).
  - unfold reduce_sum in *. cbn [fold_left]. apply IH.
  - change (reduce_sum f (z :: l) (a + f x) = reduce_sum f (z :: l) a + f x).
    apply reduce_sum_shift.
Qed.

Lemma reduce_sum_Array_sort (f : A -> Z) l a :
  reduce_sum f (Array_sort comparefn l) a = reduce_sum f l a.
Proof.
  revert a. induction l as [|x l IH]; intros a; [reflexivity|].
  cbn [Array_sort fold_right]. fold (Array_sort comparefn l).
  rewrite reduce_sum_inserted, IH.
  change (reduce_sum f (x :: l) a) with (reduce_sum f l (a + f x)).
  symmetry. apply reduce_sum_shift.
Qed.

Lemma filter_inserted (keep : A -> bool) x l :
  List.length (filter keep (inserted comparefn x l))
  = List.length (filter keep (x :: l)).
Proof.
  induction l as [|z l IH]; [reflexivity|]. cbn [inserted].
  destruct (SFltb (lit 0) (comparefn x z)); [|reflexivity].
  cbn [filter] in *. destruct (keep z), (keep x); cbn [List.length] in *; lia.
Qed.

Lemma filter_Array_sort (keep : A -> bool) l :
  List.length (filter keep (Array_sort comparefn l))
  = List.length (filter keep l).
Proof.
  induction l as [|x l IH]; [reflexivity|].
  cbn [Array_sort fold_right]. fold (Array_sort comparefn l).
  rewrite filter_inserted. cbn [filter].
  destruct (keep x); cbn [List.length]; now rewrite IH.
Qed.

(** Where the comparison function is the comparison of an integer key,
    larger keys first, sorting puts the array in descending order. *)
Variable key : A -> Z.
Variable fits : A -> Prop.
Hypothesis comparefn_key :
  forall x y, fits x -> fits y ->
    SFltb (lit 0) (comparefn x y) = (key x <? key y).

Lemma descending_inserted x l :
  fits x -> Forall fits l -> descending key l ->
  descending key (inserted comparefn x l).
Proof.
  intros Fx Fl. induction l as [|z l IH]; intros D.
  - simpl. split; [contradiction|exact I].
  - cbn [inserted]. inversion Fl as [|? ? Fz Fl']; subst.
    rewrite (comparefn_key x z Fx Fz).
    destruct D as [Dz Dl].
    destruct (key x <? key z) eqn:E.
    + apply Z.ltb_lt in E. cbn [descending]. split.
      * intros y Hy. apply In_inserted in Hy. destruct Hy as [->|Hy]; [lia|].
        now apply Dz.
      * now apply IH.
    + apply Z.ltb_ge in E. cbn [descending]. split; [|now split].
      intros y [<-|Hy]; [exact E|]. specialize (Dz y Hy). lia.
Qed.

Lemma Forall_inserted (P : A -> Prop) x l :
  P x -> Forall P l -> Forall P (inserted comparefn x l).
Proof.
  intros Px Pl. apply Forall_forall. intros y Hy.
  apply In_inserted in Hy. destruct Hy as [->|Hy]; [exact Px|].
  rewrite Forall_forall in Pl. now apply Pl.
Qed.

Lemma descending_Array_sort l :
  Forall fits l ->
  descending key (Array_sort comparefn l)
  /\ Forall fits (Array_sort comparefn l).
Proof.
  induction l as [|x l IH]; intros F; [split; [exact I|constructor]|].
  inversion F as [|? ? Fx Fl]; subst. destruct (IH Fl) as [D Fs].
  cbn [Array_sort fold_right]. fold (Array_sort comparefn l). split.
  - now apply descending_inserted.
  - now apply Forall_inserted.
Qed.

Lemma In_firstn n : forall (l : list A) x, In x (firstn n l) -> In x l.
Proof.
  induction n as [|n IH]; intros [|y l] x H; try contradiction.
  cbn [firstn] in H. destruct H as [<-|H]; [now left|right; now apply IH].
Qed.

Lemma descending_firstn n : forall l t p,
  descending key l -> In t (firstn n l) -> In p l ->
  In p (firstn n l) \/ key p <= key t.
Proof.
  induction n as [|n IH]; intros l t p D Ht Hp; [destruct l; contradiction|].
  destruct l as [|x l]; [contradiction|].
  cbn [firstn] in *. destruct D as [Dx Dl].
  destruct Hp as [<-|Hp]; [left; now left|].
  destruct Ht as [<-|Ht]; [right; now apply Dx|].
  destruct (IH l t p Dl Ht Hp) as [H|H]; [left; now right|now right].
Qed.

End Sorting.

Section DashboardData.

Import Flashnet Launchpad Dashboard.

Context {SwapResponse Wallet Filters Position : Type}.

Variable client_listPools :
  FlashnetClient SwapResponse -> Filters -> completion (list PoolInfo.t).
Variable noFilters : Filters.
Variable localeCompare : string -> string -> number.
Variable launchpadClient : LaunchpadClient SwapResponse Wallet.

Lemma volumeNumber_lit pool : volumeNumber pool = lit (volumeOf pool).
Proof.
  unfold volumeNumber, volumeOf.
  destruct (PoolInfo.volume24h pool) as [v|]; [|reflexivity].
  destruct (truthy_bigint v); reflexivity.
Qed.

Lemma byVolume_key a b :
  0 <= volumeOf a < 2 ^ 53 -> 0 <= volumeOf b < 2 ^ 53 ->
  SFltb (lit 0) (byVolume a b) = (volumeOf a <? volumeOf b).
Proof.
  intros Ha Hb. unfold byVolume. rewrite !volumeNumber_lit.
  rewrite sub_exact by trivial.
  destruct (Z_lt_le_dec (volumeOf b - volumeOf a) 0) as [Hn|Hp].
  - change (SFltb (lit 0) (lit (volumeOf b - volumeOf a)))
      with (Display.gt (lit (volumeOf b - volumeOf a)) (lit 0)).
    rewrite not_gt_zero by now apply lit_negative_sign.
    symmetry. apply Z.ltb_ge. lia.
  - change (SFltb (lit 0) (lit (volumeOf b - volumeOf a)))
      with (Display.gt (lit (volumeOf b - volumeOf a)) (lit 0)).
    rewrite gt_zero_lit by lia.
    destruct (0 <? volumeOf b - volumeOf a) eqn:E.
    + apply Z.ltb_lt in E. symmetry. apply Z.ltb_lt. lia.
    + apply Z.ltb_ge in E. symmetry. apply Z.ltb_ge. lia.
Qed.

(** X22. The statistics of the dashboard count the single-sided pools of
    the SDK's answer and nothing else: as many tokens launched as active
    pools, the sum of their volumes, and the graduated ones among them,
    never more than the pools. Neither sort changes them. When the
    client is missing or the SDK fails, all of them are zero and the
    lists are empty; the dashboard never stays loading. *)
Theorem loadDashboardData_statistics (st : State.t Position) :
  (forall c pools,
      client launchpadClient = Some c ->
      client_listPools c noFilters = Normal pools ->
      let bonding := bondingCurvePools pools in
      State.stats
        (loadDashboardData client_listPools noFilters localeCompare
           launchpadClient st)
      = {| LaunchpadStats.totalTokensLaunched := List.length bonding;
           LaunchpadStats.totalVolumeTraded := reduce_sum volumeOf bonding 0;
           LaunchpadStats.totalGraduated :=
             List.length (filter graduated bonding);
           LaunchpadStats.activePools := List.length bonding |}
      /\ (List.length (filter graduated bonding) <= List.length bonding)%nat)
  /\ (client launchpadClient = None
      \/ (exists c e, client launchpadClient = Some c
                      /\ client_listPools c noFilters = Throw e) ->
      loadDashboardData client_listPools noFilters localeCompare
        launchpadClient st
      = {| State.stats := noStats;
           State.trendingPools := [];
           State.recentLaunches := [];
           State.userPositions := [];
           State.isLoading := false |})
  /\ State.isLoading
       (loadDashboardData client_listPools noFilters localeCompare
          launchpadClient st) = false.
Proof.
  split; [|split].
  - intros c pools Hc Hp bonding.
    unfold loadDashboardData, listPools, getClient. rewrite Hc.
    cbn [bind]. rewrite Hp. cbn [bind try_catch State.stats].
    fold bonding. split.
    + f_equal.
      * now rewrite !length_Array_sort.
      * change (reduce_sum volumeOf
                  (Array_sort (byIdDescending localeCompare)
                     (Array_sort byVolume bonding)) 0
                = reduce_sum volumeOf bonding 0).
        now rewrite !reduce_sum_Array_sort.
      * now rewrite !filter_Array_sort.
      * now rewrite !length_Array_sort.
    + apply filter_length_le.
  - intros [Hc|(c & e & Hc & He)];
      unfold loadDashboardData, listPools, getClient; rewrite Hc.
    + reflexivity.
    + cbn [bind]. rewrite He. reflexivity.
  - unfold loadDashboardData.
    destruct (listPools _ _ _ _); reflexivity.
Qed.

(** X23. The trending pools are the three single-sided pools with the
    largest 24-hour volume (all of them when there are fewer), for
    volumes below 2^53: every single-sided pool is one of them or has
    no more volume than each of them. *)
Theorem trending_are_top_three (st : State.t Position) c pools :
  client launchpadClient = Some c ->
  client_listPools c noFilters = Normal pools ->
  Forall (fun pool => 0 <= volumeOf pool < 2 ^ 53) (bondingCurvePools pools) ->
  let trending :=
    State.trendingPools
      (loadDashboardData client_listPools noFilters localeCompare
         launchpadClient st) in
  List.length trending = Nat.min 3 (List.length (bondingCurvePools pools))
  /\ (forall t, In t trending ->
        In t pools /\ PoolInfo.curveType t = SINGLE_SIDED)
  /\ (forall t p,
        In t trending -> In p (bondingCurvePools pools) ->
        In p trending \/ volumeOf p <= volumeOf t).
Proof.
  intros Hc Hp Hv. unfold loadDashboardData, listPools, getClient.
  rewrite Hc. cbn [bind]. rewrite Hp. cbn [bind try_catch State.trendingPools].
  set (bonding := bondingCurvePools pools) in *.
  destruct (descending_Array_sort byVolume volumeOf
              (fun pool => 0 <= volumeOf pool < 2 ^ 53) byVolume_key
              bonding Hv) as [D _].
  split; [|split].
  - rewrite length_firstn, length_Array_sort. reflexivity.
  - intros t Ht. apply In_firstn in Ht. apply In_Array_sort in Ht.
    unfold bonding, bondingCurvePools in Ht. apply filter_In in Ht.
    destruct Ht as [Hin Hk]. split; [exact Hin|].
    destruct (PoolInfo.curveType t); try discriminate. reflexivity.
  - intros t p Ht Hpin.
    apply (descending_firstn volumeOf 3 _ t p D Ht).
    now apply In_Array_sort.
Qed.

End DashboardData.

Lemma trending_are_top_three_witness :
  let trending :=
    Dashboard.State.trendingPools
      (Dashboard.loadDashboardData listing tt indifferent
         (initialized (obliging_client 1000)) loading) in
  List.length trending
  = Nat.min 3 (List.length (Dashboard.bondingCurvePools sample_pools))
  /\ (forall t, In t trending ->
        In t sample_pools
        /\ Dashboard.PoolInfo.curveType t = Dashboard.SINGLE_SIDED)
  /\ (forall t p,
        In t trending -> In p (Dashboard.bondingCurvePools sample_pools) ->
        In p trending \/ Dashboard.volumeOf p <= Dashboard.volumeOf t).
Proof.
  apply (trending_are_top_three listing tt indifferent
           (initialized (obliging_client 1000)) loading
           (obliging_client 1000) sample_pools eq_refl eq_refl).
  repeat constructor; cbn; lia.
Defined.

(** ** Whole amounts *)

Section WholeAmounts.

Import Flashnet.

(** The product of two positive integers is exact as long as it stays
    below 2^53. *)
Lemma mul_exact a b :
  0 < a -> 0 < b -> a * b < 2 ^ 53 -> mul (lit a) (lit b) = lit (a * b).
Proof.
  intros Ha Hb Hab.
  assert (Ha53 : a < 2 ^ 53) by nia.
  assert (Hb53 : b < 2 ^ 53) by nia.
  destruct (Number_of_bigint_exact a ltac:(lia)) as (ma & ea & Ea & Da & Hea & Hma).
  destruct (Number_of_bigint_exact b ltac:(lia)) as (mb & eb & Eb & Db & Heb & Hmb).
  unfold lit at 1 2. rewrite Ea, Eb.
  rewrite (lit_positive (a * b)) by nia.
  unfold mul. cbn [SFmul xorb].
  pose proof (digits_bounds ma) as [La _]. rewrite Da in La.
  pose proof (digits_bounds mb) as [Lb _]. rewrite Db in Lb.
  change (2 ^ (53 - 1)) with 4503599627370496 in La, Lb.
  set (M := (ma * mb)%positive).
  assert (HM : Z.pos M = Z.pos ma * Z.pos mb) by reflexivity.
  assert (Hd : 104 < Z.pos (digits2_pos M)).
  { pose proof (digits_bounds M) as [_ U].
    apply (Z.pow_lt_mono_r_iff 2); [lia|lia|].
    change (2 ^ 104) with (4503599627370496 * 4503599627370496). nia. }
  rewrite <- (binary_round_integer false M (ea + eb) (a * b)).
  - unfold binary_round, shl_align.
    replace (fexp prec emax (Z.pos (digits2_pos M) + (ea + eb)) - (ea + eb))
      with (Z.pos (digits2_pos M) - 53)
      by (unfold fexp, emin, prec, emax; lia).
    destruct (Z.pos (digits2_pos M) - 53) as [|k|k] eqn:Ek; try lia.
    reflexivity.
  - lia.
  - rewrite HM, Hma, Hmb.
    replace (- (ea + eb)) with (- ea + - eb) by lia.
    rewrite Z.pow_add_r by lia. ring.
  - nia.
Qed.

Lemma BigInt_floor_lit k :
  0 <= k < 2 ^ 53 -> BigInt_of_number (Math_floor (lit k)) = Normal k.
Proof.
  intros Hk. destruct (Z.eq_dec k 0) as [->|Hk0]; [reflexivity|].
  destruct (Number_of_bigint_exact k ltac:(lia)) as (m & e & E & D & He & Hm).
  unfold lit. rewrite E.
  destruct (Z.eq_dec e 0) as [->|He0].
  - cbn [Math_floor Z.leb Z.compare BigInt_of_number cond_Zopp].
    f_equal. rewrite Hm. simpl. lia.
  - rewrite BigInt_floor_finite by (trivial; lia).
    f_equal. rewrite Hm. apply Z_div_mult. apply Z.lt_gt, pow2_pos. lia.
Qed.

(** X25. Whole amounts convert exactly. When [parseFloat] reads the text
    as the whole number [n] and [n * 100000000] is below 2^53, the
    target-raise field passes on exactly [n * 100000000] satoshis, and
    the trading panel asks for exactly [n * 100000000] satoshis when
    buying and [n * 1000000] token units when selling. *)
Theorem whole_amounts_convert_exactly parseFloat text n :
  parseFloat text = lit n ->
  0 <= n -> n * 100000000 < 2 ^ 53 ->
  LaunchForm.targetRaise_of parseFloat text = Normal (n * 100000000)
  /\ forall poolId assetAAddress st,
       exists params,
         TradingInterface.swapParams parseFloat poolId assetAAddress st text
         = Normal params
         /\ SwapParams.amountIn params
            = n * match TradingInterface.State.swapDirection st with
                  | TradingInterface.buy => 100000000
                  | TradingInterface.sell => 1000000
                  end.
Proof.
  intros Hp Hn Hb.
  change (2 ^ 53) with 9007199254740992 in Hb.
  destruct (Z.eq_dec n 0) as [->|Hn0].
  - split.
    + unfold LaunchForm.targetRaise_of. rewrite Hp. reflexivity.
    + intros poolId assetAAddress st.
      unfold TradingInterface.swapParams. rewrite Hp.
      destruct (TradingInterface.State.swapDirection st);
        eexists; split; reflexivity.
  - assert (T : truthy_number (lit n) = true).
    { rewrite lit_positive
        by (change (2 ^ 53) with 9007199254740992; lia). reflexivity. }
    split.
    + unfold LaunchForm.targetRaise_of, or_number. rewrite Hp, T.
      rewrite mul_exact
        by (change (2 ^ 53) with 9007199254740992; lia).
      apply BigInt_floor_lit. change (2 ^ 53) with 9007199254740992. lia.
    + intros poolId assetAAddress st.
      unfold TradingInterface.swapParams, TradingInterface.unitsPer.
      rewrite Hp.
      destruct (TradingInterface.State.swapDirection st).
      * rewrite mul_exact
          by (change (2 ^ 53) with 9007199254740992; lia).
        rewrite BigInt_floor_lit
          by (change (2 ^ 53) with 9007199254740992; lia).
        eexists. split; reflexivity.
      * rewrite mul_exact
          by (change (2 ^ 53) with 9007199254740992; lia).
        rewrite BigInt_floor_lit
          by (change (2 ^ 53) with 9007199254740992; lia).
        eexists. split; reflexivity.
Qed.

End WholeAmounts.

(** Twenty-one whole bitcoin. *)
Lemma whole_amounts_convert_exactly_witness :
  LaunchForm.targetRaise_of (fun _ => lit 21) "21" = Normal 2100000000.
Proof.
  exact (proj1 (whole_amounts_convert_exactly (fun _ => lit 21) "21" 21
                  eq_refl ltac:(discriminate) eq_refl)).
Defined.

(** ** Units of the displayed amounts *)

Section Thresholds.

(** Rounding only raises the exponent. *)
Lemma shr_exponent mrs e n : e <= snd (shr mrs e n) /\ e + n <= snd (shr mrs e n).
Proof. destruct n; cbn [shr snd]; lia. Qed.

Lemma binary_round_aux_exponent s m e l :
  match binary_round_aux prec emax s (Z.pos m) e l with
  | S754_finite _ _ e' => fexp prec emax (Z.pos (digits2_pos m) + e) <= e'
  | _ => True
  end.
Proof.
  unfold binary_round_aux, shr_fexp. cbn [Zdigits2].
  set (f := fexp prec emax (Z.pos (digits2_pos m) + e)).
  pose proof (shr_exponent (shr_record_of_loc (Z.pos m) l) e (f - e)) as [_ H1].
  destruct (shr (shr_record_of_loc (Z.pos m) l) e (f - e)) as [mrs' e'].
  cbn [snd] in H1.
  set (m' := round_nearest_even (shr_m mrs') (loc_of_shr_record mrs')).
  pose proof (shr_exponent (shr_record_of_loc m' loc_Exact) e'
                (fexp prec emax (Zdigits2 m' + e') - e')) as [H2 _].
  destruct (shr (shr_record_of_loc m' loc_Exact) e'
              (fexp prec emax (Zdigits2 m' + e') - e')) as [mrs'' e''].
  cbn [snd] in H2.
  destruct (shr_m mrs''); trivial.
  destruct (e'' <=? _); [lia|trivial].
Qed.

(** [Number(v)] of an integer of 2^53 or more is [Infinity] or a double
    whose last place is worth 2 or more. *)
Lemma Number_of_bigint_large v :
  2 ^ 53 <= v ->
  Number_of_bigint v = PosInfinity
  \/ exists m e, Number_of_bigint v = S754_finite false m e /\ 1 <= e.
Proof.
  intros Hv. destruct v as [|p|p]; try (change (2 ^ 53) with 9007199254740992 in Hv; lia).
  assert (Hd : 53 < Z.pos (digits2_pos p)).
  { pose proof (digits_bounds p) as [_ U].
    apply (Z.pow_lt_mono_r_iff 2); lia. }
  unfold Number_of_bigint. cbn [binary_normalize]. unfold binary_round, shl_align.
  assert (F : fexp prec emax (Z.pos (digits2_pos p) + 0) = Z.pos (digits2_pos p) - 53)
    by (unfold fexp, emin, prec, emax; lia).
  rewrite F.
  destruct (Z.pos (digits2_pos p) - 53 - 0) as [|k|k] eqn:Ek; try lia.
  pose proof (binary_round_aux_exponent false p 0 loc_Exact) as X.
  pose proof (binary_round_aux_sign false (Z.pos p) 0 loc_Exact) as S.
  pose proof (binary_round_aux_not_nan false (Z.pos p) 0 loc_Exact ltac:(lia)) as N.
  pose proof (binary_round_aux_not_zero false p 0 loc_Exact ltac:(lia)) as Z0.
  rewrite F in X.
  destruct (binary_round_aux prec emax false (Z.pos p) 0 loc_Exact)
    as [s|s| |s m e]; try discriminate.
  - simpl in S. subst. now left.
  - simpl in S. subst. right. exists m, e. split; [reflexivity|lia].
Qed.

Lemma compare_canonical a b :
  0 < a < 2 ^ 53 -> 0 < b < 2 ^ 53 ->
  SFcompare (canonical_of false a) (canonical_of false b) = Some (a ?= b).
Proof.
  intros Ha Hb. unfold canonical_of.
  destruct a as [|pa|pa]; try lia. destruct b as [|pb|pb]; try lia.
  cbn [Z.to_pos SFcompare].
  pose proof (digits_bounds pa) as [La Ua].
  pose proof (digits_bounds pb) as [Lb Ub].
  set (da := Z.pos (digits2_pos pa)) in *.
  set (db := Z.pos (digits2_pos pb)) in *.
  assert (Ra : 1 <= da <= 53).
  { split; [unfold da; lia|].
    assert (da - 1 < 53); [|lia]. apply (Z.pow_lt_mono_r_iff 2); lia. }
  assert (Rb : 1 <= db <= 53).
  { split; [unfold db; lia|].
    assert (db - 1 < 53); [|lia]. apply (Z.pow_lt_mono_r_iff 2); lia. }
  destruct (Z.compare_spec (da - 53) (db - 53)) as [E|E|E].
  - assert (da = db) by lia.
    assert (P : 0 < 2 ^ (53 - da)) by (apply pow2_pos; lia).
    replace db with da by trivial.
    assert (SW : forall c, Pos.switch_Eq Eq c = c) by (intros []; reflexivity).
    rewrite Pos.compare_cont_spec, SW.
    rewrite <- Z2Pos.inj_compare by nia.
    f_equal.
    destruct (Z.compare_spec (Z.pos pa) (Z.pos pb)) as [C|C|C].
    + rewrite C. apply Z.compare_refl.
    + apply Z.compare_lt_iff. nia.
    + apply Z.compare_gt_iff. nia.
  - f_equal. symmetry. apply Z.compare_lt_iff.
    assert (2 ^ da <= 2 ^ (db - 1)) by (apply Z.pow_le_mono_r; lia). lia.
  - f_equal. symmetry. apply Z.compare_gt_iff.
    assert (2 ^ db <= 2 ^ (da - 1)) by (apply Z.pow_le_mono_r; lia). lia.
Qed.

(** Converting a bigint to a double never moves it across a positive
    integer below 2^53. *)
Lemma le_lit_Number c v :
  0 < c < 2 ^ 53 -> SFleb (lit c) (Number_of_bigint v) = (c <=? v).
Proof.
  intros Hc.
  rewrite (lit_positive c Hc).
  destruct (Z_lt_le_dec v (2 ^ 53)) as [Hs|Hl].
  - destruct (Z_lt_le_dec 0 v) as [Hp|Hn].
    + change (Number_of_bigint v) with (lit v).
      rewrite (lit_positive v) by lia.
      unfold SFleb. rewrite compare_canonical by lia.
      unfold Z.leb. destruct (c ?= v); reflexivity.
    + replace (c <=? v) with false by (symmetry; apply Z.leb_gt; lia).
      destruct (Z.eq_dec v 0) as [->|Hv0]; [reflexivity|].
      pose proof (lit_negative_sign v ltac:(lia)) as S.
      unfold lit in S. unfold canonical_of.
      destruct (Number_of_bigint v) as [s|s| |s m e]; simpl in S; subst;
        reflexivity.
  - replace (c <=? v) with true by (symmetry; apply Z.leb_le; lia).
    unfold canonical_of.
    assert (Dc : Z.pos (digits2_pos (Z.to_pos c)) <= 53).
    { pose proof (digits_bounds (Z.to_pos c)) as [L _].
      rewrite Z2Pos.id in L by lia.
      assert (Z.pos (digits2_pos (Z.to_pos c)) - 1 < 53); [|lia].
      apply (Z.pow_lt_mono_r_iff 2); lia. }
    destruct (Number_of_bigint_large v Hl) as [->|(m & e & -> & He)];
      [reflexivity|].
    unfold SFleb. cbn [SFcompare].
    replace (Z.pos (digits2_pos (Z.to_pos c)) - 53 ?= e) with Lt
      by (symmetry; apply Z.compare_lt_iff; lia).
    reflexivity.
Qed.

(** X26. The unit of [formatVolume] and [formatMarketCap] is chosen by
    the bigint itself: rounding it to a double never moves an amount
    across 10^3, 10^6 or 10^9, whatever its size or sign. From 10^6 on a
    volume is shown in millions with [M], from 10^3 on in thousands with
    [K], below that as it is; a market cap likewise, with [B] from 10^9
    on. *)
Theorem format_units_follow_the_integer toLocaleString toFixed amount :
  Display.formatVolume toLocaleString amount
  = (if 1000000 <=? amount then
       (toLocaleString (div (Number_of_bigint amount) (lit 1000000)) (lit 1)
        ++ "M")%string
     else if 1000 <=? amount then
       (toLocaleString (div (Number_of_bigint amount) (lit 1000)) (lit 1)
        ++ "K")%string
     else toLocaleString (Number_of_bigint amount) (lit 2))
  /\ Display.formatMarketCap toFixed amount
     = String.append "$"
         (if 1000000000 <=? amount then
            (toFixed (div (Number_of_bigint amount) (lit 1000000000)) (lit 2)
             ++ "B")%string
          else if 1000000 <=? amount then
            (toFixed (div (Number_of_bigint amount) (lit 1000000)) (lit 2)
             ++ "M")%string
          else if 1000 <=? amount then
            (toFixed (div (Number_of_bigint amount) (lit 1000)) (lit 2)
             ++ "K")%string
          else toFixed (Number_of_bigint amount) (lit 2)).
Proof.
  unfold Display.formatVolume, Display.formatMarketCap, Display.formatNumber,
    Display.ge.
  rewrite !le_lit_Number by (change (2 ^ 53) with 9007199254740992; lia).
  split.
  - destruct (1000000 <=? amount); [reflexivity|].
    destruct (1000 <=? amount); reflexivity.
  - destruct (1000000000 <=? amount); [reflexivity|].
    destruct (1000000 <=? amount); [reflexivity|].
    destruct (1000 <=? amount); reflexivity.
Qed.

End Thresholds.
